(** * Mergington High School activities API: in-memory collection and router

    A shallow embedding of [src/backend/database_old.py] (the in-memory
    collection that mimics a document-database client) and of
    [src/backend/routers/activities.py] (the HTTP handlers with their
    response cache), followed by the properties of the written
    specification that concern them.  The router takes
    [activities_collection] and [teachers_collection] from the database
    module; they are the [InMemoryCollection] of [database_old.py] here.

    Python dictionaries are association lists in insertion order: the
    order of [items()] decides the order of [find]'s result and therefore
    the pagination slice.  Exceptions are explicit: every function that
    can raise returns in [exc]. *)

From Equations Require Import Equations.
From Stdlib Require Import List String Ascii ZArith Bool Arith Lia DecimalString.
From Stdlib Require Import Sorted.
From Stdlib Require OrdersEx.
Import ListNotations.
Set Warnings "-register-all".
Open Scope string_scope.
Open Scope list_scope.

(** ** Exceptions *)

Inductive pyerr : Type :=
| KeyError
| TypeError
| AttributeError
| IndexError
| ValueError
| ZeroDivisionError
| HTTPException (status_code : Z) (detail : string).

Inductive exc (A : Type) : Type :=
| Ok (a : A)
| Raise (e : pyerr).
Arguments Ok {A} a.
Arguments Raise {A} e.

Definition ebind {A B : Type} (c : exc A) (k : A -> exc B) : exc B :=
  match c with
  | Ok a => k a
  | Raise e => Raise e
  end.

Notation "x <- c ;; k" := (ebind c (fun x => k))
  (at level 61, c at next level, right associativity).

Definition inspect {A : Type} (a : A) : {b : A | a = b} := exist _ a eq_refl.

(** ** Python values *)

Module Py.

(** The fragment of Python's object universe that the documents of the
    seed data use: integers, strings, lists and string-keyed dicts. *)
Inductive value : Type :=
| VInt (z : Z)
| VStr (s : string)
| VList (l : list value)
| VDict (d : list (string * value)).

Definition dict : Type := list (string * value).

Section Assoc.
Context {K V : Type} (keq : K -> K -> bool).

(** [d.get(k)] *)
Fixpoint assoc_get (k : K) (d : list (K * V)) : option V :=
  match d with
  | [] => None
  | (k', v) :: rest => if keq k' k then Some v else assoc_get k rest
  end.

(** [d[k] = v]: an existing key keeps its position, a new key goes last. *)
Fixpoint assoc_set (k : K) (v : V) (d : list (K * V)) : list (K * V) :=
  match d with
  | [] => [(k, v)]
  | (k', v') :: rest =>
      if keq k' k then (k', v) :: rest else (k', v') :: assoc_set k v rest
  end.

(** [d.pop(k)] keeps every entry but the one of [k]. *)
Fixpoint assoc_del (k : K) (d : list (K * V)) : list (K * V) :=
  match d with
  | [] => []
  | (k', v') :: rest =>
      if keq k' k then rest else (k', v') :: assoc_del k rest
  end.
End Assoc.

Definition dict_get {V : Type} (k : string) (d : list (string * V)) : option V :=
  assoc_get String.eqb k d.
Definition dict_set {V : Type} (k : string) (v : V) (d : list (string * V)) :=
  assoc_set String.eqb k v d.
Definition dict_del {V : Type} (k : string) (d : list (string * V)) :=
  assoc_del String.eqb k d.
Definition dict_has {V : Type} (k : string) (d : list (string * V)) : bool :=
  match dict_get k d with Some _ => true | None => false end.

(** [a == b] *)
Fixpoint py_eq (a b : value) {struct a} : bool :=
  match a, b with
  | VInt x, VInt y => Z.eqb x y
  | VStr x, VStr y => String.eqb x y
  | VList xs, VList ys =>
      (fix go (xs ys : list value) {struct xs} : bool :=
         match xs, ys with
         | [], [] => true
         | x :: xs', y :: ys' => py_eq x y && go xs' ys'
         | _, _ => false
         end) xs ys
  | VDict d1, VDict d2 =>
      Nat.eqb (List.length d1) (List.length d2) &&
      (fix go (d : list (string * value)) {struct d} : bool :=
         match d with
         | [] => true
         | (k, v) :: d' =>
             match assoc_get String.eqb k d2 with
             | Some w => py_eq v w
             | None => false
             end && go d'
         end) d1
  | _, _ => false
  end.

(** [a < b]; comparing values of different kinds, or two dicts, is a
    [TypeError]. *)
Fixpoint py_lt (a b : value) {struct a} : exc bool :=
  match a, b with
  | VInt x, VInt y => Ok (Z.ltb x y)
  | VStr x, VStr y => Ok (String.ltb x y)
  | VList xs, VList ys =>
      (fix go (xs ys : list value) {struct xs} : exc bool :=
         match xs, ys with
         | [], [] => Ok false
         | [], _ :: _ => Ok true
         | _ :: _, [] => Ok false
         | x :: xs', y :: ys' => if py_eq x y then go xs' ys' else py_lt x y
         end) xs ys
  | _, _ => Raise TypeError
  end.

(** [a > b] *)
Fixpoint py_gt (a b : value) {struct a} : exc bool :=
  match a, b with
  | VInt x, VInt y => Ok (Z.gtb x y)
  | VStr x, VStr y => Ok (String.ltb y x)
  | VList xs, VList ys =>
      (fix go (xs ys : list value) {struct xs} : exc bool :=
         match xs, ys with
         | [], [] => Ok false
         | [], _ :: _ => Ok false
         | _ :: _, [] => Ok true
         | x :: xs', y :: ys' => if py_eq x y then go xs' ys' else py_gt x y
         end) xs ys
  | _, _ => Raise TypeError
  end.

(** Keys of a dict must be hashable: lists and dicts are not. *)
Definition hashable (v : value) : bool :=
  match v with
  | VInt _ | VStr _ => true
  | VList _ | VDict _ => false
  end.

(** [item in l] for a list [l] *)
Definition list_contains (item : value) (l : list value) : bool :=
  existsb (fun x => py_eq x item) l.

(** The one-character strings of [s], as [for c in s] yields them. *)
Fixpoint chars (s : string) : list string :=
  match s with
  | EmptyString => []
  | String c rest => String c EmptyString :: chars rest
  end.

(** [t in s] for strings: [t] occurs in [s]. *)
Definition is_substring (t s : string) : bool :=
  match String.index 0 t s with Some _ => true | None => false end.

(** [item in container] *)
Definition py_in (item container : value) : exc bool :=
  match container with
  | VList l => Ok (list_contains item l)
  | VStr s =>
      match item with
      | VStr t => Ok (is_substring t s)
      | _ => Raise TypeError
      end
  | VDict d =>
      match item with
      | VStr k => Ok (dict_has k d)
      | VInt _ => Ok false
      | _ => Raise TypeError
      end
  | VInt _ => Raise TypeError
  end.

(** [for x in v]: the values the iteration yields. *)
Definition py_iter (v : value) : exc (list value) :=
  match v with
  | VList l => Ok l
  | VStr s => Ok (map VStr (chars s))
  | VDict d => Ok (map (fun kv => VStr (fst kv)) d)
  | VInt _ => Raise TypeError
  end.

(** [v[0]] *)
Definition py_item0 (v : value) : exc value :=
  match v with
  | VList (x :: _) => Ok x
  | VList [] => Raise IndexError
  | VStr (String c _) => Ok (VStr (String c EmptyString))
  | VStr EmptyString => Raise IndexError
  | VDict _ => Raise KeyError
  | VInt _ => Raise TypeError
  end.

(** [l.remove(x)]: drops the first element equal to [x]. *)
Fixpoint list_remove (x : value) (l : list value) : exc (list value) :=
  match l with
  | [] => Raise ValueError
  | y :: rest =>
      if py_eq y x then Ok rest
      else (r <- list_remove x rest ;; Ok (y :: r))
  end.

(** ["." in key] *)
Fixpoint contains_dot (key : string) : bool :=
  match key with
  | EmptyString => false
  | String c rest => Ascii.eqb c "."%char || contains_dot rest
  end.

(** [key.split(".")] *)
Fixpoint split_dot_aux (cur : string) (key : string) : list string :=
  match key with
  | EmptyString => [cur]
  | String c rest =>
      if Ascii.eqb c "."%char then cur :: split_dot_aux EmptyString rest
      else split_dot_aux (cur ++ String c EmptyString) rest
  end.
Definition split_dot (key : string) : list string := split_dot_aux EmptyString key.

(** [seq[start:stop]] with Python's treatment of negative and
    out-of-range bounds. *)
Definition clamp_index (len i : Z) : Z :=
  if (i <? 0)%Z then Z.max (i + len) 0 else Z.min i len.

Definition py_slice {A : Type} (l : list A) (start stop : Z) : list A :=
  let len := Z.of_nat (List.length l) in
  let lo := clamp_index len start in
  let hi := clamp_index len stop in
  firstn (Z.to_nat (hi - lo)) (skipn (Z.to_nat lo) l).

(** [str(n)] for an integer *)
Definition str_of_int (n : Z) : string := NilZero.string_of_int (Z.to_int n).

End Py.
Import Py.

(** ** The in-memory collection ([database_old.py]) *)

Module Database.

(** [Dict[str, Dict[str, Any]]]: document key to document. *)
Definition store : Type := list (string * dict).

(** [_day_index]: day to the names of the activities scheduled that day.
    The keys are whatever the [days] lists hold. *)
Definition index : Type := list (value * list string).

Definition store_get (k : string) (data : store) : option dict := dict_get k data.

(** [{"_id": k, **v}] *)
Definition with_id (k : string) (v : dict) : dict :=
  fold_left (fun acc fx => dict_set (fst fx) (snd fx) acc) v [("_id", VStr k)].

(** [activity.get("schedule_details", {}).get("days", [])] *)
Definition schedule_days (activity : dict) : exc value :=
  match dict_get "schedule_details" activity with
  | None => Ok (VList [])
  | Some (VDict sd) =>
      Ok (match dict_get "days" sd with Some d => d | None => VList [] end)
  | Some _ => Raise AttributeError
  end.

(** The body of the inner loop of [_build_indexes]. *)
Definition index_add (name : string) (day : value) (idx : index) : exc index :=
  if hashable day then
    match assoc_get py_eq day idx with
    | None => Ok (assoc_set py_eq day [name] idx)
    | Some names => Ok (assoc_set py_eq day (names ++ [name]) idx)
    end
  else Raise TypeError.

Fixpoint index_add_days (name : string) (days : list value) (idx : index) : exc index :=
  match days with
  | [] => Ok idx
  | day :: rest => idx' <- index_add name day idx ;; index_add_days name rest idx'
  end.

(** [_build_indexes], the day index.  The time index that the same loop
    fills is read by no function of the module and cannot raise once the
    days of the activity have been read, so it is left out. *)
Fixpoint build_indexes_from (data : store) (idx : index) : exc index :=
  match data with
  | [] => Ok idx
  | (activity_name, activity) :: rest =>
      days <- schedule_days activity ;;
      ds <- py_iter days ;;
      idx' <- index_add_days activity_name ds idx ;;
      build_indexes_from rest idx'
  end.

Definition build_indexes (data : store) : exc index := build_indexes_from data [].

(** The walk along a dotted key in [_matches_query]; [None] is the
    [return False] of a missing path. *)
Fixpoint traverse (keys : list string) (current : value) : option value :=
  match keys with
  | [] => Some current
  | k :: ks =>
      match current with
      | VDict d =>
          match dict_get k d with
          | Some c => traverse ks c
          | None => None
          end
      | _ => None
      end
  end.

(** The test applied to the value found at a dotted key. *)
Definition match_condition (current value : value) : exc bool :=
  match value with
  | VDict cond =>
      match dict_get "$in" cond with
      | Some targets =>
          match current with
          | VList items =>
              ts <- py_iter targets ;;
              Ok (existsb (fun item => list_contains item items) ts)
          | _ => Ok false
          end
      | None =>
          match dict_get "$gte" cond with
          | Some bound => b <- py_lt current bound ;; Ok (negb b)
          | None =>
              match dict_get "$lte" cond with
              | Some bound => b <- py_gt current bound ;; Ok (negb b)
              | None => Ok true
              end
          end
      end
  | _ => Ok (py_eq current value)
  end.

(** One [key, value] item of the query against the document. *)
Definition matches_item (doc : dict) (key : string) (value : value) : exc bool :=
  if contains_dot key then
    match traverse (split_dot key) (VDict doc) with
    | None => Ok false
    | Some current => match_condition current value
    end
  else
    Ok (match dict_get key doc with
        | Some x => py_eq x value
        | None => false
        end).

(** [InMemoryCollection._matches_query] *)
Fixpoint matches_query (doc : dict) (query : dict) : exc bool :=
  match query with
  | [] => Ok true
  | (key, value) :: rest =>
      b <- matches_item doc key value ;;
      if b then matches_query doc rest else Ok false
  end.

(** The full scan at the end of [find]. *)
Fixpoint full_scan (data : store) (query : dict) : exc (list dict) :=
  match data with
  | [] => Ok []
  | (k, v) :: rest =>
      b <- matches_query (with_id k v) query ;;
      r <- full_scan rest query ;;
      Ok (if b then with_id k v :: r else r)
  end.

(** The loop over [matching_names] in the indexed branch of [find]: a name
    is kept when the store has a non-empty document for it that matches
    the whole query. *)
Fixpoint index_scan (data : store) (query : dict) (names : list string) : exc (list dict) :=
  match names with
  | [] => Ok []
  | name :: rest =>
      match store_get name data with
      | Some ((_ :: _) as activity) =>
          b <- matches_query (with_id name activity) query ;;
          r <- index_scan data query rest ;;
          Ok (if b then with_id name activity :: r else r)
      | _ => index_scan data query rest
      end
  end.

(** The names the day index offers for the query, when the query has a
    dict with ["$in"] under ["schedule_details.days"] and the index knows
    the first day of the list. *)
Definition index_candidates (idx : index) (query : dict) : exc (option (list string)) :=
  match dict_get "schedule_details.days" query with
  | Some (VDict day_filter) =>
      match dict_get "$in" day_filter with
      | Some targets =>
          day <- py_item0 targets ;;
          if hashable day then Ok (assoc_get py_eq day idx) else Raise TypeError
      | None => Ok None
      end
  | _ => Ok None
  end.

(** [InMemoryCollection.find] *)
Definition find (idx : index) (data : store) (query : dict) : exc (list dict) :=
  match query with
  | [] => Ok (map (fun kv => with_id (fst kv) (snd kv)) data)
  | _ :: _ =>
      cands <- index_candidates idx query ;;
      match cands with
      | Some matching_names => index_scan data query matching_names
      | None => full_scan data query
      end
  end.

(** [InMemoryCollection.find_one] *)
Definition find_one (idx : index) (data : store) (query : dict) : exc (option dict) :=
  match query with
  | [(key, doc_id)] =>
      if String.eqb key "_id" then
        match doc_id with
        | VStr k =>
            Ok (match store_get k data with
                | Some v => Some (with_id k v)
                | None => None
                end)
        | VInt _ => Ok None
        | _ => Raise TypeError
        end
      else
        (results <- find idx data query ;; Ok (hd_error results))
  | _ => results <- find idx data query ;; Ok (hd_error results)
  end.

(** The [while value in l: l.remove(value)] loop of ["$pull"].  Every
    round shortens the list, which is why the loop ends. *)
Equations? remove_while (x : value) (l : list value) : exc (list value)
  by wf (List.length l) lt :=
  remove_while x l with inspect (list_contains x l) := {
    | exist _ false _ => Ok l
    | exist _ true _ with inspect (list_remove x l) := {
        | exist _ (Ok l') Hr => remove_while x l'
        | exist _ (Raise e) _ => Raise e } }.
Proof.
  match goal with H : list_contains _ _ = true |- _ => clear H end.
  clear remove_while.
  revert l' Hr; induction l as [|y l IH]; intros l'; simpl; [discriminate|].
  destruct (py_eq y x); [intros [= <-]; lia|].
  destruct (list_remove x l) as [r|e']; simpl; [|discriminate].
  intros [= <-]. simpl. specialize (IH r eq_refl). lia.
Qed.

(** [self.data[doc_id]] with the key it was found under. *)
Definition lookup_doc (doc_id : value) (data : store) : exc (string * dict) :=
  match doc_id with
  | VStr k =>
      match store_get k data with
      | Some d => Ok (k, d)
      | None => Raise KeyError
      end
  | VInt _ => Raise KeyError
  | _ => Raise TypeError
  end.

(** One round of the ["$push"] loop: the field is created as an empty list
    when the document lacks it, then the value is appended.  Appending to
    anything but a list is an [AttributeError], raised before the store
    has changed. *)
Definition push_field (doc_id : value) (field : string) (value : value)
    (data : store) : exc store :=
  kd <- lookup_doc doc_id data ;;
  match dict_get field (snd kd) with
  | None =>
      Ok (dict_set (fst kd) (dict_set field (VList [value]) (snd kd)) data)
  | Some (VList l) =>
      Ok (dict_set (fst kd) (dict_set field (VList (l ++ [value])) (snd kd)) data)
  | Some _ => Raise AttributeError
  end.

(** One round of the ["$pull"] loop: only a field that exists and holds a
    list is touched. *)
Definition pull_field (doc_id : value) (field : string) (value : value)
    (data : store) : exc store :=
  kd <- lookup_doc doc_id data ;;
  match dict_get field (snd kd) with
  | Some (VList l) =>
      l' <- remove_while value l ;;
      Ok (dict_set (fst kd) (dict_set field (VList l') (snd kd)) data)
  | _ => Ok data
  end.

(** A loop over the items of an update section.  The store is mutated in
    place, so the rounds done before an exception stay done. *)
Fixpoint apply_fields (step : value -> string -> value -> store -> exc store)
    (doc_id : value) (items : dict) (data : store) : store * exc unit :=
  match items with
  | [] => (data, Ok tt)
  | (field, value) :: rest =>
      match step doc_id field value data with
      | Ok data' => apply_fields step doc_id rest data'
      | Raise e => (data, Raise e)
      end
  end.

(** [if op in update: for field, value in update[op].items(): ...] *)
Definition apply_section (op : string)
    (step : value -> string -> value -> store -> exc store)
    (doc_id : value) (update : dict) (data : store) : store * exc unit :=
  match dict_get op update with
  | None => (data, Ok tt)
  | Some (VDict items) => apply_fields step doc_id items data
  | Some _ => (data, Raise AttributeError)
  end.

(** [InMemoryCollection.update_one]: the store after the call and the
    [modified_count] of the [UpdateResult], or the exception raised. *)
Definition update_one (idx : index) (data : store) (query update : dict)
    : store * exc Z :=
  match find_one idx data query with
  | Raise e => (data, Raise e)
  | Ok None => (data, Ok 0%Z)
  | Ok (Some []) => (data, Ok 0%Z)
  | Ok (Some ((_ :: _) as doc)) =>
      match dict_get "_id" doc with
      | None => (data, Raise KeyError)
      | Some doc_id =>
          match apply_section "$push" push_field doc_id update data with
          | (data1, Raise e) => (data1, Raise e)
          | (data1, Ok _) =>
              match apply_section "$pull" pull_field doc_id update data1 with
              | (data2, Raise e) => (data2, Raise e)
              | (data2, Ok _) => (data2, Ok 1%Z)
              end
          end
      end
  end.

End Database.
Import Database.

(** ** The router ([routers/activities.py]) *)

Module Activities.

(** The ["pagination"] entry of the enveloped response. *)
Record pagination : Type := {
  page : Z;
  page_size : Z;
  total_count : Z;
  total_pages : Z;
  has_next : bool;
  has_previous : bool
}.

(** What [get_activities] returns: the [activities] mapping itself, or the
    dict with the two entries ["activities"] and ["pagination"]. *)
Inductive response : Type :=
| Flat (activities : list (value * dict))
| Envelope (activities : list (value * dict)) (meta : pagination).

(** The body with the headers set on the [Response] object. *)
Record reply : Type := {
  body : response;
  headers : list (string * string)
}.

(** The module-level state the handlers share: the data of the two
    collections, the day index and [_cache]. *)
Record app : Type := {
  activities_data : store;
  teachers_data : store;
  day_index : index;
  cache : list (string * response)
}.

Definition set_activities (st : app) (data : store) : app :=
  {| activities_data := data; teachers_data := teachers_data st;
     day_index := day_index st; cache := cache st |}.

Definition set_cache (st : app) (c : list (string * response)) : app :=
  {| activities_data := activities_data st; teachers_data := teachers_data st;
     day_index := day_index st; cache := c |}.

(** [x or ''] for an optional string *)
Definition or_empty (x : option string) : string :=
  match x with Some s => s | None => "" end.

(** [if x:] for an optional string: set and not empty. *)
Definition given (x : option string) : option string :=
  match x with
  | Some EmptyString => None
  | Some s => Some s
  | None => None
  end.

(** [name = activity.pop('_id')] *)
Definition pop_id (activity : dict) : exc (value * dict) :=
  match dict_get "_id" activity with
  | Some name => Ok (name, dict_del "_id" activity)
  | None => Raise KeyError
  end.

Fixpoint pop_ids (found : list dict) : exc (list (value * dict)) :=
  match found with
  | [] => Ok []
  | activity :: rest =>
      na <- pop_id activity ;;
      r <- pop_ids rest ;;
      Ok (na :: r)
  end.

(** [for name, activity in paginated_activities: activities[name] = activity] *)
Fixpoint to_mapping (items acc : list (value * dict)) : exc (list (value * dict)) :=
  match items with
  | [] => Ok acc
  | (name, activity) :: rest =>
      if hashable name then to_mapping rest (assoc_set py_eq name activity acc)
      else Raise TypeError
  end.

(** [(total_count + page_size - 1) // page_size] *)
Definition ceil_pages (total_count page_size : Z) : exc Z :=
  if (page_size =? 0)%Z then Raise ZeroDivisionError
  else Ok ((total_count + page_size - 1) / page_size)%Z.

(** The query [get_activities] builds from its filters. *)
Definition build_query (day start_time end_time : option string) : dict :=
  let query := [] in
  let query :=
    match given day with
    | Some d => dict_set "schedule_details.days" (VDict [("$in", VList [VStr d])]) query
    | None => query
    end in
  let query :=
    match given start_time with
    | Some t => dict_set "schedule_details.start_time" (VDict [("$gte", VStr t)]) query
    | None => query
    end in
  match given end_time with
  | Some t => dict_set "schedule_details.end_time" (VDict [("$lte", VStr t)]) query
  | None => query
  end.

(** Lines 80 to 106 of [get_activities]: the page slice, the mapping, the
    pagination entry and the choice between the two shapes. *)
Definition paginate (all_activities : list (value * dict)) (page page_size : Z)
    : exc response :=
  let total_count := Z.of_nat (List.length all_activities) in
  let start_idx := ((page - 1) * page_size)%Z in
  let end_idx := (start_idx + page_size)%Z in
  let paginated_activities := py_slice all_activities start_idx end_idx in
  activities <- to_mapping paginated_activities [] ;;
  pages <- ceil_pages total_count page_size ;;
  let result :=
    Envelope activities
      {| page := page; page_size := page_size; total_count := total_count;
         total_pages := pages;
         has_next := (end_idx <? total_count)%Z;
         has_previous := (page >? 1)%Z |} in
  Ok (if (page =? 1)%Z && (page_size >=? total_count)%Z then Flat activities
      else result).

Definition cache_headers (cache_key : string) : list (string * string) :=
  [("Cache-Control", "public, max-age=300"); ("ETag", cache_key)].

Definition message_signed_up (email activity_name : string) : string :=
  "Signed up " ++ email ++ " for " ++ activity_name.

Definition message_unregistered (email activity_name : string) : string :=
  "Unregistered " ++ email ++ " from " ++ activity_name.

Section Router.

(** [hashlib.md5(s.encode()).hexdigest()], a function of the Python
    library. *)
Variable md5_hexdigest : string -> string.

(** [_generate_cache_key] *)
Definition generate_cache_key (day start_time end_time : option string)
    (page page_size : Z) : string :=
  md5_hexdigest
    ("day=" ++ or_empty day ++ "&start_time=" ++ or_empty start_time ++
     "&end_time=" ++ or_empty end_time ++ "&page=" ++ str_of_int page ++
     "&page_size=" ++ str_of_int page_size).

(** What [get_activities] computes when the cache has no entry for the key. *)
Definition compute_activities (st : app) (day start_time end_time : option string)
    (page page_size : Z) : exc response :=
  found <- find (day_index st) (activities_data st)
             (build_query day start_time end_time) ;;
  all_activities <- pop_ids found ;;
  paginate all_activities page page_size.

(** [get_activities]: the state after the call with the reply, or the
    exception raised (the cache is then untouched). *)
Definition get_activities (st : app) (day start_time end_time : option string)
    (page page_size : Z) : app * exc reply :=
  let cache_key := generate_cache_key day start_time end_time page page_size in
  match dict_get cache_key (cache st) with
  | Some cached =>
      (st, Ok {| body := cached; headers := cache_headers cache_key |})
  | None =>
      match compute_activities st day start_time end_time page page_size with
      | Raise e => (st, Raise e)
      | Ok result =>
          (set_cache st (dict_set cache_key result (cache st)),
           Ok {| body := result; headers := cache_headers cache_key |})
      end
  end.

End Router.

(** [_invalidate_cache] *)
Definition invalidate_cache (st : app) : app := set_cache st [].

(** The two authentication checks that open both mutation handlers. *)
Definition check_teacher (st : app) (teacher_username : option string) : exc unit :=
  match given teacher_username with
  | None => Raise (HTTPException 401 "Authentication required for this action")
  | Some u =>
      teacher <- find_one (day_index st) (teachers_data st) [("_id", VStr u)] ;;
      match teacher with
      | None | Some [] => Raise (HTTPException 401 "Invalid teacher credentials")
      | Some (_ :: _) => Ok tt
      end
  end.

(** [activities_collection.find_one({"_id": activity_name})] with the 404
    of both handlers. *)
Definition get_activity (st : app) (activity_name : string) : exc dict :=
  activity <- find_one (day_index st) (activities_data st) [("_id", VStr activity_name)] ;;
  match activity with
  | None | Some [] => Raise (HTTPException 404 "Activity not found")
  | Some ((_ :: _) as a) => Ok a
  end.

(** [email in activity["participants"]] *)
Definition is_participant (email : string) (activity : dict) : exc bool :=
  match dict_get "participants" activity with
  | None => Raise KeyError
  | Some ps => py_in (VStr email) ps
  end.

(** The tail shared by both handlers: the update, the check of its
    [modified_count], the cache invalidation and the message. *)
Definition apply_update (st : app) (activity_name : string) (update : dict)
    (message : string) : app * exc string :=
  match update_one (day_index st) (activities_data st)
          [("_id", VStr activity_name)] update with
  | (data, Raise e) => (set_activities st data, Raise e)
  | (data, Ok modified_count) =>
      if (modified_count =? 0)%Z then
        (set_activities st data,
         Raise (HTTPException 500 "Failed to update activity"))
      else (invalidate_cache (set_activities st data), Ok message)
  end.

(** [signup_for_activity] *)
Definition signup_for_activity (st : app) (activity_name email : string)
    (teacher_username : option string) : app * exc string :=
  match check_teacher st teacher_username with
  | Raise e => (st, Raise e)
  | Ok _ =>
      match get_activity st activity_name with
      | Raise e => (st, Raise e)
      | Ok activity =>
          match is_participant email activity with
          | Raise e => (st, Raise e)
          | Ok true =>
              (st, Raise (HTTPException 400 "Already signed up for this activity"))
          | Ok false =>
              apply_update st activity_name
                [("$push", VDict [("participants", VStr email)])]
                (message_signed_up email activity_name)
          end
      end
  end.

(** [unregister_from_activity] *)
Definition unregister_from_activity (st : app) (activity_name email : string)
    (teacher_username : option string) : app * exc string :=
  match check_teacher st teacher_username with
  | Raise e => (st, Raise e)
  | Ok _ =>
      match get_activity st activity_name with
      | Raise e => (st, Raise e)
      | Ok activity =>
          match is_participant email activity with
          | Raise e => (st, Raise e)
          | Ok false =>
              (st, Raise (HTTPException 400 "Not registered for this activity"))
          | Ok true =>
              apply_update st activity_name
                [("$pull", VDict [("participants", VStr email)])]
                (message_unregistered email activity_name)
          end
      end
  end.

(** A request to one of the two mutation endpoints. *)
Inductive request : Type :=
| Signup (activity_name email : string) (teacher_username : option string)
| Unregister (activity_name email : string) (teacher_username : option string).

Definition handle (st : app) (r : request) : app * exc string :=
  match r with
  | Signup a e t => signup_for_activity st a e t
  | Unregister a e t => unregister_from_activity st a e t
  end.

(** Requests served one after the other; a failed request leaves the
    state it leaves and the next one is served all the same. *)
Fixpoint serve (st : app) (rs : list request) : app :=
  match rs with
  | [] => st
  | r :: rest => serve (fst (handle st r)) rest
  end.

End Activities.
Import Activities.

(** ** The seed data ([initial_activities], [initial_teachers]) *)

Module Seed.

Definition activity (description schedule : string) (days : list string)
    (start_time end_time : string) (max_participants : Z)
    (participants : list string) : dict :=
  [("description", VStr description);
   ("schedule", VStr schedule);
   ("schedule_details",
    VDict [("days", VList (map VStr days));
           ("start_time", VStr start_time);
           ("end_time", VStr end_time)]);
   ("max_participants", VInt max_participants);
   ("participants", VList (map VStr participants))].

Definition initial_activities : store :=
  [("Chess Club",
    activity "Learn strategies and compete in chess tournaments"
      "Mondays and Fridays, 3:15 PM - 4:45 PM"
      ["Monday"; "Friday"] "15:15" "16:45" 12
      ["michael@mergington.edu"; "daniel@mergington.edu"]);
   ("Programming Class",
    activity "Learn programming fundamentals and build software projects"
      "Tuesdays and Thursdays, 7:00 AM - 8:00 AM"
      ["Tuesday"; "Thursday"] "07:00" "08:00" 20
      ["emma@mergington.edu"; "sophia@mergington.edu"]);
   ("Morning Fitness",
    activity "Early morning physical training and exercises"
      "Mondays, Wednesdays, Fridays, 6:30 AM - 7:45 AM"
      ["Monday"; "Wednesday"; "Friday"] "06:30" "07:45" 30
      ["john@mergington.edu"; "olivia@mergington.edu"]);
   ("Soccer Team",
    activity "Join the school soccer team and compete in matches"
      "Tuesdays and Thursdays, 3:30 PM - 5:30 PM"
      ["Tuesday"; "Thursday"] "15:30" "17:30" 22
      ["liam@mergington.edu"; "noah@mergington.edu"]);
   ("Basketball Team",
    activity "Practice and compete in basketball tournaments"
      "Wednesdays and Fridays, 3:15 PM - 5:00 PM"
      ["Wednesday"; "Friday"] "15:15" "17:00" 15
      ["ava@mergington.edu"; "mia@mergington.edu"]);
   ("Art Club",
    activity "Explore various art techniques and create masterpieces"
      "Thursdays, 3:15 PM - 5:00 PM"
      ["Thursday"] "15:15" "17:00" 15
      ["amelia@mergington.edu"; "harper@mergington.edu"]);
   ("Drama Club",
    activity "Act, direct, and produce plays and performances"
      "Mondays and Wednesdays, 3:30 PM - 5:30 PM"
      ["Monday"; "Wednesday"] "15:30" "17:30" 20
      ["ella@mergington.edu"; "scarlett@mergington.edu"]);
   ("Math Club",
    activity "Solve challenging problems and prepare for math competitions"
      "Tuesdays, 7:15 AM - 8:00 AM"
      ["Tuesday"] "07:15" "08:00" 10
      ["james@mergington.edu"; "benjamin@mergington.edu"]);
   ("Debate Team",
    activity "Develop public speaking and argumentation skills"
      "Fridays, 3:30 PM - 5:30 PM"
      ["Friday"] "15:30" "17:30" 12
      ["charlotte@mergington.edu"; "amelia@mergington.edu"]);
   ("Weekend Robotics Workshop",
    activity "Build and program robots in our state-of-the-art workshop"
      "Saturdays, 10:00 AM - 2:00 PM"
      ["Saturday"] "10:00" "14:00" 15
      ["ethan@mergington.edu"; "oliver@mergington.edu"]);
   ("Science Olympiad",
    activity "Weekend science competition preparation for regional and state events"
      "Saturdays, 1:00 PM - 4:00 PM"
      ["Saturday"] "13:00" "16:00" 18
      ["isabella@mergington.edu"; "lucas@mergington.edu"]);
   ("Sunday Chess Tournament",
    activity "Weekly tournament for serious chess players with rankings"
      "Sundays, 2:00 PM - 5:00 PM"
      ["Sunday"] "14:00" "17:00" 16
      ["william@mergington.edu"; "jacob@mergington.edu"])].

Section Teachers.

(** [hashlib.sha256(s.encode()).hexdigest()], a function of the Python
    library. *)
Variable sha256_hexdigest : string -> string.

(** [hash_password] *)
Definition hash_password (password : string) : string := sha256_hexdigest password.

Definition teacher (username display_name password role : string) : dict :=
  [("username", VStr username);
   ("display_name", VStr display_name);
   ("password", VStr (hash_password password));
   ("role", VStr role)].

Definition initial_teachers : list dict :=
  [teacher "mrodriguez" "Ms. Rodriguez" "art123" "teacher";
   teacher "mchen" "Mr. Chen" "chess456" "teacher";
   teacher "principal" "Principal Martinez" "admin789" "admin"].

(** The loop of [init_database] over [initial_teachers]:
    [teachers_data[teacher["username"]] = teacher.copy()]. *)
Fixpoint load_teachers (ts : list dict) (data : store) : exc store :=
  match ts with
  | [] => Ok data
  | t :: rest =>
      match dict_get "username" t with
      | Some (VStr u) => load_teachers rest (dict_set u t data)
      | Some (VInt _) | None => Raise KeyError
      | Some _ => Raise TypeError
      end
  end.

End Teachers.

End Seed.

(** ** Well-formed stores

    A Python dict has each key once, and the documents of a collection do
    not carry an ["_id"] entry of their own: the key of the store is the
    identity, and [find] adds it.  The seed data is of that kind and the
    handlers keep it so. *)

Module WellFormed.

Fixpoint unique_keys {V : Type} (d : list (string * V)) : bool :=
  match d with
  | [] => true
  | (k, _) :: rest => negb (dict_has k rest) && unique_keys rest
  end.

Definition wf_doc (d : dict) : bool :=
  unique_keys d && negb (dict_has "_id" d).

Definition wf_store (data : store) : bool :=
  unique_keys data && forallb (fun kd => wf_doc (snd kd)) data.

(** The participants of a document, when it has a list of them. *)
Definition participants (d : dict) : list value :=
  match dict_get "participants" d with
  | Some (VList l) => l
  | _ => []
  end.

(** No two elements of the list are equal (Python's [==]). *)
Fixpoint distinct (l : list value) : bool :=
  match l with
  | [] => true
  | x :: rest => negb (list_contains x rest) && distinct rest
  end.

Definition unique_participants (data : store) : bool :=
  forallb (fun kd => distinct (participants (snd kd))) data.

(** The values of the ["_id"] entries of found documents. *)
Definition ids (found : list dict) : list (option value) :=
  map (dict_get "_id") found.

(** What remains of a list once every element equal to [x] is gone. *)
Definition without (x : value) (l : list value) : list value :=
  filter (fun y => negb (py_eq y x)) l.

End WellFormed.
Import WellFormed.

(** ** Auxiliary notions for the statements *)

Module Notions.

(** The documents of the store, as [find] hands them out. *)
Definition stored (data : store) (doc : dict) : Prop :=
  exists k d, store_get k data = Some d /\ doc = with_id k d.


(** The store after a ["$push"] of [v] to [field] of the document under [k]. *)
Definition pushed (k field : string) (v : value) (d : dict) (data : store) : store :=
  match dict_get field d with
  | Some (VList l) => dict_set k (dict_set field (VList (l ++ [v])) d) data
  | _ => dict_set k (dict_set field (VList [v]) d) data
  end.

(** The store after a ["$pull"] of [v] from [field] of the document under [k]. *)
Definition pulled (k field : string) (v : value) (d : dict) (data : store) : store :=
  match dict_get field d with
  | Some (VList l) => dict_set k (dict_set field (VList (without v l)) d) data
  | _ => data
  end.

(** The exceptions the handlers raise on purpose. *)
Definition is_http (e : pyerr) : bool :=
  match e with
  | HTTPException _ _ => true
  | _ => false
  end.

(** The day index lists [name] under [day]. *)
Definition listed (idx : index) (day : value) (name : string) : Prop :=
  exists names, assoc_get py_eq day idx = Some names /\ In name names.

(** Every key of the index is hashable, as the keys of a dict are. *)
Definition index_keys_hashable (idx : index) : Prop :=
  Forall (fun entry => hashable (fst entry) = true) idx.

(** The index lists at least what [idx] lists. *)
Definition extends (idx idx' : index) : Prop :=
  forall day name, hashable day = true -> listed idx day name -> listed idx' day name.

(** The invariant of the rosters: a well-formed store in which no activity
    lists a participant twice. *)
Definition roster_invariant (st : app) : Prop :=
  wf_store (activities_data st) = true /\
  unique_participants (activities_data st) = true.

End Notions.
Import Notions.

(** ** The handlers as the specification words them *)

Module Spec.

(** Every activity of the store has a list under ["participants"]. *)
Definition has_participant_lists (data : store) : bool :=
  forallb (fun kd =>
             match dict_get "participants" (snd kd) with
             | Some (VList _) => true
             | _ => false
             end) data.

(** The state once the participants of [activity_name] are [ps] and the
    cache has been cleared. *)
Definition committed (st : app) (activity_name : string) (d : dict)
    (ps : list value) : app :=
  {| activities_data :=
       dict_set activity_name (dict_set "participants" (VList ps) d)
         (activities_data st);
     teachers_data := teachers_data st;
     day_index := day_index st;
     cache := [] |}.

(** Sign up, in the order of the specification: Unauthorized without a
    teacher name, Unauthorized for an unknown teacher, NotFound for an
    unknown activity, BadRequest for an email already signed up; otherwise
    the email is appended, the cache cleared and the message returned. *)
Definition signup_spec (st : app) (activity_name email : string)
    (teacher_username : option string) : app * exc string :=
  match given teacher_username with
  | None => (st, Raise (HTTPException 401 "Authentication required for this action"))
  | Some u =>
      match store_get u (teachers_data st) with
      | None => (st, Raise (HTTPException 401 "Invalid teacher credentials"))
      | Some _ =>
          match store_get activity_name (activities_data st) with
          | None => (st, Raise (HTTPException 404 "Activity not found"))
          | Some d =>
              if list_contains (VStr email) (participants d) then
                (st, Raise (HTTPException 400 "Already signed up for this activity"))
              else
                (committed st activity_name d (participants d ++ [VStr email]),
                 Ok ("Signed up " ++ email ++ " for " ++ activity_name)%string)
          end
      end
  end.

(** Unregister, symmetric: BadRequest for an email that is not signed up;
    otherwise the email is removed. *)
Definition unregister_spec (st : app) (activity_name email : string)
    (teacher_username : option string) : app * exc string :=
  match given teacher_username with
  | None => (st, Raise (HTTPException 401 "Authentication required for this action"))
  | Some u =>
      match store_get u (teachers_data st) with
      | None => (st, Raise (HTTPException 401 "Invalid teacher credentials"))
      | Some _ =>
          match store_get activity_name (activities_data st) with
          | None => (st, Raise (HTTPException 404 "Activity not found"))
          | Some d =>
              if list_contains (VStr email) (participants d) then
                (committed st activity_name d (without (VStr email) (participants d)),
                 Ok ("Unregistered " ++ email ++ " from " ++ activity_name)%string)
              else
                (st, Raise (HTTPException 400 "Not registered for this activity"))
          end
      end
  end.

End Spec.
Import Spec.

(** ** Scenarios on the seed data *)

Module Scenario.

(** A query for the activities of Monday or Tuesday. *)
Definition monday_or_tuesday : dict :=
  [("schedule_details.days", VDict [("$in", VList [VStr "Monday"; VStr "Tuesday"])])].

(** The state whose stores hold the seed data, with the day index built
    from the activities and an empty cache. *)
Definition seed_state (sha256_hexdigest : string -> string) : app :=
  {| activities_data := Seed.initial_activities;
     teachers_data :=
       match Seed.load_teachers (Seed.initial_teachers sha256_hexdigest) [] with
       | Ok data => data
       | Raise _ => []
       end;
     day_index :=
       match build_indexes Seed.initial_activities with
       | Ok idx => idx
       | Raise _ => []
       end;
     cache := [] |}.

(** Stand-ins for the two digests, enough to run the handlers. *)
Definition plain (s : string) : string := s.

Definition st0 : app := seed_state plain.

Definition chess_club : dict := [("_id", VStr "Chess Club")].

Definition found_or_empty (r : exc (list dict)) : list dict :=
  match r with Ok found => found | Raise _ => [] end.

Definition doc_or_empty (r : exc (option dict)) : dict :=
  match r with Ok (Some doc) => doc | _ => [] end.

Definition requests : list request :=
  [Signup "Chess Club" "new@x.edu" (Some "mchen");
   Signup "Chess Club" "new@x.edu" (Some "mchen");
   Unregister "Chess Club" "michael@mergington.edu" (Some "mrodriguez");
   Unregister "Art Club" "nobody@x.edu" (Some "principal");
   Signup "Math Club" "new@x.edu" None].

End Scenario.
Import Scenario.

(** ** The days of the collection ([aggregate], [get_available_days]) *)

Module Days.

(** [unique_days.add(day)]: a set keeps one of equal elements and takes
    hashable ones only.  The set is kept in the order of first insertion;
    the only reader sorts it. *)
Definition set_add (day : value) (unique_days : list value) : exc (list value) :=
  if hashable day then
    Ok (if list_contains day unique_days then unique_days else unique_days ++ [day])
  else Raise TypeError.

Fixpoint set_add_all (days : list value) (unique_days : list value) : exc (list value) :=
  match days with
  | [] => Ok unique_days
  | day :: rest => s <- set_add day unique_days ;; set_add_all rest s
  end.

(** The loop of [aggregate] over [self.data.values()]. *)
Fixpoint collect_days (data : store) (unique_days : list value) : exc (list value) :=
  match data with
  | [] => Ok unique_days
  | (_, activity) :: rest =>
      days <- schedule_days activity ;;
      ds <- py_iter days ;;
      s <- set_add_all ds unique_days ;;
      collect_days rest s
  end.

(** [sorted(xs)] is the ascending arrangement of [xs] under [<]; it is
    computed here by insertion.  A comparison of values of different kinds
    is the [TypeError] of [py_lt]. *)
Fixpoint insert_sorted (x : value) (l : list value) : exc (list value) :=
  match l with
  | [] => Ok [x]
  | y :: rest =>
      b <- py_lt x y ;;
      if b then Ok (x :: y :: rest)
      else (r <- insert_sorted x rest ;; Ok (y :: r))
  end.

Fixpoint py_sorted (l : list value) : exc (list value) :=
  match l with
  | [] => Ok []
  | x :: rest => s <- py_sorted rest ;; insert_sorted x s
  end.

(** [InMemoryCollection.aggregate]; the pipeline is not looked at. *)
Definition aggregate (data : store) (pipeline : list dict) : exc (list dict) :=
  unique_days <- collect_days data [] ;;
  sorted_days <- py_sorted unique_days ;;
  Ok (map (fun day => [("_id", day)]) sorted_days).

(** [day_doc["_id"]] for each document of the aggregation. *)
Fixpoint day_ids (docs : list dict) : exc (list value) :=
  match docs with
  | [] => Ok []
  | day_doc :: rest =>
      match dict_get "_id" day_doc with
      | Some day => r <- day_ids rest ;; Ok (day :: r)
      | None => Raise KeyError
      end
  end.

(** [get_available_days] *)
Definition get_available_days (st : app) : exc (list value) :=
  docs <- aggregate (activities_data st) [] ;;
  days <- day_ids docs ;;
  py_sorted days.

(** The days an activity is listed under, as the loops over
    [schedule_details.days] see them. *)
Definition days_of (activity : dict) : exc (list value) :=
  days <- schedule_days activity ;; py_iter days.

(** Every activity has its days as a list of strings. *)
Definition is_str (v : value) : bool :=
  match v with VStr _ => true | _ => false end.

Definition string_days (data : store) : bool :=
  forallb (fun kd =>
             match schedule_days (snd kd) with
             | Ok (VList days) => forallb is_str days
             | _ => false
             end) data.

(** [a < b] holds. *)
Definition py_less (a b : value) : Prop := py_lt a b = Ok true.

End Days.
Import Days.

(** ** Start-up ([init_database])

    The module keeps its dicts in global names, and the two collections
    keep the dict they were built with.  A name can be bound to another
    dict while a collection still holds the first one, so the dicts are
    objects of a heap and names and collections hold references. *)

Module Init.

Record module_state : Type := {
  objects : list (nat * store);
  next_object : nat;
  g_activities_data : nat;
  g_teachers_data : nat;
  activities_collection : nat;
  teachers_collection : nat;
  g_day_index : index
}.

(** The dict behind a reference. *)
Definition deref (objects : list (nat * store)) (r : nat) : store :=
  match assoc_get Nat.eqb r objects with
  | Some data => data
  | None => []
  end.

(** The module once imported: two empty dicts, each bound to its global
    name and handed to its collection. *)
Definition module_loaded : module_state :=
  {| objects := [(0, []); (1, [])];
     next_object := 2;
     g_activities_data := 0;
     g_teachers_data := 1;
     activities_collection := 0;
     teachers_collection := 1;
     g_day_index := [] |}.

Section InitDatabase.

Variable sha256_hexdigest : string -> string.

(** [init_database].  [activities_data = deepcopy(initial_activities)]
    binds the global name to a new dict; the teachers are stored into the
    dict the name already has; [_build_indexes] reads the global name.
    When the function raises, the state it leaves is not described. *)
Definition init_database (m : module_state) : exc module_state :=
  let '(objects1, next1, activities1) :=
    match deref (objects m) (g_activities_data m) with
    | [] =>
        (assoc_set Nat.eqb (next_object m) Seed.initial_activities (objects m),
         S (next_object m), next_object m)
    | _ :: _ => (objects m, next_object m, g_activities_data m)
    end in
  objects2 <-
    match deref objects1 (g_teachers_data m) with
    | [] =>
        teachers <- Seed.load_teachers (Seed.initial_teachers sha256_hexdigest) [] ;;
        Ok (assoc_set Nat.eqb (g_teachers_data m) teachers objects1)
    | _ :: _ => Ok objects1
    end ;;
  idx <- build_indexes (deref objects2 activities1) ;;
  Ok {| objects := objects2;
        next_object := next1;
        g_activities_data := activities1;
        g_teachers_data := g_teachers_data m;
        activities_collection := activities_collection m;
        teachers_collection := teachers_collection m;
        g_day_index := idx |}.

End InitDatabase.

(** The references in use are below the next one to be handed out. *)
Definition refs_allocated (m : module_state) : bool :=
  (g_activities_data m <? next_object m)%nat &&
  (g_teachers_data m <? next_object m)%nat &&
  (activities_collection m <? next_object m)%nat &&
  (teachers_collection m <? next_object m)%nat.

End Init.

(** ** Notions for the further properties *)

Module Further.

(** What one round of either loop may change: the document under the key
    [doc_id] names, and nothing about which keys there are. *)
Definition local_step (step : value -> string -> value -> store -> exc store) : Prop :=
  forall doc_id field v data data',
    step doc_id field v data = Ok data' ->
    map fst data' = map fst data /\
    forall k', doc_id <> VStr k' -> store_get k' data' = store_get k' data.

(** The document is scheduled on day [d]. *)
Definition on_day (doc : dict) (d : string) : Prop :=
  exists sd days,
    dict_get "schedule_details" doc = Some (VDict sd) /\
    dict_get "days" sd = Some (VList days) /\
    list_contains (VStr d) days = true.

(** The document starts at [t] or later: its start time is not [< t]. *)
Definition starts_from (doc : dict) (t : string) : Prop :=
  exists sd t0,
    dict_get "schedule_details" doc = Some (VDict sd) /\
    dict_get "start_time" sd = Some t0 /\
    py_lt t0 (VStr t) = Ok false.

(** The document ends at [t] or earlier: its end time is not [> t]. *)
Definition ends_by (doc : dict) (t : string) : Prop :=
  exists sd t1,
    dict_get "schedule_details" doc = Some (VDict sd) /\
    dict_get "end_time" sd = Some t1 /\
    py_gt t1 (VStr t) = Ok false.

(** A set as the loops keep it: hashable elements, each once. *)
Definition is_set (s : list value) : Prop :=
  Forall (fun x => hashable x = true) s /\ NoDup s.

(** What the index and the list of days read of a store: the keys in
    order, each with the days of its document. *)
Definition schedule (data : store) : list (string * exc value) :=
  map (fun kd => (fst kd, schedule_days (snd kd))) data.

End Further.
Import Further.

(** * Properties *)

(** ** Association lists *)

Section AssocFacts.
Context {V : Type}.
Implicit Types (d : list (string * V)) (k : string).

Lemma dict_get_set_same k (v : V) d : dict_get k (dict_set k v d) = Some v.
Proof.
  unfold dict_get, dict_set.
  induction d as [|[k' v'] d IH]; simpl.
  - now rewrite String.eqb_refl.
  - destruct (String.eqb k' k) eqn:E; simpl; rewrite E; auto.
Qed.

Lemma dict_get_set_other k k' (v : V) d :
  k <> k' -> dict_get k' (dict_set k v d) = dict_get k' d.
Proof.
  intros Hne. unfold dict_get, dict_set.
  induction d as [|[k0 v0] d IH]; simpl.
  - destruct (String.eqb k k') eqn:E; [apply String.eqb_eq in E; contradiction|reflexivity].
  - destruct (String.eqb k0 k) eqn:E; simpl.
    + apply String.eqb_eq in E; subst k0.
      destruct (String.eqb k k') eqn:E'; [apply String.eqb_eq in E'; contradiction|reflexivity].
    + now rewrite IH.
Qed.

Lemma dict_set_present_keys k (v v0 : V) d :
  dict_get k d = Some v0 -> map fst (dict_set k v d) = map fst d.
Proof.
  unfold dict_get, dict_set.
  induction d as [|[k' v'] d IH]; simpl; [discriminate|].
  destruct (String.eqb k' k) eqn:E; simpl; [reflexivity|].
  intros H. now rewrite IH.
Qed.

Lemma dict_set_same_value k (v : V) d :
  dict_get k d = Some v -> dict_set k v d = d.
Proof.
  unfold dict_get, dict_set.
  induction d as [|[k' v'] d IH]; simpl; [discriminate|].
  destruct (String.eqb k' k) eqn:E.
  - now intros [= ->].
  - intros H. now rewrite IH.
Qed.

Lemma dict_set_absent k (v : V) d :
  dict_get k d = None -> dict_set k v d = d ++ [(k, v)].
Proof.
  unfold dict_get, dict_set.
  induction d as [|[k' v'] d IH]; simpl; [reflexivity|].
  destruct (String.eqb k' k) eqn:E; [discriminate|].
  intros H. now rewrite IH.
Qed.

Lemma dict_has_false k d : dict_has k d = false <-> dict_get k d = None.
Proof. unfold dict_has. destruct (dict_get k d); split; congruence. Qed.

Lemma dict_get_app k d d' :
  dict_get k (d ++ d') =
  match dict_get k d with Some v => Some v | None => dict_get k d' end.
Proof.
  unfold dict_get.
  induction d as [|[k' v'] d IH]; simpl; [reflexivity|].
  destruct (String.eqb k' k); auto.
Qed.

Lemma dict_get_In k (v : V) d : dict_get k d = Some v -> In (k, v) d.
Proof.
  unfold dict_get.
  induction d as [|[k' v'] d IH]; simpl; [discriminate|].
  destruct (String.eqb k' k) eqn:E.
  - apply String.eqb_eq in E. intros [= ->]. left. now subst.
  - intros H. right. auto.
Qed.

Lemma dict_get_None_notin k d : dict_get k d = None -> forall v, ~ In (k, v) d.
Proof.
  unfold dict_get.
  induction d as [|[k' v'] d IH]; simpl; [tauto|].
  destruct (String.eqb k' k) eqn:E; [discriminate|].
  intros H v [Heq|Hin].
  - injection Heq as -> _. now rewrite String.eqb_refl in E.
  - now apply (IH H v).
Qed.

Lemma unique_keys_In_get k (v : V) d :
  unique_keys d = true -> In (k, v) d -> dict_get k d = Some v.
Proof.
  induction d as [|[k' v'] d IH]; simpl; [tauto|].
  intros Hu [Heq|Hin]; apply andb_prop in Hu as [Hn Hu].
  - injection Heq as -> ->. unfold dict_get; simpl. now rewrite String.eqb_refl.
  - unfold dict_get; simpl. destruct (String.eqb k' k) eqn:E.
    + apply String.eqb_eq in E; subst k'.
      apply negb_true_iff, dict_has_false in Hn.
      now destruct (dict_get_None_notin _ _ Hn v).
    + now apply IH.
Qed.

Lemma unique_keys_set k (v : V) d :
  unique_keys d = true -> unique_keys (dict_set k v d) = true.
Proof.
  induction d as [|[k' v'] d IH]; simpl; [reflexivity|].
  intros Hu; apply andb_prop in Hu as [Hn Hu].
  unfold dict_set; simpl. destruct (String.eqb k' k) eqn:E; simpl.
  - now rewrite Hn, Hu.
  - fold (dict_set k v d). rewrite IH by assumption.
    apply negb_true_iff, dict_has_false in Hn.
    assert (Hne : k <> k') by (intros ->; now rewrite String.eqb_refl in E).
    unfold dict_has. rewrite (dict_get_set_other _ _ _ _ Hne), Hn. reflexivity.
Qed.

End AssocFacts.

(** ** Lists and the ["$pull"] loop *)

Lemma without_absent x l : list_contains x l = false -> without x l = l.
Proof.
  unfold without, list_contains.
  induction l as [|y l IH]; simpl; [reflexivity|].
  intros H; apply orb_false_iff in H as [Hy Hl].
  rewrite Hy; simpl. now rewrite IH.
Qed.

Lemma list_contains_without x l : list_contains x (without x l) = false.
Proof.
  unfold without, list_contains.
  induction l as [|y l IH]; simpl; [reflexivity|].
  destruct (py_eq y x) eqn:E; simpl; [assumption|].
  now rewrite E, IH.
Qed.

Lemma list_remove_without x l l' :
  list_remove x l = Ok l' -> without x l' = without x l.
Proof.
  unfold without.
  revert l'; induction l as [|y l IH]; intros l'; simpl; [discriminate|].
  destruct (py_eq y x) eqn:E; simpl.
  - now intros [= ->].
  - destruct (list_remove x l) as [r|e]; simpl; [|discriminate].
    intros [= <-]. simpl. rewrite E; simpl. now rewrite (IH r).
Qed.

Lemma list_remove_present x l :
  list_contains x l = true -> exists l', list_remove x l = Ok l'.
Proof.
  unfold list_contains.
  induction l as [|y l IH]; simpl; [discriminate|].
  destruct (py_eq y x) eqn:E; simpl; [eauto|].
  intros H. destruct (IH H) as [r Hr]. rewrite Hr. simpl. eauto.
Qed.

(** The loop ends, and with the list filtered. *)
Lemma remove_while_without x l : remove_while x l = Ok (without x l).
Proof.
  funelim (remove_while x l).
  - now rewrite without_absent.
  - match goal with IH : remove_while _ _ = Ok _ |- _ => rewrite IH end.
    now rewrite (list_remove_without _ _ _ Hr).
  - match goal with H : list_contains _ _ = true |- _ =>
      destruct (list_remove_present _ _ H) as [r Hr] end.
    congruence.
Qed.

Lemma distinct_without x l : distinct l = true -> distinct (without x l) = true.
Proof.
  unfold without.
  induction l as [|y l IH]; simpl; [reflexivity|].
  intros H; apply andb_prop in H as [Hy Hl].
  destruct (py_eq y x); simpl; [auto|].
  rewrite IH by assumption. rewrite andb_true_r.
  apply negb_true_iff. apply negb_true_iff in Hy.
  unfold list_contains in *.
  destruct (existsb _ (filter _ l)) eqn:E; [|reflexivity].
  apply existsb_exists in E as [z [Hz Hzy]].
  apply filter_In in Hz as [Hz _].
  rewrite <- Hy. symmetry. apply existsb_exists. eauto.
Qed.

Lemma py_eq_str_sym s x : py_eq (VStr s) x = py_eq x (VStr s).
Proof. destruct x; simpl; auto using String.eqb_sym. Qed.

Lemma list_contains_app x l l' :
  list_contains x (l ++ l') = list_contains x l || list_contains x l'.
Proof. unfold list_contains. apply existsb_app. Qed.

Lemma distinct_snoc_str s l :
  distinct l = true -> list_contains (VStr s) l = false ->
  distinct (l ++ [VStr s]) = true.
Proof.
  induction l as [|y l IH]; simpl; [reflexivity|].
  intros H Hc; apply andb_prop in H as [Hy Hl].
  unfold list_contains in Hc; simpl in Hc.
  apply orb_false_iff in Hc as [Hys Hc].
  rewrite IH by assumption. rewrite andb_true_r.
  rewrite list_contains_app. apply negb_true_iff in Hy. rewrite Hy.
  unfold list_contains; cbn [existsb orb].
  now rewrite py_eq_str_sym, Hys.
Qed.

(** ** Documents as [find] returns them *)

Lemma with_id_fold_get acc (v : dict) x :
  dict_get "_id" acc = Some x -> dict_has "_id" v = false ->
  dict_get "_id" (fold_left (fun a fx => dict_set (fst fx) (snd fx) a) v acc) = Some x.
Proof.
  revert acc; induction v as [|[f y] v IH]; intros acc Hacc Hv; simpl; [assumption|].
  unfold dict_has, dict_get in Hv; simpl in Hv.
  destruct (String.eqb f "_id") eqn:E; [discriminate|].
  apply IH; [|exact Hv].
  rewrite dict_get_set_other; [assumption|].
  intros ->. now rewrite String.eqb_refl in E.
Qed.

Lemma with_id_fold_has acc (v : dict) k :
  dict_has k acc = true ->
  dict_has k (fold_left (fun a fx => dict_set (fst fx) (snd fx) a) v acc) = true.
Proof.
  revert acc; induction v as [|[f y] v IH]; intros acc Hacc; simpl; [assumption|].
  apply IH. unfold dict_has in *.
  destruct (String.eqb f k) eqn:E.
  - apply String.eqb_eq in E; subst. now rewrite dict_get_set_same.
  - rewrite dict_get_set_other; [assumption|].
    intros ->. now rewrite String.eqb_refl in E.
Qed.

(** A found document always has its ["_id"] entry. *)
Lemma with_id_has_id k v : dict_has "_id" (with_id k v) = true.
Proof. unfold with_id. now apply with_id_fold_has. Qed.

Lemma with_id_nonempty k v : with_id k v <> [].
Proof.
  intros H. pose proof (with_id_has_id k v) as Hh. now rewrite H in Hh.
Qed.

Lemma with_id_get_id k v :
  dict_has "_id" v = false -> dict_get "_id" (with_id k v) = Some (VStr k).
Proof. intros H. unfold with_id. now apply with_id_fold_get. Qed.

Lemma fold_set_fresh acc (v : dict) :
  unique_keys v = true ->
  (forall f, dict_has f v = true -> dict_has f acc = false) ->
  fold_left (fun a fx => dict_set (fst fx) (snd fx) a) v acc = acc ++ v.
Proof.
  revert acc; induction v as [|[f y] v IH]; intros acc Hu Hfresh; simpl.
  - now rewrite app_nil_r.
  - simpl in Hu. apply andb_prop in Hu as [Hf Hu].
    apply negb_true_iff in Hf.
    assert (Hacc : dict_has f acc = false).
    { apply Hfresh. unfold dict_has, dict_get; simpl. now rewrite String.eqb_refl. }
    rewrite dict_set_absent by now apply dict_has_false.
    rewrite IH; [now rewrite <- app_assoc|assumption|].
    intros g Hg. unfold dict_has. rewrite dict_get_app.
    destruct (String.eqb f g) eqn:E.
    + apply String.eqb_eq in E; subst g. congruence.
    + assert (Hga : dict_has g acc = false).
      { apply Hfresh. unfold dict_has, dict_get in *; simpl. now rewrite E. }
      apply dict_has_false in Hga. rewrite Hga.
      unfold dict_get; simpl. now rewrite E.
Qed.

(** On a well-formed document [{"_id": k, **v}] is [v] with the key in front. *)
Lemma with_id_wf k v : wf_doc v = true -> with_id k v = ("_id", VStr k) :: v.
Proof.
  unfold wf_doc. intros H; apply andb_prop in H as [Hu Hid].
  apply negb_true_iff in Hid.
  unfold with_id. rewrite fold_set_fresh; [reflexivity|assumption|].
  intros f Hf. unfold dict_has, dict_get; cbn [assoc_get].
  destruct (String.eqb "_id" f) eqn:E; [|reflexivity].
  apply String.eqb_eq in E; subst f. congruence.
Qed.

(** ** What [find] and [find_one] return *)

#[local] Arguments String.eqb : simpl never.

Lemma wf_store_get data k d :
  wf_store data = true -> store_get k data = Some d -> wf_doc d = true.
Proof.
  unfold wf_store. intros H Hg; apply andb_prop in H as [_ H].
  rewrite forallb_forall in H.
  exact (H (k, d) (dict_get_In _ _ _ Hg)).
Qed.

Lemma wf_store_In data k d :
  wf_store data = true -> In (k, d) data -> store_get k data = Some d.
Proof.
  unfold wf_store. intros H Hin; apply andb_prop in H as [H _].
  now apply unique_keys_In_get.
Qed.

Lemma full_scan_stored data query found :
  unique_keys data = true ->
  full_scan data query = Ok found -> Forall (stored data) found.
Proof.
  intros Hu.
  assert (Hsub : forall k d, In (k, d) data -> store_get k data = Some d)
    by (intros; now apply unique_keys_In_get).
  clear Hu. revert found Hsub.
  generalize data at 1 3 as part.
  induction part as [|[k d] part IH]; intros found Hsub; simpl.
  - intros [= <-]. constructor.
  - destruct (matches_query (with_id k d) query) as [b|e]; simpl; [|discriminate].
    destruct (full_scan part query) as [r|e]; simpl; [|discriminate].
    intros [= <-].
    assert (Hr : Forall (stored data) r).
    { apply IH; [|reflexivity]. intros k' d' Hin. apply Hsub. now right. }
    destruct b; [|assumption].
    constructor; [|assumption].
    exists k, d. split; [|reflexivity]. apply Hsub. now left.
Qed.

Lemma index_scan_stored data query names found :
  index_scan data query names = Ok found -> Forall (stored data) found.
Proof.
  revert found; induction names as [|name names IH]; intros found; simpl.
  - intros [= <-]. constructor.
  - destruct (store_get name data) as [[|fx activity]|] eqn:Hg; auto.
    destruct (matches_query _ query) as [b|e]; simpl; [|discriminate].
    destruct (index_scan data query names) as [r|e]; simpl; [|discriminate].
    intros [= <-]. specialize (IH r eq_refl).
    destruct b; [|assumption].
    constructor; [|assumption]. exists name, (fx :: activity). auto.
Qed.

Lemma find_stored idx data query found :
  unique_keys data = true ->
  find idx data query = Ok found -> Forall (stored data) found.
Proof.
  intros Hu. unfold find. destruct query as [|kv query].
  - intros [= <-]. apply Forall_forall. intros doc Hin.
    apply in_map_iff in Hin as [[k d] [<- Hin]]. exists k, d.
    split; [now apply unique_keys_In_get|reflexivity].
  - destruct (index_candidates idx (kv :: query)) as [[names|]|e]; simpl.
    + apply index_scan_stored.
    + now apply full_scan_stored.
    + discriminate.
Qed.

(** The identity query is a plain lookup by key. *)
Lemma find_one_by_id idx data k :
  find_one idx data [("_id", VStr k)] =
  Ok (match store_get k data with
      | Some v => Some (with_id k v)
      | None => None
      end).
Proof. reflexivity. Qed.

Lemma find_one_stored idx data query doc :
  unique_keys data = true ->
  find_one idx data query = Ok (Some doc) -> stored data doc.
Proof.
  intros Hu Hf.
  assert (Hgen : forall found, find idx data query = Ok found ->
                 hd_error found = Some doc -> stored data doc).
  { intros found Hfind Hhd. pose proof (find_stored _ _ _ _ Hu Hfind) as Hall.
    destruct found as [|x found]; [discriminate|]. injection Hhd as ->.
    now inversion Hall. }
  assert (Hvia : (results <- find idx data query ;; Ok (hd_error results)) = Ok (Some doc)
                 -> stored data doc).
  { destruct (find idx data query) as [found|e] eqn:Hfind; simpl; [|discriminate].
    intros [= Hhd]. eauto. }
  unfold find_one in Hf.
  destruct query as [|[key doc_id] [|kv query]]; try (now apply Hvia).
  destruct (String.eqb key "_id"); [|now apply Hvia].
  destruct doc_id as [z|k|l|dd]; try discriminate.
  destruct (store_get k data) as [v|] eqn:Hg; [|discriminate].
  injection Hf as <-. exists k, v. auto.
Qed.

(** [find_one] never returns an empty document. *)
Lemma find_one_nonempty idx data query :
  unique_keys data = true -> find_one idx data query <> Ok (Some []).
Proof.
  intros Hu Hf. apply find_one_stored in Hf; [|assumption].
  destruct Hf as (k & d & _ & Hd). symmetry in Hd. now apply with_id_nonempty in Hd.
Qed.

(** ** [update_one] on a found document *)

Lemma store_set_get_same (data : store) k d :
  store_get k (dict_set k d data) = Some d.
Proof. apply dict_get_set_same. Qed.

Lemma update_one_found idx data query update k d :
  wf_store data = true ->
  find_one idx data query = Ok (Some (with_id k d)) ->
  store_get k data = Some d ->
  update_one idx data query update =
    match apply_section "$push" push_field (VStr k) update data with
    | (data1, Raise e) => (data1, Raise e)
    | (data1, Ok _) =>
        match apply_section "$pull" pull_field (VStr k) update data1 with
        | (data2, Raise e) => (data2, Raise e)
        | (data2, Ok _) => (data2, Ok 1%Z)
        end
    end.
Proof.
  intros Hwf Hf Hg. unfold update_one. rewrite Hf.
  pose proof (wf_store_get _ _ _ Hwf Hg) as Hd.
  rewrite (with_id_wf _ _ Hd). reflexivity.
Qed.

Lemma push_field_spec data k d field v :
  store_get k data = Some d ->
  push_field (VStr k) field v data =
    match dict_get field d with
    | None => Ok (dict_set k (dict_set field (VList [v]) d) data)
    | Some (VList l) => Ok (dict_set k (dict_set field (VList (l ++ [v])) d) data)
    | Some _ => Raise AttributeError
    end.
Proof. intros Hg. unfold push_field, lookup_doc. rewrite Hg. reflexivity. Qed.

Lemma pull_field_spec data k d field v :
  store_get k data = Some d ->
  pull_field (VStr k) field v data =
    match dict_get field d with
    | Some (VList l) => Ok (dict_set k (dict_set field (VList (without v l)) d) data)
    | _ => Ok data
    end.
Proof.
  intros Hg. unfold pull_field, lookup_doc. rewrite Hg. simpl.
  destruct (dict_get field d) as [[z|s|l|dd]|]; try reflexivity.
  now rewrite remove_while_without.
Qed.

Lemma find_one_found_wf idx data query doc :
  wf_store data = true ->
  find_one idx data query = Ok (Some doc) ->
  exists k d, doc = with_id k d /\ store_get k data = Some d.
Proof.
  intros Hwf Hf. pose proof Hwf as Hu. unfold wf_store in Hu.
  apply andb_prop in Hu as [Hu _].
  destruct (find_one_stored _ _ _ _ Hu Hf) as (k & d & Hg & ->). eauto.
Qed.

Lemma update_one_push_found idx data query field v k d :
  wf_store data = true ->
  find_one idx data query = Ok (Some (with_id k d)) ->
  store_get k data = Some d ->
  (dict_get field d = None \/ exists l, dict_get field d = Some (VList l)) ->
  update_one idx data query [("$push", VDict [(field, v)])] =
    (pushed k field v d data, Ok 1%Z).
Proof.
  intros Hwf Hf Hg Hfield.
  rewrite (update_one_found _ _ _ _ _ _ Hwf Hf Hg).
  change (apply_section "$push" push_field (VStr k) [("$push", VDict [(field, v)])] data)
    with (apply_fields push_field (VStr k) [(field, v)] data).
  cbn [apply_fields]. rewrite (push_field_spec _ _ _ _ _ Hg). unfold pushed.
  destruct Hfield as [Hn|[l Hl]]; [rewrite Hn|rewrite Hl]; reflexivity.
Qed.

Lemma update_one_pull_found idx data query field v k d :
  wf_store data = true ->
  find_one idx data query = Ok (Some (with_id k d)) ->
  store_get k data = Some d ->
  update_one idx data query [("$pull", VDict [(field, v)])] =
    (pulled k field v d data, Ok 1%Z).
Proof.
  intros Hwf Hf Hg.
  rewrite (update_one_found _ _ _ _ _ _ Hwf Hf Hg).
  change (apply_section "$push" push_field (VStr k) [("$pull", VDict [(field, v)])] data)
    with (data, @Ok unit tt).
  cbv beta iota.
  change (apply_section "$pull" pull_field (VStr k) [("$pull", VDict [(field, v)])] data)
    with (apply_fields pull_field (VStr k) [(field, v)] data).
  cbn [apply_fields]. rewrite (pull_field_spec _ _ _ _ _ Hg). unfold pulled.
  destruct (dict_get field d) as [[z|s|l|dd]|]; reflexivity.
Qed.



(** ** The exceptions of the collection are not HTTP errors *)

Lemma lookup_doc_raises doc_id data e :
  lookup_doc doc_id data = Raise e -> is_http e = false.
Proof.
  unfold lookup_doc. destruct doc_id as [z|k|l|dd]; try (now intros [= <-]).
  destruct (store_get k data); [discriminate|now intros [= <-]].
Qed.

Lemma push_field_raises doc_id field v data e :
  push_field doc_id field v data = Raise e -> is_http e = false.
Proof.
  unfold push_field.
  destruct (lookup_doc doc_id data) as [kd|e'] eqn:Hl; simpl.
  - destruct (dict_get field (snd kd)) as [[z|s|l|dd]|]; try discriminate;
      now intros [= <-].
  - intros [= <-]. eapply lookup_doc_raises; eassumption.
Qed.

Lemma pull_field_raises doc_id field v data e :
  pull_field doc_id field v data = Raise e -> is_http e = false.
Proof.
  unfold pull_field.
  destruct (lookup_doc doc_id data) as [kd|e'] eqn:Hl; simpl.
  - destruct (dict_get field (snd kd)) as [[z|s|l|dd]|]; try discriminate.
    rewrite remove_while_without. discriminate.
  - intros [= <-]. eapply lookup_doc_raises; eassumption.
Qed.

Lemma apply_fields_raises step :
  (forall doc_id field v data e,
     step doc_id field v data = Raise e -> is_http e = false) ->
  forall doc_id items data data' e,
    apply_fields step doc_id items data = (data', Raise e) -> is_http e = false.
Proof.
  intros Hstep doc_id items.
  induction items as [|[field v] items IH]; intros data data' e; simpl.
  - discriminate.
  - destruct (step doc_id field v data) as [data1|e1] eqn:Hs.
    + apply IH.
    + intros [= _ <-]. eapply Hstep; eassumption.
Qed.

Lemma apply_section_raises op step :
  (forall doc_id field v data e,
     step doc_id field v data = Raise e -> is_http e = false) ->
  forall doc_id update data data' e,
    apply_section op step doc_id update data = (data', Raise e) -> is_http e = false.
Proof.
  intros Hstep doc_id update data data' e. unfold apply_section.
  destruct (dict_get op update) as [[z|s|l|items]|]; try discriminate;
    try (now intros [= _ <-]).
  now apply apply_fields_raises.
Qed.

(** On a key the store has, [update_one] with the identity query reports
    one modification or raises an exception of the collection: never 0. *)
Lemma update_one_by_id_outcome idx data k d update :
  store_get k data = Some d ->
  match snd (update_one idx data [("_id", VStr k)] update) with
  | Ok n => n = 1%Z
  | Raise e => is_http e = false
  end.
Proof.
  intros Hg. unfold update_one. rewrite find_one_by_id, Hg.
  destruct (with_id k d) as [|p w] eqn:Hw; [now apply with_id_nonempty in Hw|].
  destruct (dict_get "_id" (p :: w)) as [doc_id|]; [|reflexivity].
  destruct (apply_section "$push" push_field doc_id update data) as [data1 [u|e]] eqn:Hpush.
  - destruct (apply_section "$pull" pull_field doc_id update data1) as [data2 [u'|e]] eqn:Hpull.
    + reflexivity.
    + simpl. eapply apply_section_raises; [apply pull_field_raises|eassumption].
  - simpl. eapply apply_section_raises; [apply push_field_raises|eassumption].
Qed.

(** ** The two mutation handlers *)

Lemma check_teacher_spec st t :
  check_teacher st t =
  match given t with
  | None => Raise (HTTPException 401 "Authentication required for this action")
  | Some u =>
      match store_get u (teachers_data st) with
      | Some _ => Ok tt
      | None => Raise (HTTPException 401 "Invalid teacher credentials")
      end
  end.
Proof.
  unfold check_teacher. destruct (given t) as [u|]; [|reflexivity].
  rewrite find_one_by_id. destruct (store_get u (teachers_data st)) as [v|]; [|reflexivity].
  simpl. destruct (with_id u v) eqn:Hw; [now apply with_id_nonempty in Hw|reflexivity].
Qed.

Lemma get_activity_spec st a :
  get_activity st a =
  match store_get a (activities_data st) with
  | Some d => Ok (with_id a d)
  | None => Raise (HTTPException 404 "Activity not found")
  end.
Proof.
  unfold get_activity. rewrite find_one_by_id.
  destruct (store_get a (activities_data st)) as [v|]; [|reflexivity].
  simpl. destruct (with_id a v) eqn:Hw; [now apply with_id_nonempty in Hw|reflexivity].
Qed.

Lemma is_participant_raises email activity e :
  is_participant email activity = Raise e -> is_http e = false.
Proof.
  unfold is_participant. destruct (dict_get "participants" activity) as [ps|].
  - destruct ps as [z|s|l|dd]; simpl; try discriminate; now intros [= <-].
  - now intros [= <-].
Qed.

Lemma apply_update_not_500 st a d update message detail :
  store_get a (activities_data st) = Some d ->
  snd (apply_update st a update message) <> Raise (HTTPException 500 detail).
Proof.
  intros Hg. unfold apply_update.
  pose proof (update_one_by_id_outcome (day_index st) _ _ _ update Hg) as Hout.
  destruct (update_one (day_index st) (activities_data st) [("_id", VStr a)] update)
    as [data [n|e]]; simpl in *.
  - subst n. simpl. discriminate.
  - intros [= ->]. discriminate.
Qed.

(** C3: neither handler ever raises the HTTP 500 of its
    [modified_count == 0] branch.  With the identity query, [update_one]
    never reports 0 modifications on a state in which [find_one] finds a
    document for the same query; on a well-formed store it reports 1 for a
    ["$pull"], and for a ["$push"] to a field that is absent or a list. *)
Theorem internal_error_unreachable :
  (forall st a email t detail,
     snd (signup_for_activity st a email t) <> Raise (HTTPException 500 detail)) /\
  (forall st a email t detail,
     snd (unregister_from_activity st a email t) <> Raise (HTTPException 500 detail)) /\
  (forall idx data a update doc,
     find_one idx data [("_id", VStr a)] = Ok (Some doc) ->
     snd (update_one idx data [("_id", VStr a)] update) <> Ok 0%Z) /\
  (forall idx data a d field v,
     wf_store data = true -> store_get a data = Some d ->
     snd (update_one idx data [("_id", VStr a)] [("$pull", VDict [(field, v)])]) = Ok 1%Z /\
     ((dict_get field d = None \/ exists l, dict_get field d = Some (VList l)) ->
      snd (update_one idx data [("_id", VStr a)] [("$push", VDict [(field, v)])]) = Ok 1%Z)).
Proof.
  split; [|split; [|split]].
  - intros st a email t detail. unfold signup_for_activity.
    rewrite check_teacher_spec, get_activity_spec.
    destruct (given t) as [u|]; [|simpl; discriminate].
    destruct (store_get u (teachers_data st)) as [teacher|]; [|simpl; discriminate].
    destruct (store_get a (activities_data st)) as [d|] eqn:Hg; [|simpl; discriminate].
    destruct (is_participant email (with_id a d)) as [[|]|e] eqn:Hp.
    + simpl. discriminate.
    + eapply apply_update_not_500; eassumption.
    + simpl. intros [= ->]. apply is_participant_raises in Hp. discriminate.
  - intros st a email t detail. unfold unregister_from_activity.
    rewrite check_teacher_spec, get_activity_spec.
    destruct (given t) as [u|]; [|simpl; discriminate].
    destruct (store_get u (teachers_data st)) as [teacher|]; [|simpl; discriminate].
    destruct (store_get a (activities_data st)) as [d|] eqn:Hg; [|simpl; discriminate].
    destruct (is_participant email (with_id a d)) as [[|]|e] eqn:Hp.
    + eapply apply_update_not_500; eassumption.
    + simpl. discriminate.
    + simpl. intros [= ->]. apply is_participant_raises in Hp. discriminate.
  - intros idx data a update doc Hf. rewrite find_one_by_id in Hf.
    destruct (store_get a data) as [d|] eqn:Hg; [|discriminate].
    pose proof (update_one_by_id_outcome idx _ _ _ update Hg) as Hout.
    destruct (snd (update_one idx data [("_id", VStr a)] update)) as [n|e].
    + subst n. discriminate.
    + discriminate.
  - intros idx data a d field v Hwf Hg.
    assert (Hf : find_one idx data [("_id", VStr a)] = Ok (Some (with_id a d)))
      by (rewrite find_one_by_id, Hg; reflexivity).
    split.
    + now rewrite (update_one_pull_found _ _ _ field v _ _ Hwf Hf Hg).
    + intros Hfield.
      now rewrite (update_one_push_found _ _ _ field v _ _ Hwf Hf Hg Hfield).
Qed.

(** ** Well-formedness is kept by the updates *)

Lemma forallb_dict_set {V : Type} (P : string * V -> bool) k (v : V) d :
  (forall k', P (k', v) = true) ->
  forallb P d = true -> forallb P (dict_set k v d) = true.
Proof.
  intros Hv. unfold dict_set.
  induction d as [|[k' v'] d IH]; simpl.
  - intros _. now rewrite Hv.
  - intros H; apply andb_prop in H as [H1 H2].
    destruct (String.eqb k' k); simpl.
    + now rewrite Hv, H2.
    + now rewrite H1, IH.
Qed.

Lemma wf_doc_set field x d :
  field <> "_id" -> wf_doc d = true -> wf_doc (dict_set field x d) = true.
Proof.
  unfold wf_doc. intros Hne H; apply andb_prop in H as [Hu Hid].
  rewrite unique_keys_set by assumption. simpl.
  unfold dict_has in *. now rewrite dict_get_set_other.
Qed.

Lemma wf_store_set k d data :
  wf_doc d = true -> wf_store data = true -> wf_store (dict_set k d data) = true.
Proof.
  unfold wf_store. intros Hd H; apply andb_prop in H as [Hu Hall].
  rewrite unique_keys_set by assumption. simpl.
  apply forallb_dict_set; auto.
Qed.

Lemma unique_participants_set k d data :
  distinct (participants d) = true ->
  unique_participants data = true ->
  unique_participants (dict_set k d data) = true.
Proof.
  unfold unique_participants. intros Hd Hall.
  apply forallb_dict_set; auto.
Qed.

Lemma unique_participants_get data k d :
  unique_participants data = true -> store_get k data = Some d ->
  distinct (participants d) = true.
Proof.
  unfold unique_participants. intros H Hg.
  rewrite forallb_forall in H.
  exact (H (k, d) (dict_get_In _ _ _ Hg)).
Qed.

Lemma participants_set l d :
  participants (dict_set "participants" (VList l) d) = l.
Proof. unfold participants. now rewrite dict_get_set_same. Qed.

(** ** The handlers on a well-formed store *)

Lemma set_activities_same st : set_activities st (activities_data st) = st.
Proof. now destruct st. Qed.

Lemma with_id_get_field k d field :
  wf_doc d = true -> field <> "_id" ->
  dict_get field (with_id k d) = dict_get field d.
Proof.
  intros Hd Hne. rewrite (with_id_wf _ _ Hd).
  unfold dict_get; cbn [assoc_get].
  destruct (String.eqb "_id" field) eqn:E; [|reflexivity].
  apply String.eqb_eq in E. congruence.
Qed.

Lemma update_one_push_by_id idx data a d field v :
  wf_store data = true -> store_get a data = Some d ->
  update_one idx data [("_id", VStr a)] [("$push", VDict [(field, v)])] =
    match dict_get field d with
    | None | Some (VList _) => (pushed a field v d data, Ok 1%Z)
    | Some _ => (data, Raise AttributeError)
    end.
Proof.
  intros Hwf Hg.
  assert (Hf : find_one idx data [("_id", VStr a)] = Ok (Some (with_id a d)))
    by (rewrite find_one_by_id, Hg; reflexivity).
  destruct (dict_get field d) as [x|] eqn:Hfield.
  - destruct x as [z|s|l|dd];
      try (rewrite (update_one_found _ _ _ _ _ _ Hwf Hf Hg);
           change (apply_section "$push" push_field (VStr a)
                     [("$push", VDict [(field, v)])] data)
             with (apply_fields push_field (VStr a) [(field, v)] data);
           cbn [apply_fields]; rewrite (push_field_spec _ _ _ _ _ Hg), Hfield;
           reflexivity).
    apply update_one_push_found; eauto.
  - apply update_one_push_found; eauto.
Qed.

Lemma update_one_pull_by_id idx data a d field v :
  wf_store data = true -> store_get a data = Some d ->
  update_one idx data [("_id", VStr a)] [("$pull", VDict [(field, v)])] =
    (pulled a field v d data, Ok 1%Z).
Proof.
  intros Hwf Hg. apply update_one_pull_found; try assumption.
  rewrite find_one_by_id, Hg. reflexivity.
Qed.

(** Every successful update clears the cache. *)
Lemma apply_update_ok st a update message st' msg :
  apply_update st a update message = (st', Ok msg) -> cache st' = [].
Proof.
  unfold apply_update.
  destruct (update_one _ _ _ update) as [data [n|e]]; [|discriminate].
  destruct (n =? 0)%Z; [discriminate|].
  now intros [= <- _].
Qed.

Lemma has_participant_lists_get data k d :
  has_participant_lists data = true -> store_get k data = Some d ->
  dict_get "participants" d = Some (VList (participants d)).
Proof.
  unfold has_participant_lists. intros H Hg. rewrite forallb_forall in H.
  specialize (H (k, d) (dict_get_In _ _ _ Hg)). simpl in H.
  unfold participants.
  destruct (dict_get "participants" d) as [[z|s|l|dd]|]; congruence.
Qed.

Lemma participants_not_id : "participants" <> "_id".
Proof. discriminate. Qed.

Lemma handlers_refine_spec st activity_name email teacher_username :
  wf_store (activities_data st) = true ->
  has_participant_lists (activities_data st) = true ->
  signup_for_activity st activity_name email teacher_username =
    signup_spec st activity_name email teacher_username /\
  unregister_from_activity st activity_name email teacher_username =
    unregister_spec st activity_name email teacher_username.
Proof.
  intros Hwf Hlists.
  unfold signup_for_activity, unregister_from_activity, signup_spec, unregister_spec.
  rewrite check_teacher_spec, get_activity_spec.
  destruct (given teacher_username) as [u|]; [|split; reflexivity].
  destruct (store_get u (teachers_data st)) as [teacher|]; [|split; reflexivity].
  destruct (store_get activity_name (activities_data st)) as [d|] eqn:Hg;
    [|split; reflexivity].
  pose proof (wf_store_get _ _ _ Hwf Hg) as Hd.
  pose proof (has_participant_lists_get _ _ _ Hlists Hg) as Hps.
  unfold is_participant.
  rewrite (with_id_get_field _ _ _ Hd participants_not_id), Hps.
  cbn [py_in].
  destruct (list_contains (VStr email) (participants d)) eqn:Hin.
  - split; [reflexivity|].
    unfold apply_update.
    rewrite (update_one_pull_by_id _ _ _ _ _ _ Hwf Hg).
    unfold pulled. rewrite Hps. reflexivity.
  - split; [|reflexivity].
    unfold apply_update.
    rewrite (update_one_push_by_id _ _ _ _ _ _ Hwf Hg).
    rewrite Hps. unfold pushed. rewrite Hps. reflexivity.
Qed.

(** C5: on a well-formed store whose activities all have a participants
    list, both handlers are the decision lists of the specification: the
    checks come in the stated order, each with its error, and otherwise the
    mutation is applied, the cache emptied and the message returned. *)
Theorem handlers_check_in_order st activity_name email teacher_username :
  wf_store (activities_data st) = true ->
  has_participant_lists (activities_data st) = true ->
  signup_for_activity st activity_name email teacher_username =
    signup_spec st activity_name email teacher_username /\
  unregister_from_activity st activity_name email teacher_username =
    unregister_spec st activity_name email teacher_username.
Proof. exact (handlers_refine_spec st activity_name email teacher_username). Qed.

Lemma has_participant_lists_set k d ps data :
  has_participant_lists data = true ->
  has_participant_lists (dict_set k (dict_set "participants" (VList ps) d) data) = true.
Proof.
  unfold has_participant_lists. intros H.
  apply forallb_dict_set; [|assumption].
  intros k'. cbn [snd]. now rewrite dict_get_set_same.
Qed.

(** The hypotheses of the handlers' specification are invariants: the
    handlers keep a store well formed and every activity with its list. *)
Lemma handle_keeps_store st r :
  wf_store (activities_data st) = true ->
  has_participant_lists (activities_data st) = true ->
  wf_store (activities_data (fst (handle st r))) = true /\
  has_participant_lists (activities_data (fst (handle st r))) = true.
Proof.
  intros Hwf Hlists.
  assert (Hcommit : forall a d ps,
    store_get a (activities_data st) = Some d ->
    wf_store (activities_data (committed st a d ps)) = true /\
    has_participant_lists (activities_data (committed st a d ps)) = true).
  { intros a d ps Hg. cbn [committed activities_data]. split.
    - apply wf_store_set; [|assumption].
      apply wf_doc_set; [apply participants_not_id|].
      eapply wf_store_get; eassumption.
    - now apply has_participant_lists_set. }
  destruct r as [a e t|a e t]; cbn [handle];
    destruct (handlers_refine_spec st a e t Hwf Hlists) as [Hs Hu];
    [rewrite Hs; unfold signup_spec|rewrite Hu; unfold unregister_spec];
    destruct (given t) as [u|]; auto;
    destruct (store_get u (teachers_data st)) as [teacher|]; auto;
    destruct (store_get a (activities_data st)) as [d|] eqn:Hg; auto;
    destruct (list_contains (VStr e) (participants d)); cbn [fst]; auto.
Qed.

Theorem served_states_well_formed rs :
  forall st,
    wf_store (activities_data st) = true ->
    has_participant_lists (activities_data st) = true ->
    wf_store (activities_data (serve st rs)) = true /\
    has_participant_lists (activities_data (serve st rs)) = true.
Proof.
  induction rs as [|r rs IH]; intros st Hwf Hlists; simpl; [auto|].
  destruct (handle_keeps_store st r Hwf Hlists) as [Hwf' Hlists']. auto.
Qed.


(** C4: a mutation request that succeeds leaves the cache empty, and the
    next listing, whatever its parameters, is computed from the store and
    becomes the only cache entry. *)
Theorem mutation_clears_cache md5_hexdigest st r st' msg :
  handle st r = (st', Ok msg) ->
  cache st' = [] /\
  forall day start_time end_time page page_size,
    get_activities md5_hexdigest st' day start_time end_time page page_size =
    match compute_activities st' day start_time end_time page page_size with
    | Raise e => (st', Raise e)
    | Ok result =>
        let key := generate_cache_key md5_hexdigest day start_time end_time
                     page page_size in
        (set_cache st' [(key, result)],
         Ok {| body := result; headers := cache_headers key |})
    end.
Proof.
  intros Hh.
  assert (Hc : cache st' = []).
  { destruct r as [a e t|a e t]; simpl in Hh;
      [unfold signup_for_activity in Hh|unfold unregister_from_activity in Hh];
      destruct (check_teacher st t); try discriminate;
      destruct (get_activity st a) as [activity|]; try discriminate;
      destruct (is_participant e activity) as [[|]|]; try discriminate;
      eapply apply_update_ok; eassumption. }
  split; [assumption|].
  intros day start_time end_time page page_size.
  unfold get_activities. rewrite Hc. reflexivity.
Qed.

(** ** Uniqueness of the participants *)

Lemma is_participant_list email k d l b :
  wf_doc d = true -> dict_get "participants" d = Some (VList l) ->
  is_participant email (with_id k d) = Ok b -> list_contains (VStr email) l = b.
Proof.
  intros Hd Hl. unfold is_participant.
  rewrite (with_id_get_field _ _ _ Hd participants_not_id), Hl.
  cbn [py_in]. congruence.
Qed.

Lemma signup_keeps_rosters st a email t :
  roster_invariant st -> roster_invariant (fst (signup_for_activity st a email t)).
Proof.
  intros [Hwf Huniq]. unfold signup_for_activity.
  rewrite check_teacher_spec, get_activity_spec.
  destruct (given t) as [u|]; [|now split].
  destruct (store_get u (teachers_data st)) as [teacher|]; [|now split].
  destruct (store_get a (activities_data st)) as [d|] eqn:Hg; [|now split].
  pose proof (wf_store_get _ _ _ Hwf Hg) as Hd.
  destruct (is_participant email (with_id a d)) as [[|]|e] eqn:Hp; try (now split).
  unfold apply_update. rewrite (update_one_push_by_id _ _ _ _ _ _ Hwf Hg).
  destruct (dict_get "participants" d) as [[z|s|l|dd]|] eqn:Hl;
    try (cbn; now split).
  - cbn. unfold pushed. rewrite Hl. split.
    + apply wf_store_set; [|assumption].
      apply wf_doc_set; [apply participants_not_id|assumption].
    + apply unique_participants_set; [|assumption].
      rewrite participants_set. apply distinct_snoc_str.
      * pose proof (unique_participants_get _ _ _ Huniq Hg) as Hdist.
        unfold participants in Hdist. now rewrite Hl in Hdist.
      * eapply is_participant_list; eassumption.
  - unfold is_participant in Hp.
    rewrite (with_id_get_field _ _ _ Hd participants_not_id), Hl in Hp.
    discriminate.
Qed.

Lemma unregister_keeps_rosters st a email t :
  roster_invariant st -> roster_invariant (fst (unregister_from_activity st a email t)).
Proof.
  intros [Hwf Huniq]. unfold unregister_from_activity.
  rewrite check_teacher_spec, get_activity_spec.
  destruct (given t) as [u|]; [|now split].
  destruct (store_get u (teachers_data st)) as [teacher|]; [|now split].
  destruct (store_get a (activities_data st)) as [d|] eqn:Hg; [|now split].
  pose proof (wf_store_get _ _ _ Hwf Hg) as Hd.
  destruct (is_participant email (with_id a d)) as [[|]|e] eqn:Hp; try (now split).
  unfold apply_update. rewrite (update_one_pull_by_id _ _ _ _ _ _ Hwf Hg).
  cbn. unfold pulled.
  destruct (dict_get "participants" d) as [[z|s|l|dd]|] eqn:Hl; try (now split).
  split.
  - apply wf_store_set; [|assumption].
    apply wf_doc_set; [apply participants_not_id|assumption].
  - apply unique_participants_set; [|assumption].
    rewrite participants_set. apply distinct_without.
    pose proof (unique_participants_get _ _ _ Huniq Hg) as Hdist.
    unfold participants in Hdist. now rewrite Hl in Hdist.
Qed.

Lemma serve_keeps_rosters rs :
  forall st, roster_invariant st -> roster_invariant (serve st rs).
Proof.
  induction rs as [|r rs IH]; intros st Hinv; simpl; [assumption|].
  apply IH. destruct r as [a e t|a e t]; simpl.
  - now apply signup_keeps_rosters.
  - now apply unregister_keeps_rosters.
Qed.

(** C9: on a well-formed store in which no activity lists a participant
    twice, any sequence of signup and unregister requests, served one after
    the other and whatever each of them answers, ends in a store in which
    no activity lists a participant twice. *)
Theorem participants_stay_unique st rs :
  wf_store (activities_data st) = true ->
  unique_participants (activities_data st) = true ->
  unique_participants (activities_data (serve st rs)) = true.
Proof.
  intros Hwf Huniq. now apply (serve_keeps_rosters rs st (conj Hwf Huniq)).
Qed.

(** ** Listing activities *)











(** C10: an empty string for a filter is the filter left out: the cache
    key is the same and so is everything [get_activities] does. *)
Theorem empty_filter_is_unset md5_hexdigest st day start_time end_time page page_size :
  (generate_cache_key md5_hexdigest (Some "") start_time end_time page page_size =
   generate_cache_key md5_hexdigest None start_time end_time page page_size /\
   get_activities md5_hexdigest st (Some "") start_time end_time page page_size =
   get_activities md5_hexdigest st None start_time end_time page page_size) /\
  (generate_cache_key md5_hexdigest day (Some "") end_time page page_size =
   generate_cache_key md5_hexdigest day None end_time page page_size /\
   get_activities md5_hexdigest st day (Some "") end_time page page_size =
   get_activities md5_hexdigest st day None end_time page page_size) /\
  (generate_cache_key md5_hexdigest day start_time (Some "") page page_size =
   generate_cache_key md5_hexdigest day start_time None page page_size /\
   get_activities md5_hexdigest st day start_time (Some "") page page_size =
   get_activities md5_hexdigest st day start_time None page page_size).
Proof. repeat split; reflexivity. Qed.

Lemma ceil_pages_bounds total size :
  (0 < size)%Z ->
  (((total + size - 1) / size - 1) * size < total <= (total + size - 1) / size * size)%Z.
Proof.
  intros Hs.
  pose proof (Z.mul_div_le (total + size - 1) size Hs).
  pose proof (Z.mul_succ_div_gt (total + size - 1) size Hs).
  nia.
Qed.



(** ** The day index *)

(** C1, at a query with two days: over the seed activities, with the index
    built from those very activities, the indexed branch of [find] looks up
    the first day only and returns the three Monday activities, while the
    full scan with the same predicate returns six: the three Tuesday
    activities are lost. *)
Theorem find_index_drops_second_day :
  exists idx found scanned,
    build_indexes Seed.initial_activities = Ok idx /\
    find idx Seed.initial_activities monday_or_tuesday = Ok found /\
    full_scan Seed.initial_activities monday_or_tuesday = Ok scanned /\
    ids found =
      [Some (VStr "Chess Club"); Some (VStr "Morning Fitness");
       Some (VStr "Drama Club")] /\
    ids scanned =
      [Some (VStr "Chess Club"); Some (VStr "Programming Class");
       Some (VStr "Morning Fitness"); Some (VStr "Soccer Team");
       Some (VStr "Drama Club"); Some (VStr "Math Club")].
Proof.
  eexists. eexists. eexists.
  split; [vm_compute; reflexivity|].
  split; [vm_compute; reflexivity|].
  split; [vm_compute; reflexivity|].
  split; vm_compute; reflexivity.
Qed.

(** ** The indexed branch against the full scan *)

Lemma py_eq_refl_hashable a : hashable a = true -> py_eq a a = true.
Proof.
  destruct a; simpl; try discriminate; intros _.
  - apply Z.eqb_refl.
  - apply String.eqb_refl.
Qed.

Lemma py_eq_hashable_l a b : hashable a = true -> py_eq a b = true -> a = b.
Proof.
  destruct a, b; simpl; try discriminate; intros _ H.
  - apply Z.eqb_eq in H. now subst.
  - apply String.eqb_eq in H. now subst.
Qed.

Lemma py_eq_hashable_r a b : hashable b = true -> py_eq a b = true -> a = b.
Proof.
  destruct a, b; simpl; try discriminate; intros _ H.
  - apply Z.eqb_eq in H. now subst.
  - apply String.eqb_eq in H. now subst.
Qed.

Lemma index_get_set (idx : index) day names day0 :
  index_keys_hashable idx -> hashable day = true ->
  assoc_get py_eq day0 (assoc_set py_eq day names idx) =
  if py_eq day day0 then Some names else assoc_get py_eq day0 idx.
Proof.
  intros Hidx Hday.
  induction Hidx as [|[day1 names1] idx Hh Hidx IH]; cbn [assoc_set assoc_get].
  - reflexivity.
  - simpl in Hh. destruct (py_eq day1 day) eqn:E; cbn [assoc_get].
    + apply (py_eq_hashable_l _ _ Hh) in E. subst day1.
      now destruct (py_eq day day0).
    + rewrite IH. destruct (py_eq day1 day0) eqn:E0; [|reflexivity].
      apply (py_eq_hashable_l _ _ Hh) in E0. subst day0.
      destruct (py_eq day day1) eqn:E1; [|reflexivity].
      apply (py_eq_hashable_l _ _ Hday) in E1. subst day1.
      now rewrite (py_eq_refl_hashable _ Hday) in E.
Qed.

Lemma index_keys_set (idx : index) day names :
  index_keys_hashable idx -> hashable day = true ->
  index_keys_hashable (assoc_set py_eq day names idx).
Proof.
  intros Hidx Hday.
  induction Hidx as [|[day1 names1] idx Hh Hidx IH]; cbn [assoc_set].
  - repeat constructor. assumption.
  - destruct (py_eq day1 day); constructor; assumption.
Qed.

Lemma index_add_spec name day idx idx' :
  index_keys_hashable idx -> index_add name day idx = Ok idx' ->
  index_keys_hashable idx' /\ hashable day = true /\
  listed idx' day name /\ extends idx idx'.
Proof.
  intros Hidx. unfold index_add.
  destruct (hashable day) eqn:Hday; [|discriminate].
  destruct (assoc_get py_eq day idx) as [names|] eqn:Hg; intros [= <-].
  - split; [now apply index_keys_set|]. split; [reflexivity|]. split.
    + exists (names ++ [name]). rewrite index_get_set by assumption.
      rewrite (py_eq_refl_hashable _ Hday). split; [reflexivity|].
      apply in_or_app. right. now left.
    + intros day0 name0 _ (names0 & Hg0 & Hin0). unfold listed.
      rewrite index_get_set by assumption.
      destruct (py_eq day day0) eqn:E; [|eauto].
      apply (py_eq_hashable_l _ _ Hday) in E. subst day0.
      exists (names ++ [name]). split; [reflexivity|].
      apply in_or_app. left. congruence.
  - split; [now apply index_keys_set|]. split; [reflexivity|]. split.
    + exists [name]. rewrite index_get_set by assumption.
      rewrite (py_eq_refl_hashable _ Hday). split; [reflexivity|now left].
    + intros day0 name0 _ (names0 & Hg0 & Hin0). unfold listed.
      rewrite index_get_set by assumption.
      destruct (py_eq day day0) eqn:E; [|eauto].
      apply (py_eq_hashable_l _ _ Hday) in E. subst day0. congruence.
Qed.

Lemma extends_refl idx : extends idx idx.
Proof. intros day name _ H. exact H. Qed.

Lemma extends_trans idx1 idx2 idx3 :
  extends idx1 idx2 -> extends idx2 idx3 -> extends idx1 idx3.
Proof. intros H12 H23 day name Hh H. auto. Qed.

Lemma index_add_days_spec name days :
  forall idx idx',
    index_keys_hashable idx -> index_add_days name days idx = Ok idx' ->
    index_keys_hashable idx' /\ extends idx idx' /\
    forall day, In day days -> hashable day = true /\ listed idx' day name.
Proof.
  induction days as [|day days IH]; intros idx idx' Hidx; simpl.
  - intros [= <-]. split; [assumption|]. split; [apply extends_refl|]. tauto.
  - destruct (index_add name day idx) as [idx1|e] eqn:Ha; simpl; [|discriminate].
    intros Hrest.
    destruct (index_add_spec _ _ _ _ Hidx Ha) as (Hidx1 & Hday & Hlisted & Hext1).
    destruct (IH _ _ Hidx1 Hrest) as (Hidx' & Hext & Hdays).
    split; [assumption|]. split; [eapply extends_trans; eassumption|].
    intros day0 [<-|Hin]; [|auto].
    split; [assumption|]. now apply Hext.
Qed.

Lemma full_scan_In data query scanned :
  full_scan data query = Ok scanned ->
  forall doc, In doc scanned <->
    exists k d, In (k, d) data /\ doc = with_id k d /\
                matches_query doc query = Ok true.
Proof.
  revert scanned; induction data as [|[k d] data IH]; intros scanned; simpl.
  - intros [= <-] doc. split; [intros []|intros (k & d & [] & _)].
  - destruct (matches_query (with_id k d) query) as [b|e] eqn:Hm; simpl; [|discriminate].
    destruct (full_scan data query) as [r|e]; simpl; [|discriminate].
    intros [= <-] doc. specialize (IH r eq_refl doc).
    split.
    + intros Hin.
      assert (Hcases : doc = with_id k d /\ b = true \/ In doc r).
      { destruct b; [destruct Hin as [<-|Hin]|]; auto. }
      destruct Hcases as [[-> ->]|Hr].
      * exists k, d. auto.
      * apply IH in Hr as (k' & d' & Hin' & Hdoc & Hmatch). exists k', d'. auto.
    + intros (k' & d' & [Heq|Hin'] & -> & Hmatch).
      * injection Heq as -> ->. rewrite Hmatch in Hm. injection Hm as <-. now left.
      * assert (Hr : In (with_id k' d') r) by (apply IH; eauto).
        destruct b; [now right|assumption].
Qed.


Lemma index_scan_In data query names found :
  index_scan data query names = Ok found ->
  forall doc, In doc found <->
    exists k d, In k names /\ store_get k data = Some d /\ d <> [] /\
                doc = with_id k d /\ matches_query doc query = Ok true.
Proof.
  revert found; induction names as [|name names IH]; intros found; simpl.
  - intros [= <-] doc. split; [intros []|intros (k & d & [] & _)].
  - destruct (store_get name data) as [[|fx activity]|] eqn:Hg.
    + intros Hrest doc. rewrite (IH _ Hrest doc). split.
      * intros (k & d & Hin & Hrest'). exists k, d. auto.
      * intros (k & d & [<-|Hin] & Hg' & Hne & Hrest'); [congruence|].
        exists k, d. auto.
    + destruct (matches_query _ query) as [b|e] eqn:Hm; simpl; [|discriminate].
      destruct (index_scan data query names) as [r|e]; simpl; [|discriminate].
      intros [= <-] doc. specialize (IH r eq_refl doc). split.
      * intros Hin.
        assert (Hcases : doc = with_id name (fx :: activity) /\ b = true \/ In doc r).
        { destruct b; [destruct Hin as [<-|Hin]|]; auto. }
        destruct Hcases as [[-> ->]|Hr].
        -- exists name, (fx :: activity). repeat split; auto. discriminate.
        -- apply IH in Hr as (k & d & Hin' & Hrest'). exists k, d. auto.
      * intros (k & d & [<-|Hin'] & Hg' & Hne & -> & Hmatch).
        -- rewrite Hg in Hg'. injection Hg' as <-.
           rewrite Hmatch in Hm. injection Hm as <-. now left.
        -- assert (Hr : In (with_id k d) r) by (apply IH; exists k, d; auto).
           destruct b; [now right|assumption].
    + intros Hrest doc. rewrite (IH _ Hrest doc). split.
      * intros (k & d & Hin & Hrest'). exists k, d. auto.
      * intros (k & d & [<-|Hin] & Hg' & Hrest'); [congruence|].
        exists k, d. auto.
Qed.


Lemma indexed_results_scanned idx data query found scanned :
  unique_keys data = true -> query <> [] ->
  find idx data query = Ok found ->
  full_scan data query = Ok scanned ->
  forall doc, In doc found -> In doc scanned.
Proof.
  intros Hu Hq Hfind Hscan doc Hin. unfold find in Hfind.
  destruct query as [|kv query]; [contradiction|].
  destruct (index_candidates idx (kv :: query)) as [[names|]|e]; simpl in Hfind.
  - apply (index_scan_In _ _ _ _ Hfind) in Hin
      as (k & d & _ & Hg & _ & -> & Hmatch).
    apply (full_scan_In _ _ _ Hscan). exists k, d.
    split; [now apply dict_get_In|auto].
  - congruence.
  - discriminate.
Qed.

(** X2: whatever the index holds, stale or not, a document the indexed
    branch of [find] returns is one the full scan returns: every candidate
    is matched against the whole query. *)
Theorem index_branch_sound idx data query found scanned :
  unique_keys data = true -> query <> [] ->
  find idx data query = Ok found ->
  full_scan data query = Ok scanned ->
  forall doc, In doc found -> In doc scanned.
Proof. exact (indexed_results_scanned idx data query found scanned). Qed.

Lemma matches_query_In doc query key value :
  matches_query doc query = Ok true -> In (key, value) query ->
  matches_item doc key value = Ok true.
Proof.
  induction query as [|[key0 value0] query IH]; simpl; [intros _ []|].
  destruct (matches_item doc key0 value0) as [[|]|e] eqn:Hm; simpl; try discriminate.
  intros Hrest [Heq|Hin]; [|auto]. now injection Heq as <- <-.
Qed.

(** What a match of the one-day filter says about the document. *)
Lemma day_filter_matches doc cond day :
  dict_get "$in" cond = Some (VList [day]) ->
  matches_item doc "schedule_details.days" (VDict cond) = Ok true ->
  exists sd days,
    dict_get "schedule_details" doc = Some (VDict sd) /\
    dict_get "days" sd = Some (VList days) /\
    list_contains day days = true.
Proof.
  intros Hin. unfold matches_item.
  change (contains_dot "schedule_details.days") with true.
  change (split_dot "schedule_details.days") with ["schedule_details"; "days"].
  cbn [traverse].
  destruct (dict_get "schedule_details" doc) as [[z|s|l|sd]|]; try discriminate.
  destruct (dict_get "days" sd) as [current|] eqn:Hdays; [|discriminate].
  unfold match_condition. rewrite Hin.
  destruct current as [z|s|days|dd]; try discriminate.
  cbn [py_iter ebind existsb]. rewrite orb_false_r.
  intros [= Hc]. eauto.
Qed.



(** ** The theorems at work on the seed data *)


Lemma internal_error_unreachable_witness :
  (wf_store Seed.initial_activities = true /\
   find_one [] Seed.initial_activities chess_club =
     Ok (Some (doc_or_empty (find_one [] Seed.initial_activities chess_club)))) /\
  snd (update_one [] Seed.initial_activities chess_club
         [("$push", VDict [("participants", VStr "new@x.edu")])]) <> Ok 0%Z /\
  snd (update_one [] Seed.initial_activities chess_club
         [("$pull", VDict [("participants", VStr "new@x.edu")])]) = Ok 1%Z.
Proof.
  split; [split; reflexivity|].
  destruct internal_error_unreachable as (_ & _ & Hnever & Hone).
  split.
  - exact (Hnever [] Seed.initial_activities "Chess Club" _ _ eq_refl).
  - exact (proj1 (Hone [] Seed.initial_activities "Chess Club" _ "participants"
                    (VStr "new@x.edu") eq_refl eq_refl)).
Defined.

Lemma mutation_clears_cache_witness :
  handle st0 (Signup "Chess Club" "new@x.edu" (Some "mchen")) =
    (fst (handle st0 (Signup "Chess Club" "new@x.edu" (Some "mchen"))),
     Ok "Signed up new@x.edu for Chess Club") /\
  cache (fst (handle st0 (Signup "Chess Club" "new@x.edu" (Some "mchen")))) = [].
Proof.
  split; [reflexivity|].
  exact (proj1 (mutation_clears_cache plain st0
                  (Signup "Chess Club" "new@x.edu" (Some "mchen")) _ _ eq_refl)).
Defined.

Lemma handlers_check_in_order_witness :
  (wf_store (activities_data st0) = true /\
   has_participant_lists (activities_data st0) = true) /\
  signup_for_activity st0 "Chess Club" "michael@mergington.edu" (Some "mchen") =
    signup_spec st0 "Chess Club" "michael@mergington.edu" (Some "mchen") /\
  unregister_from_activity st0 "Chess Club" "michael@mergington.edu" (Some "mchen") =
    unregister_spec st0 "Chess Club" "michael@mergington.edu" (Some "mchen").
Proof.
  split; [split; reflexivity|].
  exact (handlers_check_in_order st0 "Chess Club" "michael@mergington.edu"
           (Some "mchen") eq_refl eq_refl).
Defined.




Lemma participants_stay_unique_witness :
  (wf_store (activities_data st0) = true /\
   unique_participants (activities_data st0) = true) /\
  unique_participants (activities_data (serve st0 requests)) = true.
Proof.
  split; [split; reflexivity|].
  exact (participants_stay_unique st0 requests eq_refl eq_refl).
Defined.

(** ** The scenarios of the specification *)

Example signup_scenario :
  snd (signup_for_activity st0 "Chess Club" "new@x.edu" (Some "mchen")) =
    Ok "Signed up new@x.edu for Chess Club" /\
  option_map (fun d => List.length (participants d))
    (store_get "Chess Club"
       (activities_data
          (fst (signup_for_activity st0 "Chess Club" "new@x.edu" (Some "mchen"))))) =
    Some 3 /\
  cache (fst (signup_for_activity st0 "Chess Club" "new@x.edu" (Some "mchen"))) = [].
Proof. repeat split; reflexivity. Qed.

Example signup_twice_scenario :
  snd (signup_for_activity
         (fst (signup_for_activity st0 "Chess Club" "new@x.edu" (Some "mchen")))
         "Chess Club" "new@x.edu" (Some "mchen")) =
    Raise (HTTPException 400 "Already signed up for this activity").
Proof. reflexivity. Qed.

Example unregister_unknown_scenario :
  snd (unregister_from_activity st0 "Chess Club" "nobody@x.edu" (Some "mchen")) =
    Raise (HTTPException 400 "Not registered for this activity").
Proof. reflexivity. Qed.

Example no_teacher_scenario :
  snd (signup_for_activity st0 "Chess Club" "new@x.edu" None) =
    Raise (HTTPException 401 "Authentication required for this action") /\
  snd (signup_for_activity st0 "Chess Club" "new@x.edu" (Some "nobody")) =
    Raise (HTTPException 401 "Invalid teacher credentials") /\
  snd (signup_for_activity st0 "Knitting" "new@x.edu" (Some "mchen")) =
    Raise (HTTPException 404 "Activity not found").
Proof. repeat split; reflexivity. Qed.

Example monday_is_indexed :
  ids (found_or_empty
         (find (day_index st0) (activities_data st0)
            (build_query (Some "Monday") None None))) =
    [Some (VStr "Chess Club"); Some (VStr "Morning Fitness"); Some (VStr "Drama Club")].
Proof. reflexivity. Qed.

Example pull_removes_every_occurrence :
  remove_while (VInt 1) [VInt 1; VInt 2; VInt 1; VInt 3; VInt 1] =
    Ok [VInt 2; VInt 3].
Proof. reflexivity. Qed.

Example split_dot_days :
  split_dot "schedule_details.days" = ["schedule_details"; "days"].
Proof. reflexivity. Qed.

Example py_slice_negative_start : py_slice [1; 2; 3; 4; 5]%Z (-2) 10 = [4; 5]%Z.
Proof. reflexivity. Qed.

Example py_eq_ignores_dict_order :
  py_eq (VDict [("a", VInt 1); ("b", VInt 2)])
        (VDict [("b", VInt 2); ("a", VInt 1)]) = true.
Proof. reflexivity. Qed.

(** ** Why the statements have their hypotheses *)

(** A document with an ["_id"] entry of its own hides the key of the store
    in what [find_one] returns, and [update_one] then follows that entry:
    the push asked for document ["a"] lands in document ["b"]. *)
Example own_id_entry_redirects_update :
  update_one []
    [("a", [("_id", VStr "b"); ("participants", VList [])]);
     ("b", [("participants", VList [])])]
    [("_id", VStr "a")]
    [("$push", VDict [("participants", VStr "new@x.edu")])] =
  ([("a", [("_id", VStr "b"); ("participants", VList [])]);
    ("b", [("participants", VList [VStr "new@x.edu"])])],
   Ok 1%Z).
Proof. reflexivity. Qed.

(** On a hit [get_activities] returns what the cache holds under the key,
    whatever the store would give now. *)
Lemma get_activities_hit md5_hexdigest st day start_time end_time page page_size cached :
  dict_get (generate_cache_key md5_hexdigest day start_time end_time page page_size)
    (cache st) = Some cached ->
  get_activities md5_hexdigest st day start_time end_time page page_size =
    (st, Ok {| body := cached;
               headers := cache_headers
                 (generate_cache_key md5_hexdigest day start_time end_time
                    page page_size) |}).
Proof. intros Hhit. unfold get_activities. now rewrite Hhit. Qed.

(** The string the key is the digest of does not separate its fields: two
    different filter tuples can share a key, whatever the digest. *)
Example cache_key_shared md5_hexdigest :
  generate_cache_key md5_hexdigest None (Some "10:00") (Some "x&end_time=99:99") 1 8 =
  generate_cache_key md5_hexdigest None (Some "10:00&end_time=x") (Some "99:99") 1 8.
Proof. reflexivity. Qed.

(** * Further properties of the collection *)

(** ** [find] and [find_one] *)

(** X3: without a query [find] returns every document of a well-formed
    store once, in the order of the store, with its key under ["_id"] in
    front of its own fields. *)
Theorem find_without_query idx data :
  wf_store data = true ->
  find idx data [] =
    Ok (map (fun kd => ("_id", VStr (fst kd)) :: snd kd) data).
Proof.
  intros Hwf. unfold find. f_equal. apply map_ext_in.
  intros [k d] Hin. cbn [fst snd]. apply with_id_wf.
  apply (wf_store_get data k d Hwf). now apply wf_store_In.
Qed.

Lemma find_without_query_witness :
  wf_store Seed.initial_activities = true /\
  find [] Seed.initial_activities [] =
    Ok (map (fun kd => ("_id", VStr (fst kd)) :: snd kd) Seed.initial_activities).
Proof.
  split; [reflexivity|].
  exact (find_without_query [] Seed.initial_activities eq_refl).
Defined.

Lemma matches_identity_query k d k0 :
  wf_doc d = true ->
  matches_query (with_id k d) [("_id", VStr k0)] = Ok (String.eqb k k0).
Proof.
  intros Hd. cbn [matches_query]. unfold matches_item.
  change (contains_dot "_id") with false. cbv iota.
  rewrite with_id_get_id.
  - cbn [py_eq ebind]. now destruct (String.eqb k k0).
  - unfold wf_doc in Hd. apply andb_prop in Hd as [_ Hid].
    now apply negb_true_iff in Hid.
Qed.

Lemma full_scan_identity data k0 :
  wf_store data = true ->
  full_scan data [("_id", VStr k0)] =
    Ok (match store_get k0 data with
        | Some d => [with_id k0 d]
        | None => []
        end).
Proof.
  induction data as [|[k d] data IH]; intros Hwf; [reflexivity|].
  unfold wf_store in Hwf. cbn [unique_keys forallb snd] in Hwf.
  apply andb_prop in Hwf as [Hu Hall].
  apply andb_prop in Hu as [Hfresh Hu]. apply andb_prop in Hall as [Hd Hall].
  assert (Hwf' : wf_store data = true) by (unfold wf_store; now rewrite Hu, Hall).
  cbn [full_scan]. rewrite (matches_identity_query _ _ _ Hd), (IH Hwf').
  cbn [ebind]. unfold store_get, dict_get. cbn [assoc_get].
  destruct (String.eqb k k0) eqn:E; [|reflexivity].
  apply String.eqb_eq in E. subst k0.
  apply negb_true_iff, dict_has_false in Hfresh.
  unfold dict_get in Hfresh. now rewrite Hfresh.
Qed.

(** X4: on a well-formed store the direct lookup [find_one] makes for an
    identity query returns what its general path, the first result of
    [find], would return. *)
Theorem find_one_shortcut_agrees idx data k :
  wf_store data = true ->
  find_one idx data [("_id", VStr k)] =
    (results <- find idx data [("_id", VStr k)] ;; Ok (hd_error results)).
Proof.
  intros Hwf. rewrite find_one_by_id.
  change (find idx data [("_id", VStr k)]) with (full_scan data [("_id", VStr k)]).
  rewrite (full_scan_identity _ _ Hwf). cbn [ebind].
  now destruct (store_get k data).
Qed.

Lemma find_one_shortcut_agrees_witness :
  wf_store Seed.initial_activities = true /\
  find_one [] Seed.initial_activities chess_club =
    (results <- find [] Seed.initial_activities chess_club ;; Ok (hd_error results)).
Proof.
  split; [reflexivity|].
  exact (find_one_shortcut_agrees [] Seed.initial_activities "Chess Club" eq_refl).
Defined.

(** ** [update_one] *)

Lemma dict_set_twice {V : Type} k (a b : V) d :
  dict_set k a (dict_set k b d) = dict_set k a d.
Proof.
  unfold dict_set. induction d as [|[k' v'] d IH]; cbn [assoc_set].
  - now rewrite String.eqb_refl.
  - destruct (String.eqb k' k) eqn:E; cbn [assoc_set]; rewrite E; [reflexivity|].
    now rewrite IH.
Qed.

Lemma store_set_keys (data : store) k d d0 :
  store_get k data = Some d0 -> map fst (dict_set k d data) = map fst data.
Proof. intros Hg. eapply dict_set_present_keys; eassumption. Qed.

Lemma lookup_doc_key doc_id data k d :
  lookup_doc doc_id data = Ok (k, d) -> doc_id = VStr k /\ store_get k data = Some d.
Proof.
  unfold lookup_doc. destruct doc_id as [z|k'|l|dd]; try discriminate.
  destruct (store_get k' data) as [d'|] eqn:Hg; [|discriminate].
  intros [= -> ->]. auto.
Qed.

Lemma push_field_local : local_step push_field.
Proof.
  intros doc_id field v data data'. unfold push_field.
  destruct (lookup_doc doc_id data) as [[k d]|e] eqn:Hl; cbn [ebind fst snd];
    [|discriminate].
  apply lookup_doc_key in Hl as [-> Hg].
  assert (Hset : forall d', map fst (dict_set k d' data) = map fst data /\
            forall k', VStr k <> VStr k' ->
                       store_get k' (dict_set k d' data) = store_get k' data).
  { intros d'. split; [eapply store_set_keys; eassumption|].
    intros k' Hne. apply dict_get_set_other. congruence. }
  destruct (dict_get field d) as [[z|s|l|dd]|]; try discriminate;
    intros [= <-]; apply Hset.
Qed.

Lemma pull_field_local : local_step pull_field.
Proof.
  intros doc_id field v data data'. unfold pull_field.
  destruct (lookup_doc doc_id data) as [[k d]|e] eqn:Hl; cbn [ebind fst snd];
    [|discriminate].
  apply lookup_doc_key in Hl as [-> Hg].
  destruct (dict_get field d) as [[z|s|l|dd]|]; try (intros [= <-]; now split).
  rewrite remove_while_without. cbn [ebind]. intros [= <-]. split.
  - eapply store_set_keys; eassumption.
  - intros k' Hne. apply dict_get_set_other. congruence.
Qed.

Lemma apply_fields_local step :
  local_step step ->
  forall doc_id items data,
    map fst (fst (apply_fields step doc_id items data)) = map fst data /\
    forall k', doc_id <> VStr k' ->
      store_get k' (fst (apply_fields step doc_id items data)) = store_get k' data.
Proof.
  intros Hstep doc_id items.
  induction items as [|[field v] items IH]; intros data; cbn [apply_fields].
  - now split.
  - destruct (step doc_id field v data) as [data1|e] eqn:Hs; [|now split].
    destruct (Hstep _ _ _ _ _ Hs) as [Hk Ho]. destruct (IH data1) as [Hk' Ho'].
    split; [congruence|]. intros k' Hne. rewrite Ho' by assumption. auto.
Qed.

Lemma apply_section_local op step :
  local_step step ->
  forall doc_id update data,
    map fst (fst (apply_section op step doc_id update data)) = map fst data /\
    forall k', doc_id <> VStr k' ->
      store_get k' (fst (apply_section op step doc_id update data)) = store_get k' data.
Proof.
  intros Hstep doc_id update data. unfold apply_section.
  destruct (dict_get op update) as [[z|s|l|items]|]; try (now split).
  now apply apply_fields_local.
Qed.

Lemma update_one_local idx data query update :
  map fst (fst (update_one idx data query update)) = map fst data /\
  (forall doc k',
     find_one idx data query = Ok (Some doc) ->
     dict_get "_id" doc <> Some (VStr k') ->
     store_get k' (fst (update_one idx data query update)) = store_get k' data) /\
  (find_one idx data query = Ok None ->
   update_one idx data query update = (data, Ok 0%Z)).
Proof.
  unfold update_one.
  destruct (find_one idx data query) as [[[|p doc]|]|e] eqn:Hf;
    try (split; [reflexivity|split; [reflexivity|]]; intros; (reflexivity || discriminate)).
  destruct (dict_get "_id" (p :: doc)) as [doc_id|] eqn:Hid;
    [|split; [reflexivity|split; [reflexivity|discriminate]]].
  pose proof (apply_section_local "$push" push_field push_field_local doc_id update data)
    as [Hk1 Ho1].
  destruct (apply_section "$push" push_field doc_id update data) as [data1 [u|e]];
    cbn [fst] in *.
  - pose proof (apply_section_local "$pull" pull_field pull_field_local doc_id update data1)
      as [Hk2 Ho2].
    destruct (apply_section "$pull" pull_field doc_id update data1) as [data2 [u'|e]];
      cbn [fst] in *;
      (split; [congruence|split; [|discriminate]]);
      intros doc0 k' [= <-] Hne; rewrite Ho2, Ho1; congruence.
  - split; [assumption|split; [|discriminate]].
    intros doc0 k' [= <-] Hne. apply Ho1. congruence.
Qed.

(** X5: whatever the query and the update, and whether it returns or
    raises, [update_one] leaves the store with the same keys in the same
    order, and changes no document but the one named by the ["_id"] of
    what [find_one] found; when nothing is found the store is untouched. *)
Theorem update_one_is_local idx data query update :
  map fst (fst (update_one idx data query update)) = map fst data /\
  (forall doc k',
     find_one idx data query = Ok (Some doc) ->
     dict_get "_id" doc <> Some (VStr k') ->
     store_get k' (fst (update_one idx data query update)) = store_get k' data) /\
  (find_one idx data query = Ok None ->
   update_one idx data query update = (data, Ok 0%Z)).
Proof. exact (update_one_local idx data query update). Qed.

Lemma update_one_is_local_witness :
  (find_one [] Seed.initial_activities chess_club =
     Ok (Some (doc_or_empty (find_one [] Seed.initial_activities chess_club))) /\
   dict_get "_id" (doc_or_empty (find_one [] Seed.initial_activities chess_club)) <>
     Some (VStr "Art Club")) /\
  store_get "Art Club"
    (fst (update_one [] Seed.initial_activities chess_club
            [("$push", VDict [("participants", VStr "new@x.edu")])])) =
    store_get "Art Club" Seed.initial_activities.
Proof.
  split; [split; [reflexivity|discriminate]|].
  exact (proj1 (proj2 (update_one_is_local [] Seed.initial_activities chess_club
                         [("$push", VDict [("participants", VStr "new@x.edu")])]))
           _ "Art Club" eq_refl ltac:(discriminate)).
Defined.

(** X6: the two sections of an update are applied push first, whatever
    the order they are written in: on a well-formed store, an update that
    pulls and pushes the same hashable value at the same list field leaves
    the list without the value and reports one modification. *)
Theorem update_one_push_before_pull idx data query field v doc :
  wf_store data = true ->
  hashable v = true ->
  find_one idx data query = Ok (Some doc) ->
  exists k d,
    doc = with_id k d /\ store_get k data = Some d /\
    forall l,
      dict_get field d = Some (VList l) ->
      update_one idx data query
        [("$pull", VDict [(field, v)]); ("$push", VDict [(field, v)])] =
      (dict_set k (dict_set field (VList (without v l)) d) data, Ok 1%Z).
Proof.
  intros Hwf Hv Hf.
  destruct (find_one_found_wf _ _ _ _ Hwf Hf) as (k & d & -> & Hg).
  exists k, d. split; [reflexivity|]. split; [assumption|].
  intros l Hl.
  rewrite (update_one_found _ _ _ _ _ _ Hwf Hf Hg).
  change (apply_section "$push" push_field (VStr k)
            [("$pull", VDict [(field, v)]); ("$push", VDict [(field, v)])] data)
    with (apply_fields push_field (VStr k) [(field, v)] data).
  cbn [apply_fields]. rewrite (push_field_spec _ _ _ _ _ Hg), Hl.
  change (apply_section "$pull" pull_field (VStr k)
            [("$pull", VDict [(field, v)]); ("$push", VDict [(field, v)])]
            (dict_set k (dict_set field (VList (l ++ [v])) d) data))
    with (apply_fields pull_field (VStr k) [(field, v)]
            (dict_set k (dict_set field (VList (l ++ [v])) d) data)).
  cbn [apply_fields].
  rewrite (pull_field_spec _ _ (dict_set field (VList (l ++ [v])) d) _ _
             (store_set_get_same _ _ _)).
  rewrite dict_get_set_same, !dict_set_twice.
  assert (Hw : without v (l ++ [v]) = without v l).
  { unfold without. rewrite filter_app. cbn [filter].
    rewrite (py_eq_refl_hashable _ Hv). cbn [negb]. apply app_nil_r. }
  now rewrite Hw.
Qed.

Lemma update_one_push_before_pull_witness :
  (wf_store Seed.initial_activities = true /\
   hashable (VStr "new@x.edu") = true /\
   find_one [] Seed.initial_activities chess_club =
     Ok (Some (doc_or_empty (find_one [] Seed.initial_activities chess_club)))) /\
  exists k d,
    doc_or_empty (find_one [] Seed.initial_activities chess_club) = with_id k d /\
    store_get k Seed.initial_activities = Some d.
Proof.
  split; [repeat split; reflexivity|].
  destruct (update_one_push_before_pull [] Seed.initial_activities chess_club
              "participants" (VStr "new@x.edu") _ eq_refl eq_refl eq_refl)
    as (k & d & Hdoc & Hg & _).
  exists k, d. split; assumption.
Defined.

(** X7: [update_one] is not all-or-nothing.  On a well-formed store, a
    ["$push"] of two fields whose first is absent or a list and whose
    second holds something that is not a list raises [AttributeError]
    after the first value has been appended, and the store keeps it. *)
Theorem update_one_keeps_partial_push idx data query f1 v1 f2 v2 doc :
  wf_store data = true ->
  find_one idx data query = Ok (Some doc) ->
  f1 <> f2 ->
  exists k d,
    doc = with_id k d /\ store_get k data = Some d /\
    ((dict_get f1 d = None \/ exists l, dict_get f1 d = Some (VList l)) ->
     (exists x, dict_get f2 d = Some x /\ forall l, x <> VList l) ->
     update_one idx data query [("$push", VDict [(f1, v1); (f2, v2)])] =
       (pushed k f1 v1 d data, Raise AttributeError)).
Proof.
  intros Hwf Hf Hne.
  destruct (find_one_found_wf _ _ _ _ Hwf Hf) as (k & d & -> & Hg).
  exists k, d. split; [reflexivity|]. split; [assumption|].
  intros H1 (x & H2 & Hx).
  rewrite (update_one_found _ _ _ _ _ _ Hwf Hf Hg).
  change (apply_section "$push" push_field (VStr k)
            [("$push", VDict [(f1, v1); (f2, v2)])] data)
    with (apply_fields push_field (VStr k) [(f1, v1); (f2, v2)] data).
  cbn [apply_fields].
  assert (Hstep : push_field (VStr k) f1 v1 data = Ok (pushed k f1 v1 d data)).
  { rewrite (push_field_spec _ _ _ _ _ Hg). unfold pushed.
    destruct H1 as [Hn|[l Hl]]; [rewrite Hn|rewrite Hl]; reflexivity. }
  rewrite Hstep.
  assert (Hd1 : exists d1, pushed k f1 v1 d data = dict_set k d1 data /\
                           dict_get f2 d1 = Some x).
  { unfold pushed. destruct (dict_get f1 d) as [[z|s|l|dd]|];
      eexists; (split; [reflexivity|]);
      rewrite dict_get_set_other by assumption; exact H2. }
  destruct Hd1 as (d1 & Hp & Hx2). rewrite Hp.
  rewrite (push_field_spec _ _ d1 _ _ (store_set_get_same _ _ _)), Hx2.
  destruct x as [z|s|l|dd]; try reflexivity. now destruct (Hx l).
Qed.

Lemma update_one_keeps_partial_push_witness :
  (wf_store Seed.initial_activities = true /\
   find_one [] Seed.initial_activities chess_club =
     Ok (Some (doc_or_empty (find_one [] Seed.initial_activities chess_club))) /\
   "waitlist" <> "schedule") /\
  exists k d,
    doc_or_empty (find_one [] Seed.initial_activities chess_club) = with_id k d /\
    store_get k Seed.initial_activities = Some d.
Proof.
  split; [split; [reflexivity|split; [reflexivity|discriminate]]|].
  destruct (update_one_keeps_partial_push [] Seed.initial_activities chess_club
              "waitlist" (VStr "a@x.edu") "schedule" (VStr "b@x.edu") _
              eq_refl eq_refl ltac:(discriminate))
    as (k & d & Hdoc & Hg & _).
  exists k, d. split; assumption.
Defined.

Lemma without_twice v l : without v (without v l) = without v l.
Proof.
  apply without_absent, list_contains_without.
Qed.

Lemma pulled_wf k field v d data :
  field <> "_id" -> wf_store data = true -> store_get k data = Some d ->
  wf_store (pulled k field v d data) = true.
Proof.
  intros Hne Hwf Hg. unfold pulled.
  destruct (dict_get field d) as [[z|s|l|dd]|]; try assumption.
  apply wf_store_set; [|assumption].
  apply wf_doc_set; [assumption|]. eapply wf_store_get; eassumption.
Qed.

(** X8: pulling is idempotent.  On a well-formed store, a second
    ["$pull"] of the same value from the same field of the same document
    reports one modification again and changes nothing. *)
Theorem update_one_pull_twice idx data k d field v :
  wf_store data = true ->
  store_get k data = Some d ->
  field <> "_id" ->
  let update := [("$pull", VDict [(field, v)])] in
  let data1 := fst (update_one idx data [("_id", VStr k)] update) in
  update_one idx data1 [("_id", VStr k)] update = (data1, Ok 1%Z).
Proof.
  intros Hwf Hg Hne update data1. subst update data1.
  rewrite (update_one_pull_by_id _ _ _ _ _ _ Hwf Hg). cbn [fst].
  pose proof (pulled_wf k field v d data Hne Hwf Hg) as Hwf1.
  unfold pulled in *.
  destruct (dict_get field d) as [x|] eqn:Hl.
  - destruct x as [z|s|l|dd];
      try (rewrite (update_one_pull_by_id _ _ _ _ _ _ Hwf Hg);
           unfold pulled; now rewrite Hl).
    rewrite (update_one_pull_by_id _ _ _ _ _ _ Hwf1 (store_set_get_same _ _ _)).
    unfold pulled. rewrite dict_get_set_same, without_twice, !dict_set_twice.
    reflexivity.
  - rewrite (update_one_pull_by_id _ _ _ _ _ _ Hwf Hg). unfold pulled. now rewrite Hl.
Qed.

Lemma update_one_pull_twice_witness :
  (wf_store Seed.initial_activities = true /\
   store_get "Chess Club" Seed.initial_activities =
     Some (doc_or_empty (Ok (store_get "Chess Club" Seed.initial_activities))) /\
   "participants" <> "_id") /\
  snd (update_one []
         (fst (update_one [] Seed.initial_activities chess_club
                 [("$pull", VDict [("participants", VStr "michael@mergington.edu")])]))
         chess_club
         [("$pull", VDict [("participants", VStr "michael@mergington.edu")])]) =
    Ok 1%Z.
Proof.
  split; [split; [reflexivity|split; [reflexivity|discriminate]]|].
  exact (f_equal snd
           (update_one_pull_twice [] Seed.initial_activities "Chess Club" _
              "participants" (VStr "michael@mergington.edu")
              eq_refl eq_refl participants_not_id)).
Defined.

(** ** The day index *)

Lemma listed_nil day name : ~ listed [] day name.
Proof. intros (names & Hg & _). discriminate. Qed.

Lemma index_add_only name day idx idx' :
  index_keys_hashable idx -> index_add name day idx = Ok idx' ->
  forall day0 name0,
    listed idx' day0 name0 ->
    listed idx day0 name0 \/ (day0 = day /\ name0 = name).
Proof.
  intros Hidx. unfold index_add.
  destruct (hashable day) eqn:Hday; [|discriminate].
  destruct (assoc_get py_eq day idx) as [names|] eqn:Hg; intros [= <-];
    intros day0 name0 (names0 & Hg0 & Hin0);
    rewrite index_get_set in Hg0 by assumption;
    destruct (py_eq day day0) eqn:E;
    try (left; exists names0; now split).
  - apply (py_eq_hashable_l _ _ Hday) in E. subst day0. injection Hg0 as <-.
    apply in_app_or in Hin0 as [Hin0|[<-|[]]]; [left|right; auto].
    exists names. auto.
  - apply (py_eq_hashable_l _ _ Hday) in E. subst day0. injection Hg0 as <-.
    destruct Hin0 as [<-|[]]. right. auto.
Qed.

Lemma index_add_days_only name days :
  forall idx idx',
    index_keys_hashable idx -> index_add_days name days idx = Ok idx' ->
    forall day0 name0,
      listed idx' day0 name0 ->
      listed idx day0 name0 \/ (In day0 days /\ name0 = name).
Proof.
  induction days as [|day days IH]; intros idx idx' Hidx; simpl.
  - intros [= <-] day0 name0 H. now left.
  - destruct (index_add name day idx) as [idx1|e] eqn:Ha; simpl; [|discriminate].
    intros Hrest day0 name0 Hl.
    destruct (index_add_spec _ _ _ _ Hidx Ha) as (Hidx1 & _).
    destruct (IH _ _ Hidx1 Hrest _ _ Hl) as [Hl1|[Hin ->]]; [|right; auto].
    destruct (index_add_only _ _ _ _ Hidx Ha _ _ Hl1) as [Hl0|[-> ->]]; auto.
Qed.

Lemma build_indexes_from_exact data :
  forall idx idx',
    index_keys_hashable idx -> build_indexes_from data idx = Ok idx' ->
    forall day name,
      listed idx' day name <->
      (listed idx day name \/
       exists activity ds,
         In (name, activity) data /\ days_of activity = Ok ds /\ In day ds).
Proof.
  induction data as [|[name0 activity0] data IH]; intros idx idx' Hidx; simpl.
  - intros [= <-] day name. split; [now left|].
    intros [H|(activity & ds & [] & _)]. exact H.
  - destruct (schedule_days activity0) as [days0|e] eqn:Hs; simpl; [|discriminate].
    destruct (py_iter days0) as [ds0|e] eqn:Hi; simpl; [|discriminate].
    destruct (index_add_days name0 ds0 idx) as [idx1|e] eqn:Ha; simpl; [|discriminate].
    intros Hrest day name.
    assert (Hdays : days_of activity0 = Ok ds0)
      by (unfold days_of; rewrite Hs; exact Hi).
    destruct (index_add_days_spec _ _ _ _ Hidx Ha) as (Hidx1 & Hext1 & Hds).
    rewrite (IH _ _ Hidx1 Hrest day name). split.
    + intros [Hl1|(activity & ds & Hin & Hd & Hday)].
      * destruct (index_add_days_only _ _ _ _ Hidx Ha _ _ Hl1) as [Hl0|[Hin ->]];
          [now left|].
        right. exists activity0, ds0. auto.
      * right. exists activity, ds. auto.
    + intros [Hl0|(activity & ds & [Heq|Hin] & Hd & Hday)].
      * left. destruct Hl0 as (names & Hg & Hin).
        assert (Hh : hashable day = true).
        { clear - Hidx Hg. induction Hidx as [|[day1 names1] idx Hh Hidx IHi];
            cbn [assoc_get] in Hg; [discriminate|].
          destruct (py_eq day1 day) eqn:E; [|auto].
          simpl in Hh. now rewrite <- (py_eq_hashable_l _ _ Hh E). }
        apply Hext1; [assumption|]. exists names. auto.
      * injection Heq as -> ->. rewrite Hdays in Hd. injection Hd as <-.
        left. now apply Hds.
      * right. exists activity, ds. auto.
Qed.

(** X1: when [_build_indexes] succeeds, the day index lists an activity
    under a day exactly when the store has the activity with that day among
    its days. *)
Theorem build_indexes_exact data idx :
  build_indexes data = Ok idx ->
  forall day name,
    listed idx day name <->
    exists activity ds,
      In (name, activity) data /\ days_of activity = Ok ds /\ In day ds.
Proof.
  intros Hb day name.
  rewrite (build_indexes_from_exact data [] idx (Forall_nil _) Hb day name).
  split; [|auto]. intros [H|H]; [|exact H]. now apply listed_nil in H.
Qed.

Lemma build_indexes_exact_witness :
  build_indexes Seed.initial_activities = Ok (day_index st0) /\
  (listed (day_index st0) (VStr "Sunday") "Sunday Chess Tournament" <->
   exists activity ds,
     In ("Sunday Chess Tournament", activity) Seed.initial_activities /\
     days_of activity = Ok ds /\ In (VStr "Sunday") ds).
Proof.
  split; [reflexivity|].
  exact (build_indexes_exact Seed.initial_activities (day_index st0) eq_refl
           (VStr "Sunday") "Sunday Chess Tournament").
Defined.

Lemma index_branch_sound_witness :
  (unique_keys Seed.initial_activities = true /\
   monday_or_tuesday <> [] /\
   find (day_index st0) Seed.initial_activities monday_or_tuesday =
     Ok (found_or_empty (find (day_index st0) Seed.initial_activities monday_or_tuesday)) /\
   full_scan Seed.initial_activities monday_or_tuesday =
     Ok (found_or_empty (full_scan Seed.initial_activities monday_or_tuesday))) /\
  incl (found_or_empty (find (day_index st0) Seed.initial_activities monday_or_tuesday))
       (found_or_empty (full_scan Seed.initial_activities monday_or_tuesday)).
Proof.
  split; [split; [reflexivity|split; [discriminate|split; reflexivity]]|].
  exact (index_branch_sound (day_index st0) Seed.initial_activities monday_or_tuesday
           _ _ eq_refl ltac:(discriminate) eq_refl eq_refl).
Defined.


(** * Further properties of the router *)

(** ** The queries of [get_activities] *)







Lemma find_results_match idx data query found :
  query <> [] -> find idx data query = Ok found ->
  forall doc, In doc found -> matches_query doc query = Ok true.
Proof.
  intros Hq Hfind doc Hin. unfold find in Hfind.
  destruct query as [|kv query]; [contradiction|].
  destruct (index_candidates idx (kv :: query)) as [[names|]|e]; simpl in Hfind.
  - apply (index_scan_In _ _ _ _ Hfind) in Hin as (k & d & _ & _ & _ & _ & Hm).
    exact Hm.
  - apply (full_scan_In _ _ _ Hfind) in Hin as (k & d & _ & _ & Hm). exact Hm.
  - discriminate.
Qed.

Lemma start_filter_matches doc t :
  matches_item doc "schedule_details.start_time" (VDict [("$gte", VStr t)]) = Ok true ->
  starts_from doc t.
Proof.
  unfold matches_item.
  change (contains_dot "schedule_details.start_time") with true.
  change (split_dot "schedule_details.start_time") with ["schedule_details"; "start_time"].
  cbn [traverse].
  destruct (dict_get "schedule_details" doc) as [[z|s|l|sd]|] eqn:Hsd;
    try discriminate.
  destruct (dict_get "start_time" sd) as [t0|] eqn:Ht; [|discriminate].
  change (match_condition t0 (VDict [("$gte", VStr t)]))
    with (b <- py_lt t0 (VStr t) ;; Ok (negb b)).
  destruct (py_lt t0 (VStr t)) as [[|]|e] eqn:Hlt; cbn [ebind negb]; try discriminate.
  intros _. exists sd, t0. auto.
Qed.

Lemma end_filter_matches doc t :
  matches_item doc "schedule_details.end_time" (VDict [("$lte", VStr t)]) = Ok true ->
  ends_by doc t.
Proof.
  unfold matches_item.
  change (contains_dot "schedule_details.end_time") with true.
  change (split_dot "schedule_details.end_time") with ["schedule_details"; "end_time"].
  cbn [traverse].
  destruct (dict_get "schedule_details" doc) as [[z|s|l|sd]|] eqn:Hsd;
    try discriminate.
  destruct (dict_get "end_time" sd) as [t1|] eqn:Ht; [|discriminate].
  change (match_condition t1 (VDict [("$lte", VStr t)]))
    with (b <- py_gt t1 (VStr t) ;; Ok (negb b)).
  destruct (py_gt t1 (VStr t)) as [[|]|e] eqn:Hgt; cbn [ebind negb]; try discriminate.
  intros _. exists sd, t1. auto.
Qed.

Lemma build_query_items day start_time end_time :
  (forall d, given day = Some d ->
     In ("schedule_details.days", VDict [("$in", VList [VStr d])])
        (build_query day start_time end_time)) /\
  (forall t, given start_time = Some t ->
     In ("schedule_details.start_time", VDict [("$gte", VStr t)])
        (build_query day start_time end_time)) /\
  (forall t, given end_time = Some t ->
     In ("schedule_details.end_time", VDict [("$lte", VStr t)])
        (build_query day start_time end_time)).
Proof.
  unfold build_query.
  destruct (given day), (given start_time), (given end_time);
    repeat split; intros x [= <-]; cbv [dict_set assoc_set];
    repeat match goal with
           | |- context [String.eqb ?a ?b] =>
               let r := eval vm_compute in (String.eqb a b) in
               change (String.eqb a b) with r; cbv iota
           end;
    simpl In; tauto.
Qed.

(** X11: whatever the index holds, every activity [find] returns for a
    query of [get_activities] passes each filter that was given: it is
    scheduled on the day, its start time is not before [start_time] and its
    end time is not after [end_time]. *)
Theorem listing_respects_filters idx data day start_time end_time found doc :
  find idx data (build_query day start_time end_time) = Ok found ->
  In doc found ->
  (forall d, given day = Some d -> on_day doc d) /\
  (forall t, given start_time = Some t -> starts_from doc t) /\
  (forall t, given end_time = Some t -> ends_by doc t).
Proof.
  intros Hfind Hin.
  destruct (build_query_items day start_time end_time) as (Hd & Hs & He).
  assert (Hm : build_query day start_time end_time <> [] ->
               matches_query doc (build_query day start_time end_time) = Ok true).
  { intros Hq. eapply find_results_match; eassumption. }
  assert (Hne : forall kv, In kv (build_query day start_time end_time) ->
                build_query day start_time end_time <> []).
  { intros kv Hkv Hq. rewrite Hq in Hkv. destruct Hkv. }
  split; [|split].
  - intros d Hg. specialize (Hd d Hg).
    pose proof (matches_query_In _ _ _ _ (Hm (Hne _ Hd)) Hd) as Hitem.
    destruct (day_filter_matches doc [("$in", VList [VStr d])] (VStr d) eq_refl Hitem)
      as (sd & days & H1 & H2 & H3).
    exists sd, days. auto.
  - intros t Hg. specialize (Hs t Hg).
    apply start_filter_matches.
    exact (matches_query_In _ _ _ _ (Hm (Hne _ Hs)) Hs).
  - intros t Hg. specialize (He t Hg).
    apply end_filter_matches.
    exact (matches_query_In _ _ _ _ (Hm (Hne _ He)) He).
Qed.

Lemma listing_respects_filters_witness :
  (find (day_index st0) (activities_data st0)
     (build_query (Some "Friday") (Some "15:20") None) =
     Ok (found_or_empty
           (find (day_index st0) (activities_data st0)
              (build_query (Some "Friday") (Some "15:20") None))) /\
   In (with_id "Debate Team"
         (doc_or_empty (Ok (store_get "Debate Team" (activities_data st0)))))
      (found_or_empty
         (find (day_index st0) (activities_data st0)
            (build_query (Some "Friday") (Some "15:20") None)))) /\
  on_day (with_id "Debate Team"
            (doc_or_empty (Ok (store_get "Debate Team" (activities_data st0)))))
         "Friday".
Proof.
  split; [split; [reflexivity|vm_compute; auto]|].
  refine (proj1 (listing_respects_filters (day_index st0) (activities_data st0)
                   (Some "Friday") (Some "15:20") None _ _ eq_refl _) "Friday" eq_refl).
  vm_compute. auto.
Defined.

(** ** The cache *)

(** X12: [get_activities] never touches the collections or the index, and
    asking the same listing again gives the same reply (body and headers)
    and leaves the state as the first call left it: the first call, when it
    succeeds, has stored what the second returns. *)
Theorem get_activities_repeats md5_hexdigest st day start_time end_time page page_size :
  let first := get_activities md5_hexdigest st day start_time end_time page page_size in
  get_activities md5_hexdigest (fst first) day start_time end_time page page_size = first /\
  activities_data (fst first) = activities_data st /\
  teachers_data (fst first) = teachers_data st /\
  day_index (fst first) = day_index st.
Proof.
  cbv zeta. unfold get_activities.
  destruct (dict_get (generate_cache_key md5_hexdigest day start_time end_time
                        page page_size) (cache st)) as [cached|] eqn:Hc.
  - cbn [fst]. rewrite Hc. auto.
  - destruct (compute_activities st day start_time end_time page page_size)
      as [result|e] eqn:Hr.
    + cbn [fst set_cache cache activities_data teachers_data day_index].
      rewrite dict_get_set_same. auto.
    + cbn [fst]. rewrite Hc.
      rewrite Hr. auto.
Qed.

Lemma append_assoc (a b c : string) : ((a ++ b) ++ c)%string = (a ++ b ++ c)%string.
Proof. induction a as [|ch a IH]; simpl; [reflexivity|now rewrite IH]. Qed.

Lemma cache_key_overlap md5_hexdigest day s x e page page_size :
  generate_cache_key md5_hexdigest day (Some (s ++ "&end_time=" ++ x)%string)
    (Some e) page page_size =
  generate_cache_key md5_hexdigest day (Some s)
    (Some (x ++ "&end_time=" ++ e)%string) page page_size.
Proof.
  unfold generate_cache_key. cbn [or_empty]. f_equal. f_equal. f_equal. f_equal.
  now rewrite !append_assoc.
Qed.

(** X13: the string behind the cache key does not separate its fields.
    Once a listing with [start_time = s&end_time=x] and [end_time = e] has
    been answered, the different listing with [start_time = s] and
    [end_time = x&end_time=e] is answered with that very reply, from the
    cache, whatever the digest and whatever the store would give. *)
Theorem cache_serves_other_query md5_hexdigest st day s x e page page_size reply1 :
  let first :=
    get_activities md5_hexdigest st day (Some (s ++ "&end_time=" ++ x)%string)
      (Some e) page page_size in
  snd first = Ok reply1 ->
  get_activities md5_hexdigest (fst first) day (Some s)
    (Some (x ++ "&end_time=" ++ e)%string) page page_size =
  (fst first, Ok reply1).
Proof.
  cbv zeta. intros Hfirst.
  assert (Hhit : dict_get
            (generate_cache_key md5_hexdigest day (Some s)
               (Some (x ++ "&end_time=" ++ e)%string) page page_size)
            (cache (fst (get_activities md5_hexdigest st day
                           (Some (s ++ "&end_time=" ++ x)%string) (Some e)
                           page page_size))) = Some (body reply1) /\
          headers reply1 = cache_headers
            (generate_cache_key md5_hexdigest day (Some s)
               (Some (x ++ "&end_time=" ++ e)%string) page page_size)).
  { rewrite <- cache_key_overlap. revert Hfirst. unfold get_activities.
    destruct (dict_get _ (cache st)) as [cached|] eqn:Hc.
    - cbn [fst snd]. intros [= <-]. cbn [body headers]. auto.
    - destruct (compute_activities st day _ _ page page_size) as [result|err];
        cbn [fst snd]; [|discriminate].
      intros [= <-]. cbn [set_cache cache body headers].
      rewrite dict_get_set_same. auto. }
  destruct Hhit as [Hhit Hh].
  rewrite (get_activities_hit _ _ _ _ _ _ _ _ Hhit).
  rewrite <- Hh. now destruct reply1.
Qed.

Lemma cache_serves_other_query_witness :
  snd (get_activities plain st0 None (Some "10:00&end_time=x") (Some "99:99") 1 8) =
    Ok {| body :=
            match compute_activities st0 None (Some "10:00&end_time=x")
                    (Some "99:99") 1 8 with
            | Ok r => r
            | Raise _ => Flat []
            end;
          headers :=
            cache_headers
              (generate_cache_key plain None (Some "10:00&end_time=x")
                 (Some "99:99") 1 8) |} /\
  snd (get_activities plain
         (fst (get_activities plain st0 None (Some "10:00&end_time=x")
                 (Some "99:99") 1 8))
         None (Some "10:00") (Some "x&end_time=99:99") 1 8) =
    Ok {| body :=
            match compute_activities st0 None (Some "10:00&end_time=x")
                    (Some "99:99") 1 8 with
            | Ok r => r
            | Raise _ => Flat []
            end;
          headers :=
            cache_headers
              (generate_cache_key plain None (Some "10:00&end_time=x")
                 (Some "99:99") 1 8) |}.
Proof.
  split; [reflexivity|].
  exact (f_equal snd
           (cache_serves_other_query plain st0 None "10:00" "x" "99:99" 1 8 _ eq_refl)).
Defined.

(** ** Pages *)

Lemma py_slice_length {A : Type} (l : list A) start stop :
  (0 <= start)%Z -> (0 <= stop)%Z ->
  Z.of_nat (List.length (py_slice l start stop)) =
  Z.max 0 (Z.min stop (Z.of_nat (List.length l)) -
           Z.min start (Z.of_nat (List.length l))).
Proof.
  intros Ha Hb. unfold py_slice, clamp_index.
  assert (Ea : (start <? 0)%Z = false) by (apply Z.ltb_ge; lia).
  assert (Eb : (stop <? 0)%Z = false) by (apply Z.ltb_ge; lia).
  rewrite Ea, Eb, length_firstn, length_skipn. lia.
Qed.

Lemma nonempty_length {A : Type} (l : list A) :
  l <> [] <-> (0 < Z.of_nat (List.length l))%Z.
Proof.
  destruct l; simpl; split; intros H; try lia; try congruence.
Qed.

Lemma next_page_bound total size page :
  (0 < size)%Z -> (page * size < total <-> page < (total + size - 1) / size)%Z.
Proof.
  intros Hs.
  pose proof (Z.mul_div_le (total + size - 1) size Hs).
  pose proof (Z.mul_succ_div_gt (total + size - 1) size Hs).
  split; intros H1; nia.
Qed.

(** X14: a page past the last one is no error.  With a positive page
    size and a page number above [total_pages], the answer holds no
    activity: the bare empty mapping when the page is 1 (there is then
    nothing to list at all), and otherwise the envelope of an empty mapping
    with [has_next] false and [has_previous] true. *)
Theorem paginate_past_the_end all_activities page page_size :
  (0 < page_size)%Z -> (1 <= page)%Z ->
  let total := Z.of_nat (List.length all_activities) in
  ((total + page_size - 1) / page_size < page)%Z ->
  paginate all_activities page page_size =
    Ok (if (page =? 1)%Z then Flat []
        else Envelope []
               {| page := page; page_size := page_size; total_count := total;
                  total_pages := ((total + page_size - 1) / page_size)%Z;
                  has_next := false; has_previous := true |}).
Proof.
  intros Hs Hp total Hlast.
  pose proof (ceil_pages_bounds total page_size Hs) as [_ Hup].
  assert (Hstart : (total <= (page - 1) * page_size)%Z) by nia.
  assert (Hslice : py_slice all_activities ((page - 1) * page_size)
                     ((page - 1) * page_size + page_size) = []).
  { apply length_zero_iff_nil. apply Nat2Z.inj.
    rewrite py_slice_length by nia. fold total. lia. }
  unfold paginate. rewrite Hslice. cbn [to_mapping ebind].
  unfold ceil_pages.
  assert (Hz : (page_size =? 0)%Z = false) by (apply Z.eqb_neq; lia).
  rewrite Hz. cbn [ebind]. fold total.
  destruct (page =? 1)%Z eqn:E1.
  - apply Z.eqb_eq in E1. subst page.
    assert (Hge : (page_size >=? total)%Z = true) by (apply Z.geb_le; lia).
    now rewrite Hge.
  - cbn [andb].
    assert (Hn : ((page - 1) * page_size + page_size <? total)%Z = false)
      by (apply Z.ltb_ge; lia).
    assert (Hprev : (page >? 1)%Z = true).
    { apply Z.eqb_neq in E1. apply Z.gtb_lt. lia. }
    now rewrite Hn, Hprev.
Qed.

Lemma paginate_past_the_end_witness :
  ((0 < 5)%Z /\ (1 <= 4)%Z /\
   ((Z.of_nat (List.length (found_or_empty (find [] Seed.initial_activities []))) + 5 - 1)
      / 5 < 4)%Z) /\
  paginate
    (match pop_ids (found_or_empty (find [] Seed.initial_activities [])) with
     | Ok all_activities => all_activities
     | Raise _ => []
     end) 4 5 =
    Ok (Envelope []
          {| page := 4; page_size := 5; total_count := 12; total_pages := 3;
             has_next := false; has_previous := true |}).
Proof.
  split; [split; [reflexivity|split; [discriminate|reflexivity]]|].
  exact (paginate_past_the_end
           (match pop_ids (found_or_empty (find [] Seed.initial_activities [])) with
            | Ok all_activities => all_activities
            | Raise _ => []
            end)
           4 5 eq_refl ltac:(discriminate) eq_refl).
Defined.

(** X15: in an envelope the page data fits the list.  With a positive
    page size and a page number from 1, [total_count] is the length of the
    result, [has_next] says that the page is before [total_pages], which is
    the case exactly when the next page has an activity to show, and the
    page itself shows [page_size] activities or what is left of the
    list. *)
Theorem paginate_envelope_fits all_activities page page_size m meta :
  (0 < page_size)%Z -> (1 <= page)%Z ->
  paginate all_activities page page_size = Ok (Envelope m meta) ->
  let total := Z.of_nat (List.length all_activities) in
  let start_idx := ((page - 1) * page_size)%Z in
  total_count meta = total /\
  (has_next meta = true <-> (page < total_pages meta)%Z) /\
  (has_next meta = true <->
   py_slice all_activities (page * page_size) (page * page_size + page_size) <> []) /\
  Z.of_nat (List.length (py_slice all_activities start_idx (start_idx + page_size))) =
    Z.max 0 (Z.min page_size (total - start_idx)).
Proof.
  intros Hs Hp Hpag total start_idx.
  assert (Hmeta : meta =
    {| page := page; page_size := page_size; total_count := total;
       total_pages := ((total + page_size - 1) / page_size)%Z;
       has_next := (start_idx + page_size <? total)%Z;
       has_previous := (page >? 1)%Z |}).
  { unfold paginate in Hpag. fold start_idx total in Hpag.
    destruct (to_mapping _ []) as [m'|e]; [|discriminate].
    unfold ceil_pages in Hpag.
    destruct (page_size =? 0)%Z; [discriminate|].
    cbn [ebind] in Hpag.
    destruct ((page =? 1)%Z && (page_size >=? total)%Z); [discriminate|].
    now injection Hpag as _ <-. }
  subst meta. cbn [total_count has_next total_pages].
  assert (Hend : (start_idx + page_size = page * page_size)%Z)
    by (unfold start_idx; lia).
  split; [reflexivity|]. split; [|split].
  - rewrite Z.ltb_lt, Hend. now apply next_page_bound.
  - rewrite Z.ltb_lt, Hend, nonempty_length, py_slice_length by nia.
    fold total. lia.
  - rewrite py_slice_length by (unfold start_idx; nia). fold total. lia.
Qed.

Lemma paginate_envelope_fits_witness :
  ((0 < 5)%Z /\ (1 <= 2)%Z) /\
  exists m meta,
    paginate
      (match pop_ids (found_or_empty (find [] Seed.initial_activities [])) with
       | Ok all_activities => all_activities
       | Raise _ => []
       end) 2 5 = Ok (Envelope m meta) /\
    total_count meta = 12%Z /\
    (has_next meta = true <-> (2 < total_pages meta)%Z).
Proof.
  split; [split; [reflexivity|discriminate]|].
  eexists. eexists. split; [reflexivity|].
  destruct (paginate_envelope_fits
              (match pop_ids (found_or_empty (find [] Seed.initial_activities [])) with
            | Ok all_activities => all_activities
            | Raise _ => []
            end)
              2 5 _ _ eq_refl ltac:(discriminate) eq_refl)
    as (Hc & Hn & _).
  split; [exact Hc|exact Hn].
Defined.

(** ** The mutation handlers *)

Lemma update_one_push_failure idx data query field v data' r :
  update_one idx data query [("$push", VDict [(field, v)])] = (data', r) ->
  r <> Ok 1%Z -> data' = data.
Proof.
  unfold update_one.
  destruct (find_one idx data query) as [[[|p doc]|]|e];
    try (intros [= <- _]; reflexivity).
  destruct (dict_get "_id" (p :: doc)) as [doc_id|]; [|now intros [= <- _]].
  change (apply_section "$push" push_field doc_id [("$push", VDict [(field, v)])] data)
    with (apply_fields push_field doc_id [(field, v)] data).
  cbn [apply_fields].
  destruct (push_field doc_id field v data) as [data1|e]; [|now intros [= <- _]].
  change (apply_section "$pull" pull_field doc_id [("$push", VDict [(field, v)])] data1)
    with (data1, @Ok unit tt).
  intros [= _ <-] Hr. now destruct Hr.
Qed.

Lemma update_one_pull_failure idx data query field v data' r :
  update_one idx data query [("$pull", VDict [(field, v)])] = (data', r) ->
  r <> Ok 1%Z -> data' = data.
Proof.
  unfold update_one.
  destruct (find_one idx data query) as [[[|p doc]|]|e];
    try (intros [= <- _]; reflexivity).
  destruct (dict_get "_id" (p :: doc)) as [doc_id|]; [|now intros [= <- _]].
  change (apply_section "$push" push_field doc_id [("$pull", VDict [(field, v)])] data)
    with (data, @Ok unit tt).
  cbv beta iota.
  change (apply_section "$pull" pull_field doc_id [("$pull", VDict [(field, v)])] data)
    with (apply_fields pull_field doc_id [(field, v)] data).
  cbn [apply_fields].
  destruct (pull_field doc_id field v data) as [data1|e]; [|now intros [= <- _]].
  intros [= _ <-] Hr. now destruct Hr.
Qed.

Lemma apply_update_rejected st a update message e :
  (forall data' r,
     update_one (day_index st) (activities_data st) [("_id", VStr a)] update = (data', r) ->
     r <> Ok 1%Z -> data' = activities_data st) ->
  snd (apply_update st a update message) = Raise e ->
  fst (apply_update st a update message) = st.
Proof.
  intros Hfail. unfold apply_update.
  destruct (update_one (day_index st) (activities_data st) [("_id", VStr a)] update)
    as [data [n|e']] eqn:Hu.
  - destruct (n =? 0)%Z eqn:E; cbn [fst snd]; [|discriminate].
    intros _. apply Z.eqb_eq in E. subst n.
    rewrite (Hfail _ _ eq_refl) by discriminate. apply set_activities_same.
  - cbn [fst snd]. intros _.
    rewrite (Hfail _ _ eq_refl) by discriminate. apply set_activities_same.
Qed.

(** X16: a request that is answered with an error, an HTTP error or an
    exception of the collection, leaves the whole state as it was, whatever
    the state. *)
Theorem rejected_request_changes_nothing st r e :
  snd (handle st r) = Raise e -> fst (handle st r) = st.
Proof.
  destruct r as [a email t|a email t]; cbn [handle];
    [unfold signup_for_activity|unfold unregister_from_activity];
    destruct (check_teacher st t); try reflexivity;
    destruct (get_activity st a) as [activity|]; try reflexivity;
    destruct (is_participant email activity) as [[|]|]; try reflexivity;
    apply apply_update_rejected; intros data' r0.
  - apply update_one_push_failure.
  - apply update_one_pull_failure.
Qed.

Lemma rejected_request_changes_nothing_witness :
  snd (handle st0 (Signup "Chess Club" "michael@mergington.edu" (Some "mchen"))) =
    Raise (HTTPException 400 "Already signed up for this activity") /\
  fst (handle st0 (Signup "Chess Club" "michael@mergington.edu" (Some "mchen"))) = st0.
Proof.
  split; [reflexivity|].
  exact (rejected_request_changes_nothing st0
           (Signup "Chess Club" "michael@mergington.edu" (Some "mchen")) _ eq_refl).
Defined.

Lemma apply_update_frame st a update message :
  teachers_data (fst (apply_update st a update message)) = teachers_data st /\
  day_index (fst (apply_update st a update message)) = day_index st /\
  map fst (activities_data (fst (apply_update st a update message))) =
    map fst (activities_data st).
Proof.
  unfold apply_update.
  pose proof (update_one_local (day_index st) (activities_data st)
                [("_id", VStr a)] update) as [Hk _].
  destruct (update_one (day_index st) (activities_data st) [("_id", VStr a)] update)
    as [data [n|e]]; cbn [fst] in Hk.
  - destruct (n =? 0)%Z; cbn; auto.
  - cbn. auto.
Qed.

(** X17: whatever the state and the answer, a signup or unregister request
    leaves the teachers and the day index as they were and neither adds nor
    removes nor reorders an activity. *)
Theorem handlers_keep_the_catalog st r :
  teachers_data (fst (handle st r)) = teachers_data st /\
  day_index (fst (handle st r)) = day_index st /\
  map fst (activities_data (fst (handle st r))) = map fst (activities_data st).
Proof.
  destruct r as [a email t|a email t]; cbn [handle];
    [unfold signup_for_activity|unfold unregister_from_activity];
    destruct (check_teacher st t); auto;
    destruct (get_activity st a) as [activity|]; auto;
    destruct (is_participant email activity) as [[|]|]; auto;
    apply apply_update_frame.
Qed.

Lemma signup_success st a email t st1 msg :
  wf_store (activities_data st) = true ->
  has_participant_lists (activities_data st) = true ->
  signup_for_activity st a email t = (st1, Ok msg) ->
  exists u teacher d,
    given t = Some u /\ store_get u (teachers_data st) = Some teacher /\
    store_get a (activities_data st) = Some d /\
    list_contains (VStr email) (participants d) = false /\
    st1 = committed st a d (participants d ++ [VStr email]).
Proof.
  intros Hwf Hlists.
  destruct (handlers_refine_spec st a email t Hwf Hlists) as [-> _].
  unfold signup_spec.
  destruct (given t) as [u|]; [|discriminate].
  destruct (store_get u (teachers_data st)) as [teacher|] eqn:Ht; [|discriminate].
  destruct (store_get a (activities_data st)) as [d|] eqn:Hg; [|discriminate].
  destruct (list_contains (VStr email) (participants d)) eqn:Hin; [discriminate|].
  intros [= <- _]. exists u, teacher, d. auto.
Qed.

Lemma unregister_success st a email t st1 msg :
  wf_store (activities_data st) = true ->
  has_participant_lists (activities_data st) = true ->
  unregister_from_activity st a email t = (st1, Ok msg) ->
  exists u teacher d,
    given t = Some u /\ store_get u (teachers_data st) = Some teacher /\
    store_get a (activities_data st) = Some d /\
    list_contains (VStr email) (participants d) = true /\
    st1 = committed st a d (without (VStr email) (participants d)).
Proof.
  intros Hwf Hlists.
  destruct (handlers_refine_spec st a email t Hwf Hlists) as [_ ->].
  unfold unregister_spec.
  destruct (given t) as [u|]; [|discriminate].
  destruct (store_get u (teachers_data st)) as [teacher|] eqn:Ht; [|discriminate].
  destruct (store_get a (activities_data st)) as [d|] eqn:Hg; [|discriminate].
  destruct (list_contains (VStr email) (participants d)) eqn:Hin; [|discriminate].
  intros [= <- _]. exists u, teacher, d. auto.
Qed.

Lemma committed_store st a d ps :
  store_get a (activities_data st) = Some d ->
  wf_store (activities_data st) = true ->
  has_participant_lists (activities_data st) = true ->
  wf_store (activities_data (committed st a d ps)) = true /\
  has_participant_lists (activities_data (committed st a d ps)) = true /\
  store_get a (activities_data (committed st a d ps)) =
    Some (dict_set "participants" (VList ps) d) /\
  teachers_data (committed st a d ps) = teachers_data st.
Proof.
  intros Hg Hwf Hlists. cbn [committed activities_data teachers_data].
  split; [|split; [|split; [apply store_set_get_same|reflexivity]]].
  - apply wf_store_set; [|assumption].
    apply wf_doc_set; [apply participants_not_id|].
    eapply wf_store_get; eassumption.
  - now apply has_participant_lists_set.
Qed.

Lemma without_snoc_absent s l :
  list_contains (VStr s) l = false -> without (VStr s) (l ++ [VStr s]) = l.
Proof.
  intros H. unfold without. rewrite filter_app. cbn [filter py_eq].
  rewrite String.eqb_refl. cbn [negb]. rewrite app_nil_r.
  now apply without_absent.
Qed.

(** X18: unregistering undoes a signup.  On a well-formed store whose
    activities all have a participants list, after a signup that succeeded
    the unregister request for the same activity, email and teacher
    succeeds, and the activities are exactly what they were before the
    signup; the cache is empty. *)
Theorem unregister_undoes_signup st a email t st1 msg :
  wf_store (activities_data st) = true ->
  has_participant_lists (activities_data st) = true ->
  signup_for_activity st a email t = (st1, Ok msg) ->
  unregister_from_activity st1 a email t =
    (set_cache st [], Ok (message_unregistered email a)).
Proof.
  intros Hwf Hlists Hs.
  destruct (signup_success _ _ _ _ _ _ Hwf Hlists Hs)
    as (u & teacher & d & Ht & Hteacher & Hg & Hin & ->).
  destruct (committed_store st a d (participants d ++ [VStr email]) Hg Hwf Hlists)
    as (Hwf1 & Hlists1 & Hg1 & Ht1).
  destruct (handlers_refine_spec _ a email t Hwf1 Hlists1) as [_ ->].
  unfold unregister_spec. rewrite Ht, Ht1, Hteacher, Hg1.
  rewrite participants_set, list_contains_app.
  unfold list_contains at 2. cbn [existsb py_eq]. rewrite String.eqb_refl.
  rewrite orb_true_r. rewrite (without_snoc_absent _ _ Hin).
  unfold committed, set_cache, message_unregistered.
  cbn [activities_data teachers_data day_index].
  rewrite !dict_set_twice.
  rewrite (dict_set_same_value "participants" (VList (participants d)) d)
    by exact (has_participant_lists_get _ _ _ Hlists Hg).
  do 2 f_equal. apply dict_set_same_value. exact Hg.
Qed.

Lemma unregister_undoes_signup_witness :
  (wf_store (activities_data st0) = true /\
   has_participant_lists (activities_data st0) = true /\
   signup_for_activity st0 "Chess Club" "new@x.edu" (Some "mchen") =
     (fst (signup_for_activity st0 "Chess Club" "new@x.edu" (Some "mchen")),
      Ok "Signed up new@x.edu for Chess Club")) /\
  unregister_from_activity
    (fst (signup_for_activity st0 "Chess Club" "new@x.edu" (Some "mchen")))
    "Chess Club" "new@x.edu" (Some "mchen") =
    (set_cache st0 [], Ok "Unregistered new@x.edu from Chess Club").
Proof.
  split; [repeat split; reflexivity|].
  exact (unregister_undoes_signup st0 "Chess Club" "new@x.edu" (Some "mchen") _ _
           eq_refl eq_refl eq_refl).
Defined.

(** X19: a request that succeeded cannot be repeated.  On a well-formed
    store whose activities all have a participants list, the same signup
    right after a successful one is answered 400 "Already signed up", the
    same unregister right after a successful one 400 "Not registered", and
    neither changes the state. *)
Theorem repeated_request_is_rejected st a email t st1 msg :
  wf_store (activities_data st) = true ->
  has_participant_lists (activities_data st) = true ->
  (signup_for_activity st a email t = (st1, Ok msg) ->
   signup_for_activity st1 a email t =
     (st1, Raise (HTTPException 400 "Already signed up for this activity"))) /\
  (unregister_from_activity st a email t = (st1, Ok msg) ->
   unregister_from_activity st1 a email t =
     (st1, Raise (HTTPException 400 "Not registered for this activity"))).
Proof.
  intros Hwf Hlists. split; intros Hs.
  - destruct (signup_success _ _ _ _ _ _ Hwf Hlists Hs)
      as (u & teacher & d & Ht & Hteacher & Hg & Hin & ->).
    destruct (committed_store st a d (participants d ++ [VStr email]) Hg Hwf Hlists)
      as (Hwf1 & Hlists1 & Hg1 & Ht1).
    destruct (handlers_refine_spec _ a email t Hwf1 Hlists1) as [-> _].
    unfold signup_spec. rewrite Ht, Ht1, Hteacher, Hg1.
    rewrite participants_set, list_contains_app.
    unfold list_contains at 2. cbn [existsb py_eq]. rewrite String.eqb_refl.
    now rewrite orb_true_r.
  - destruct (unregister_success _ _ _ _ _ _ Hwf Hlists Hs)
      as (u & teacher & d & Ht & Hteacher & Hg & Hin & ->).
    destruct (committed_store st a d (without (VStr email) (participants d))
                Hg Hwf Hlists) as (Hwf1 & Hlists1 & Hg1 & Ht1).
    destruct (handlers_refine_spec _ a email t Hwf1 Hlists1) as [_ ->].
    unfold unregister_spec. rewrite Ht, Ht1, Hteacher, Hg1.
    now rewrite participants_set, list_contains_without.
Qed.

Lemma repeated_request_is_rejected_witness :
  (wf_store (activities_data st0) = true /\
   has_participant_lists (activities_data st0) = true /\
   unregister_from_activity st0 "Chess Club" "michael@mergington.edu" (Some "mchen") =
     (fst (unregister_from_activity st0 "Chess Club" "michael@mergington.edu"
             (Some "mchen")),
      Ok "Unregistered michael@mergington.edu from Chess Club")) /\
  snd (unregister_from_activity
         (fst (unregister_from_activity st0 "Chess Club" "michael@mergington.edu"
                 (Some "mchen")))
         "Chess Club" "michael@mergington.edu" (Some "mchen")) =
    Raise (HTTPException 400 "Not registered for this activity").
Proof.
  split; [repeat split; reflexivity|].
  exact (f_equal snd
           (proj2 (repeated_request_is_rejected st0 "Chess Club"
                     "michael@mergington.edu" (Some "mchen") _ _ eq_refl eq_refl)
              eq_refl)).
Defined.

(** * The days of the collection *)

(** ** Python's order on hashable values *)

Lemma string_ltb_trans a b c :
  String.ltb a b = true -> String.ltb b c = true -> String.ltb a c = true.
Proof.
  unfold String.ltb. intros Hab Hbc.
  assert (Ha : OrdersEx.String_as_OT.lt a b).
  { unfold OrdersEx.String_as_OT.lt.
    change (OrdersEx.String_as_OT.compare a b) with (String.compare a b).
    now destruct (String.compare a b). }
  assert (Hb : OrdersEx.String_as_OT.lt b c).
  { unfold OrdersEx.String_as_OT.lt.
    change (OrdersEx.String_as_OT.compare b c) with (String.compare b c).
    now destruct (String.compare b c). }
  pose proof (@RelationClasses.StrictOrder_Transitive _ _
                OrdersEx.String_as_OT.lt_strorder a b c Ha Hb) as Hac.
  unfold OrdersEx.String_as_OT.lt in Hac.
  change (OrdersEx.String_as_OT.compare a c) with (String.compare a c) in Hac.
  now rewrite Hac.
Qed.

Lemma string_ltb_connex a b :
  String.ltb a b = false -> a <> b -> String.ltb b a = true.
Proof.
  unfold String.ltb. intros Hab Hne. rewrite String.compare_antisym.
  destruct (String.compare a b) eqn:E; try discriminate; [|reflexivity].
  apply String.compare_eq_iff in E. contradiction.
Qed.

Lemma py_less_trans a b c :
  hashable a = true -> py_less a b -> py_less b c -> py_less a c.
Proof.
  unfold py_less.
  destruct a as [x|x|x|x], b as [y|y|y|y]; try discriminate;
    destruct c as [z|z|z|z]; try discriminate; cbn [py_lt];
    intros _ [= Hab] [= Hbc]; f_equal.
  - apply Z.ltb_lt in Hab, Hbc. apply Z.ltb_lt. lia.
  - eapply string_ltb_trans; eassumption.
Qed.

Lemma py_lt_connex a b :
  hashable a = true -> py_lt a b = Ok false -> a <> b -> py_less b a.
Proof.
  unfold py_less.
  destruct a as [x|x|x|x], b as [y|y|y|y]; try discriminate; cbn [py_lt];
    intros _ [= Hab] Hne; f_equal.
  - apply Z.ltb_ge in Hab. apply Z.ltb_lt.
    assert (x <> y) by congruence. lia.
  - apply string_ltb_connex; congruence.
Qed.

(** ** [sorted] *)

Lemma insert_sorted_In x l r :
  insert_sorted x l = Ok r -> forall y, In y r <-> y = x \/ In y l.
Proof.
  revert r; induction l as [|z l IH]; intros r; cbn [insert_sorted].
  - intros [= <-] y. simpl. intuition congruence.
  - destruct (py_lt x z) as [[|]|e]; cbn [ebind]; [| |discriminate].
    + intros [= <-] y. simpl. intuition congruence.
    + destruct (insert_sorted x l) as [r'|e]; cbn [ebind]; [|discriminate].
      intros [= <-] y. specialize (IH r' eq_refl y). simpl. intuition congruence.
Qed.

Lemma py_sorted_In l r : py_sorted l = Ok r -> forall y, In y r <-> In y l.
Proof.
  revert r; induction l as [|x l IH]; intros r; cbn [py_sorted].
  - intros [= <-] y. tauto.
  - destruct (py_sorted l) as [s|e]; cbn [ebind]; [|discriminate].
    intros Hins y. rewrite (insert_sorted_In _ _ _ Hins y), (IH s eq_refl y).
    simpl. intuition congruence.
Qed.

Lemma insert_sorted_sorted x l r :
  hashable x = true -> ~ In x l ->
  StronglySorted py_less l -> insert_sorted x l = Ok r ->
  StronglySorted py_less r.
Proof.
  intros Hx. revert r; induction l as [|z l IH]; intros r Hnot Hs; cbn [insert_sorted].
  - intros [= <-]. repeat constructor.
  - apply StronglySorted_inv in Hs as [Hs Hz].
    destruct (py_lt x z) as [[|]|e] eqn:Hlt; cbn [ebind]; [| |discriminate].
    + intros [= <-]. constructor; [now constructor|].
      constructor; [exact Hlt|].
      eapply Forall_impl; [|exact Hz]. intros w Hw.
      eapply py_less_trans; eassumption.
    + destruct (insert_sorted x l) as [r'|e] eqn:Hins; cbn [ebind]; [|discriminate].
      intros [= <-].
      assert (Hzx : py_less z x).
      { apply py_lt_connex; [assumption|assumption|].
        intros ->. apply Hnot. now left. }
      constructor.
      * apply IH; [|assumption|reflexivity]. intros Hin. apply Hnot. now right.
      * apply Forall_forall. intros w Hw.
        apply (insert_sorted_In _ _ _ Hins) in Hw as [->|Hw]; [assumption|].
        rewrite Forall_forall in Hz. auto.
Qed.

Lemma py_sorted_sorted l r :
  Forall (fun x => hashable x = true) l -> NoDup l ->
  py_sorted l = Ok r -> StronglySorted py_less r.
Proof.
  revert r; induction l as [|x l IH]; intros r Hh Hnd; cbn [py_sorted].
  - intros [= <-]. constructor.
  - inversion Hh as [|? ? Hx Hl]; subst. inversion Hnd as [|? ? Hnot Hnd']; subst.
    destruct (py_sorted l) as [s|e] eqn:Hs; cbn [ebind]; [|discriminate].
    intros Hins. apply (insert_sorted_sorted x s r Hx); [| |exact Hins].
    + intros Hin. apply Hnot. now apply (py_sorted_In _ _ Hs).
    + now apply IH.
Qed.

(** Sorting what is sorted changes nothing. *)
Lemma py_sorted_fixpoint l : StronglySorted py_less l -> py_sorted l = Ok l.
Proof.
  induction 1 as [|x l Hs IH Hx]; [reflexivity|].
  cbn [py_sorted]. rewrite IH. cbn [ebind].
  destruct l as [|y l]; [reflexivity|].
  cbn [insert_sorted]. inversion Hx as [|? ? Hxy _]; subst.
  unfold py_less in Hxy. now rewrite Hxy.
Qed.

(** ** [aggregate] and [get_available_days] *)

Lemma list_contains_In day s :
  hashable day = true -> (list_contains day s = true <-> In day s).
Proof.
  intros Hd. unfold list_contains. rewrite existsb_exists. split.
  - intros (x & Hin & Heq). now rewrite <- (py_eq_hashable_r _ _ Hd Heq).
  - intros Hin. exists day. split; [assumption|now apply py_eq_refl_hashable].
Qed.

Lemma set_add_spec day s s' :
  is_set s -> set_add day s = Ok s' ->
  is_set s' /\ forall y, In y s' <-> In y s \/ y = day.
Proof.
  intros [Hh Hnd]. unfold set_add.
  destruct (hashable day) eqn:Hd; [|discriminate].
  destruct (list_contains day s) eqn:Hc; intros [= <-].
  - split; [now split|]. apply (list_contains_In _ _ Hd) in Hc.
    intros y. split; [auto|]. intros [H| ->]; assumption.
  - assert (Hnot : ~ In day s).
    { intros Hin. apply (list_contains_In _ _ Hd) in Hin. congruence. }
    split.
    + split.
      * apply Forall_app. split; [assumption|]. now repeat constructor.
      * apply NoDup_app; [assumption|repeat constructor; intros []|].
        intros y Hy [<-|[]]. contradiction.
    + intros y. rewrite in_app_iff. simpl. intuition congruence.
Qed.

Lemma set_add_all_spec ds :
  forall s s',
    is_set s -> set_add_all ds s = Ok s' ->
    is_set s' /\ forall y, In y s' <-> In y s \/ In y ds.
Proof.
  induction ds as [|day ds IH]; intros s s' Hs; cbn [set_add_all].
  - intros [= <-]. split; [assumption|]. intros y. simpl. tauto.
  - destruct (set_add day s) as [s1|e] eqn:Ha; cbn [ebind]; [|discriminate].
    intros Hrest. destruct (set_add_spec _ _ _ Hs Ha) as [Hs1 H1].
    destruct (IH _ _ Hs1 Hrest) as [Hs' H']. split; [assumption|].
    intros y. rewrite H', H1. simpl. intuition congruence.
Qed.

Lemma collect_days_spec data :
  forall s s',
    is_set s -> collect_days data s = Ok s' ->
    is_set s' /\
    forall y, In y s' <->
      In y s \/
      exists name activity ds,
        In (name, activity) data /\ days_of activity = Ok ds /\ In y ds.
Proof.
  induction data as [|[name0 activity0] data IH]; intros s s' Hs; cbn [collect_days].
  - intros [= <-]. split; [assumption|]. intros y. split; [auto|].
    intros [H|(n & a & ds & [] & _)]. exact H.
  - destruct (schedule_days activity0) as [days0|e] eqn:Hsd; cbn [ebind]; [|discriminate].
    destruct (py_iter days0) as [ds0|e] eqn:Hi; cbn [ebind]; [|discriminate].
    destruct (set_add_all ds0 s) as [s1|e] eqn:Ha; cbn [ebind]; [|discriminate].
    intros Hrest.
    assert (Hdays : days_of activity0 = Ok ds0)
      by (unfold days_of; rewrite Hsd; exact Hi).
    destruct (set_add_all_spec _ _ _ Hs Ha) as [Hs1 H1].
    destruct (IH _ _ Hs1 Hrest) as [Hs' H']. split; [assumption|].
    intros y. rewrite H', H1. split.
    + intros [[Hin|Hin]|(n & a & ds & Hin & Hd & Hy)]; auto.
      * right. exists name0, activity0, ds0. simpl. auto.
      * right. exists n, a, ds. simpl. auto.
    + intros [Hin|(n & a & ds & [Heq|Hin] & Hd & Hy)]; auto.
      * injection Heq as -> ->. rewrite Hdays in Hd. injection Hd as <-. auto.
      * right. exists n, a, ds. auto.
Qed.

Lemma day_ids_of_days l : day_ids (map (fun day => [("_id", day)]) l) = Ok l.
Proof.
  induction l as [|x l IH]; [reflexivity|].
  cbn [map day_ids]. change (dict_get "_id" [("_id", x)]) with (Some x).
  now rewrite IH.
Qed.

Lemma get_available_days_sorted st days :
  get_available_days st = Ok days ->
  exists unique_days,
    collect_days (activities_data st) [] = Ok unique_days /\
    py_sorted unique_days = Ok days /\
    StronglySorted py_less days.
Proof.
  unfold get_available_days, aggregate.
  destruct (collect_days (activities_data st) []) as [s|e] eqn:Hc; cbn [ebind];
    [|discriminate].
  destruct (py_sorted s) as [sorted_days|e] eqn:Hs; cbn [ebind]; [|discriminate].
  rewrite day_ids_of_days. cbn [ebind].
  assert (Hset : is_set s).
  { apply (collect_days_spec (activities_data st) [] s); [split; constructor|assumption]. }
  destruct Hset as [Hh Hnd].
  pose proof (py_sorted_sorted _ _ Hh Hnd Hs) as Hsorted.
  rewrite (py_sorted_fixpoint _ Hsorted). intros [= <-].
  exists s. auto.
Qed.

(** X20: what [get_available_days] returns is in strictly ascending order
    (Python's [<], so no day twice) and holds exactly the days that some
    activity of the store has among its days. *)
Theorem available_days_exact st days :
  get_available_days st = Ok days ->
  StronglySorted py_less days /\
  forall day,
    In day days <->
    exists name activity ds,
      In (name, activity) (activities_data st) /\
      days_of activity = Ok ds /\ In day ds.
Proof.
  intros Hg.
  destruct (get_available_days_sorted _ _ Hg) as (s & Hc & Hs & Hsorted).
  split; [assumption|]. intros day.
  rewrite (py_sorted_In _ _ Hs day).
  destruct (collect_days_spec (activities_data st) [] s
              (conj (Forall_nil _) (NoDup_nil _)) Hc) as [_ Hin].
  rewrite Hin. simpl. tauto.
Qed.

Lemma available_days_exact_witness :
  get_available_days st0 =
    Ok (map VStr ["Friday"; "Monday"; "Saturday"; "Sunday"; "Thursday"; "Tuesday";
                  "Wednesday"]) /\
  StronglySorted py_less
    (map VStr ["Friday"; "Monday"; "Saturday"; "Sunday"; "Thursday"; "Tuesday";
               "Wednesday"]).
Proof.
  split; [reflexivity|].
  exact (proj1 (available_days_exact st0 _ eq_refl)).
Defined.

Lemma set_add_all_strings ds :
  forall s,
    forallb is_str ds = true -> forallb is_str s = true ->
    exists s', set_add_all ds s = Ok s' /\ forallb is_str s' = true.
Proof.
  induction ds as [|day ds IH]; intros s Hds Hs; cbn [set_add_all].
  - eauto.
  - cbn [forallb] in Hds. apply andb_prop in Hds as [Hd Hds].
    destruct day as [z|d|l|dd]; try discriminate.
    unfold set_add. cbn [hashable ebind]. apply IH; [assumption|].
    destruct (list_contains (VStr d) s); [assumption|].
    rewrite forallb_app, Hs. reflexivity.
Qed.

Lemma collect_days_strings data :
  forall s,
    string_days data = true -> forallb is_str s = true ->
    exists s', collect_days data s = Ok s' /\ forallb is_str s' = true.
Proof.
  induction data as [|[name activity] data IH]; intros s Hdata Hs; cbn [collect_days].
  - eauto.
  - unfold string_days in Hdata. cbn [forallb snd] in Hdata.
    apply andb_prop in Hdata as [Ha Hdata].
    destruct (schedule_days activity) as [[z|d|days|dd]|e]; try discriminate.
    cbn [ebind py_iter].
    destruct (set_add_all_strings days s Ha Hs) as (s1 & -> & Hs1). cbn [ebind].
    now apply IH.
Qed.

Lemma insert_sorted_strings x l :
  forallb is_str l = true ->
  exists r, insert_sorted (VStr x) l = Ok r /\ forallb is_str r = true.
Proof.
  induction l as [|y l IH]; intros Hl; cbn [insert_sorted].
  - eauto.
  - cbn [forallb] in Hl. apply andb_prop in Hl as [Hy Hl].
    destruct y as [z|y|z|z]; try discriminate. cbn [py_lt ebind].
    destruct (String.ltb x y).
    + eexists. split; [reflexivity|]. cbn [forallb is_str]. now rewrite Hl.
    + destruct (IH Hl) as (r & -> & Hr). cbn [ebind].
      eexists. split; [reflexivity|]. cbn [forallb is_str]. exact Hr.
Qed.

Lemma py_sorted_strings l :
  forallb is_str l = true ->
  exists r, py_sorted l = Ok r /\ forallb is_str r = true.
Proof.
  induction l as [|x l IH]; intros Hl; cbn [py_sorted].
  - eauto.
  - cbn [forallb] in Hl. apply andb_prop in Hl as [Hx Hl].
    destruct (IH Hl) as (s & -> & Hs). cbn [ebind].
    destruct x as [z|x|z|z]; try discriminate.
    now apply insert_sorted_strings.
Qed.

(** X21: when every activity has its days as a list of strings, as in the
    seed data, [get_available_days] raises nothing and returns strings. *)
Theorem available_days_of_strings st :
  string_days (activities_data st) = true ->
  exists days, get_available_days st = Ok days /\ forallb is_str days = true.
Proof.
  intros Hdata. unfold get_available_days, aggregate.
  destruct (collect_days_strings _ [] Hdata eq_refl) as (s & Hc & Hs).
  rewrite Hc. cbn [ebind].
  destruct (py_sorted_strings _ Hs) as (r & Hr & Hstr). rewrite Hr. cbn [ebind].
  rewrite day_ids_of_days. cbn [ebind].
  destruct (collect_days_spec (activities_data st) [] s
              (conj (Forall_nil _) (NoDup_nil _)) Hc) as [[Hh Hnd] _].
  rewrite (py_sorted_fixpoint _ (py_sorted_sorted _ _ Hh Hnd Hr)).
  eauto.
Qed.

Lemma available_days_of_strings_witness :
  string_days (activities_data st0) = true /\
  exists days, get_available_days st0 = Ok days /\ forallb is_str days = true.
Proof.
  split; [reflexivity|].
  exact (available_days_of_strings st0 eq_refl).
Defined.

(** ** The handlers and the days *)

Lemma build_indexes_from_schedule data :
  forall data' idx,
    schedule data = schedule data' ->
    build_indexes_from data idx = build_indexes_from data' idx.
Proof.
  induction data as [|[k d] data IH]; intros [|[k' d'] data'] idx; cbn [schedule map];
    try discriminate; [reflexivity|].
  cbn [fst snd]. intros [= -> Hd Hrest]. cbn [build_indexes_from]. rewrite Hd.
  destruct (schedule_days d') as [days|e]; cbn [ebind]; [|reflexivity].
  destruct (py_iter days) as [ds|e]; cbn [ebind]; [|reflexivity].
  destruct (index_add_days k' ds idx) as [idx1|e]; cbn [ebind]; [|reflexivity].
  now apply IH.
Qed.

Lemma collect_days_schedule data :
  forall data' s,
    schedule data = schedule data' -> collect_days data s = collect_days data' s.
Proof.
  induction data as [|[k d] data IH]; intros [|[k' d'] data'] s; cbn [schedule map];
    try discriminate; [reflexivity|].
  cbn [fst snd]. intros [= -> Hd Hrest]. cbn [collect_days]. rewrite Hd.
  destruct (schedule_days d') as [days|e]; cbn [ebind]; [|reflexivity].
  destruct (py_iter days) as [ds|e]; cbn [ebind]; [|reflexivity].
  destruct (set_add_all ds s) as [s1|e]; cbn [ebind]; [|reflexivity].
  now apply IH.
Qed.

Lemma schedule_days_set field x d :
  field <> "schedule_details" -> schedule_days (dict_set field x d) = schedule_days d.
Proof. intros Hne. unfold schedule_days. now rewrite dict_get_set_other. Qed.

Lemma schedule_store_set k d d' (data : store) :
  store_get k data = Some d -> schedule_days d' = schedule_days d ->
  schedule (dict_set k d' data) = schedule data.
Proof.
  unfold store_get, dict_get, dict_set, schedule. intros Hg Hd.
  induction data as [|[k0 d0] data IH]; cbn [assoc_get] in Hg; [discriminate|].
  cbn [assoc_set]. destruct (String.eqb k0 k); cbn [map fst snd].
  - injection Hg as ->. now rewrite Hd.
  - now rewrite IH.
Qed.

Lemma push_field_schedule doc_id field v data data' :
  field <> "schedule_details" ->
  push_field doc_id field v data = Ok data' -> schedule data' = schedule data.
Proof.
  intros Hne. unfold push_field.
  destruct (lookup_doc doc_id data) as [[k d]|e] eqn:Hl; cbn [ebind fst snd];
    [|discriminate].
  apply lookup_doc_key in Hl as [-> Hg].
  destruct (dict_get field d) as [[z|s|l|dd]|]; try discriminate;
    intros [= <-]; apply (schedule_store_set _ _ _ _ Hg);
    now apply schedule_days_set.
Qed.

Lemma pull_field_schedule doc_id field v data data' :
  field <> "schedule_details" ->
  pull_field doc_id field v data = Ok data' -> schedule data' = schedule data.
Proof.
  intros Hne. unfold pull_field.
  destruct (lookup_doc doc_id data) as [[k d]|e] eqn:Hl; cbn [ebind fst snd];
    [|discriminate].
  apply lookup_doc_key in Hl as [-> Hg].
  destruct (dict_get field d) as [[z|s|l|dd]|]; try (now intros [= <-]).
  rewrite remove_while_without. cbn [ebind]. intros [= <-].
  apply (schedule_store_set _ _ _ _ Hg). now apply schedule_days_set.
Qed.

Lemma update_one_push_schedule idx data query field v :
  field <> "schedule_details" ->
  schedule (fst (update_one idx data query [("$push", VDict [(field, v)])])) =
  schedule data.
Proof.
  intros Hne. unfold update_one.
  destruct (find_one idx data query) as [[[|p doc]|]|e]; try reflexivity.
  destruct (dict_get "_id" (p :: doc)) as [doc_id|]; [|reflexivity].
  change (apply_section "$push" push_field doc_id [("$push", VDict [(field, v)])] data)
    with (apply_fields push_field doc_id [(field, v)] data).
  cbn [apply_fields].
  destruct (push_field doc_id field v data) as [data1|e] eqn:Hp; [|reflexivity].
  change (apply_section "$pull" pull_field doc_id [("$push", VDict [(field, v)])] data1)
    with (data1, @Ok unit tt).
  cbn [fst]. eapply push_field_schedule; eassumption.
Qed.

Lemma update_one_pull_schedule idx data query field v :
  field <> "schedule_details" ->
  schedule (fst (update_one idx data query [("$pull", VDict [(field, v)])])) =
  schedule data.
Proof.
  intros Hne. unfold update_one.
  destruct (find_one idx data query) as [[[|p doc]|]|e]; try reflexivity.
  destruct (dict_get "_id" (p :: doc)) as [doc_id|]; [|reflexivity].
  change (apply_section "$push" push_field doc_id [("$pull", VDict [(field, v)])] data)
    with (data, @Ok unit tt).
  cbv beta iota.
  change (apply_section "$pull" pull_field doc_id [("$pull", VDict [(field, v)])] data)
    with (apply_fields pull_field doc_id [(field, v)] data).
  cbn [apply_fields].
  destruct (pull_field doc_id field v data) as [data1|e] eqn:Hp; [|reflexivity].
  cbn [fst]. eapply pull_field_schedule; eassumption.
Qed.

Lemma apply_update_schedule st a update message :
  schedule (fst (update_one (day_index st) (activities_data st)
                   [("_id", VStr a)] update)) = schedule (activities_data st) ->
  schedule (activities_data (fst (apply_update st a update message))) =
  schedule (activities_data st).
Proof.
  unfold apply_update.
  destruct (update_one (day_index st) (activities_data st) [("_id", VStr a)] update)
    as [data [n|e]]; cbn [fst]; [destruct (n =? 0)%Z|]; cbn; auto.
Qed.

Lemma handle_schedule st r :
  schedule (activities_data (fst (handle st r))) = schedule (activities_data st).
Proof.
  destruct r as [a email t|a email t]; cbn [handle];
    [unfold signup_for_activity|unfold unregister_from_activity];
    destruct (check_teacher st t); try reflexivity;
    destruct (get_activity st a) as [activity|]; try reflexivity;
    destruct (is_participant email activity) as [[|]|]; try reflexivity;
    apply apply_update_schedule.
  - apply update_one_push_schedule. discriminate.
  - apply update_one_pull_schedule. discriminate.
Qed.

(** X22: whatever the state, a signup or unregister request changes
    nothing of what the day index and the list of days are computed from:
    rebuilding the index after the request gives what it gave before, and
    [get_available_days] answers the same.  An index that agreed with the
    store before the request agrees with it after. *)
Theorem handlers_keep_the_days st r :
  build_indexes (activities_data (fst (handle st r))) =
    build_indexes (activities_data st) /\
  get_available_days (fst (handle st r)) = get_available_days st.
Proof.
  pose proof (handle_schedule st r) as Hs. split.
  - unfold build_indexes. now apply build_indexes_from_schedule.
  - unfold get_available_days, aggregate.
    now rewrite (collect_days_schedule _ _ [] Hs).
Qed.

(** * Start-up *)

Lemma heap_get_set_same {V : Type} r (v : V) h :
  assoc_get Nat.eqb r (assoc_set Nat.eqb r v h) = Some v.
Proof.
  induction h as [|[r' v'] h IH]; cbn [assoc_set assoc_get].
  - now rewrite Nat.eqb_refl.
  - destruct (Nat.eqb r' r) eqn:E; cbn [assoc_get]; now rewrite E.
Qed.

Lemma heap_get_set_other {V : Type} r r' (v : V) h :
  r <> r' -> assoc_get Nat.eqb r' (assoc_set Nat.eqb r v h) = assoc_get Nat.eqb r' h.
Proof.
  intros Hne. induction h as [|[r0 v0] h IH]; cbn [assoc_set assoc_get].
  - destruct (Nat.eqb r r') eqn:E; [apply Nat.eqb_eq in E; contradiction|reflexivity].
  - destruct (Nat.eqb r0 r) eqn:E; cbn [assoc_get].
    + apply Nat.eqb_eq in E. subst r0.
      destruct (Nat.eqb r r') eqn:E'; [apply Nat.eqb_eq in E'; contradiction|reflexivity].
    + now rewrite IH.
Qed.

Lemma deref_set_same r v h : Init.deref (assoc_set Nat.eqb r v h) r = v.
Proof. unfold Init.deref. now rewrite heap_get_set_same. Qed.

Lemma deref_set_other r r' v h :
  r <> r' -> Init.deref (assoc_set Nat.eqb r v h) r' = Init.deref h r'.
Proof. intros Hne. unfold Init.deref. now rewrite heap_get_set_other. Qed.

Lemma seed_teachers_load sha256_hexdigest :
  exists teachers,
    Seed.load_teachers (Seed.initial_teachers sha256_hexdigest) [] = Ok teachers /\
    teachers <> [].
Proof. eexists. split; [reflexivity|discriminate]. Qed.

Lemma seed_index_builds :
  exists idx, build_indexes Seed.initial_activities = Ok idx.
Proof. eexists. vm_compute. reflexivity. Qed.

Lemma refs_allocated_lt m :
  Init.refs_allocated m = true ->
  Init.g_activities_data m < Init.next_object m /\
  Init.g_teachers_data m < Init.next_object m /\
  Init.activities_collection m < Init.next_object m /\
  Init.teachers_collection m < Init.next_object m.
Proof.
  unfold Init.refs_allocated. intros H.
  repeat (apply andb_prop in H as [H ?]).
  repeat match goal with H : (_ <? _)%nat = true |- _ => apply Nat.ltb_lt in H end.
  auto.
Qed.

(** X23: [init_database] gives the global name a new dict and does not
    fill the one it had.  When the dict of [activities_data] is empty, the
    function succeeds, the name is afterwards bound to the seed activities
    and the index is built from them, but the dict a collection holds is
    what it was: a collection built with the dict the name had before, as
    [activities_collection] is, is still empty. *)
Theorem init_database_rebinds sha256_hexdigest m :
  Init.refs_allocated m = true ->
  Init.deref (Init.objects m) (Init.g_activities_data m) = [] ->
  Init.g_teachers_data m <> Init.activities_collection m ->
  exists m',
    Init.init_database sha256_hexdigest m = Ok m' /\
    Init.deref (Init.objects m') (Init.g_activities_data m') = Seed.initial_activities /\
    build_indexes Seed.initial_activities = Ok (Init.g_day_index m') /\
    Init.activities_collection m' = Init.activities_collection m /\
    Init.deref (Init.objects m') (Init.activities_collection m') =
      Init.deref (Init.objects m) (Init.activities_collection m) /\
    (Init.activities_collection m = Init.g_activities_data m ->
     Init.deref (Init.objects m') (Init.activities_collection m') = []).
Proof.
  intros Hrefs Hempty Hdistinct.
  destruct (refs_allocated_lt _ Hrefs) as (Ha & Ht & Hc & _).
  destruct seed_index_builds as [idx Hidx].
  destruct (seed_teachers_load sha256_hexdigest) as (teachers & Hload & _).
  unfold Init.init_database. rewrite Hempty.
  set (fresh := Init.next_object m) in *.
  set (objects1 := assoc_set Nat.eqb fresh Seed.initial_activities (Init.objects m)).
  assert (Hfresh_t : fresh <> Init.g_teachers_data m) by lia.
  assert (Hfresh_c : fresh <> Init.activities_collection m) by lia.
  destruct (Init.deref objects1 (Init.g_teachers_data m)) as [|p ts] eqn:Hteachers.
  - rewrite Hload. cbn [ebind].
    assert (Hseed : Init.deref
              (assoc_set Nat.eqb (Init.g_teachers_data m) teachers objects1) fresh =
            Seed.initial_activities).
    { rewrite deref_set_other by congruence. apply deref_set_same. }
    rewrite Hseed, Hidx. cbn [ebind].
    eexists. split; [reflexivity|].
    cbn [Init.objects Init.g_activities_data Init.g_day_index Init.activities_collection].
    split; [exact Hseed|]. split; [reflexivity|]. split; [reflexivity|].
    assert (Hcoll : Init.deref
              (assoc_set Nat.eqb (Init.g_teachers_data m) teachers objects1)
              (Init.activities_collection m) =
            Init.deref (Init.objects m) (Init.activities_collection m)).
    { rewrite deref_set_other by assumption. now apply deref_set_other. }
    split; [exact Hcoll|]. intros Heq. rewrite Hcoll, Heq. exact Hempty.
  - cbn [ebind].
    assert (Hseed : Init.deref objects1 fresh = Seed.initial_activities)
      by apply deref_set_same.
    rewrite Hseed, Hidx. cbn [ebind].
    eexists. split; [reflexivity|].
    cbn [Init.objects Init.g_activities_data Init.g_day_index Init.activities_collection].
    split; [exact Hseed|]. split; [reflexivity|]. split; [reflexivity|].
    assert (Hcoll : Init.deref objects1 (Init.activities_collection m) =
                    Init.deref (Init.objects m) (Init.activities_collection m))
      by now apply deref_set_other.
    split; [exact Hcoll|]. intros Heq. rewrite Hcoll, Heq. exact Hempty.
Qed.

Lemma init_database_rebinds_witness :
  (Init.refs_allocated Init.module_loaded = true /\
   Init.deref (Init.objects Init.module_loaded)
     (Init.g_activities_data Init.module_loaded) = [] /\
   Init.g_teachers_data Init.module_loaded <>
     Init.activities_collection Init.module_loaded) /\
  exists m',
    Init.init_database plain Init.module_loaded = Ok m' /\
    Init.deref (Init.objects m') (Init.g_activities_data m') = Seed.initial_activities /\
    Init.deref (Init.objects m') (Init.activities_collection m') = [].
Proof.
  split; [split; [reflexivity|split; [reflexivity|discriminate]]|].
  destruct (init_database_rebinds plain Init.module_loaded eq_refl eq_refl
              ltac:(discriminate))
    as (m' & Hinit & Hseed & _ & _ & _ & Hcoll).
  exists m'. split; [exact Hinit|]. split; [exact Hseed|]. exact (Hcoll eq_refl).
Defined.

Lemma seed_activities_nonempty : Seed.initial_activities <> [].
Proof. discriminate. Qed.

(** X24: [init_database] is idempotent.  Once it has succeeded, calling it
    again succeeds and changes nothing: neither dict is empty any more, so
    nothing is seeded, and the index is rebuilt from the same activities. *)
Theorem init_database_twice sha256_hexdigest m m1 :
  Init.refs_allocated m = true ->
  Init.g_teachers_data m <> Init.g_activities_data m ->
  Init.init_database sha256_hexdigest m = Ok m1 ->
  Init.init_database sha256_hexdigest m1 = Ok m1.
Proof.
  intros Hrefs Hdistinct.
  destruct (refs_allocated_lt _ Hrefs) as (Ha & Ht & _ & _).
  destruct (seed_teachers_load sha256_hexdigest) as (teachers & Hload & Hne).
  destruct m as [objects next ga gt ca ct idx0].
  cbn [Init.g_activities_data Init.g_teachers_data Init.next_object] in *.
  assert (Hnext : next <> gt) by lia.
  (* the second call, once the two dicts are known not to be empty *)
  assert (Hsecond : forall objects2 next1 ga1 idx,
    Init.deref objects2 ga1 <> [] -> Init.deref objects2 gt <> [] ->
    build_indexes (Init.deref objects2 ga1) = Ok idx ->
    Init.init_database sha256_hexdigest
      {| Init.objects := objects2; Init.next_object := next1;
         Init.g_activities_data := ga1; Init.g_teachers_data := gt;
         Init.activities_collection := ca; Init.teachers_collection := ct;
         Init.g_day_index := idx |} =
    Ok {| Init.objects := objects2; Init.next_object := next1;
          Init.g_activities_data := ga1; Init.g_teachers_data := gt;
          Init.activities_collection := ca; Init.teachers_collection := ct;
          Init.g_day_index := idx |}).
  { intros objects2 next1 ga1 idx Hacts2 Hteachers2 Hidx.
    unfold Init.init_database.
    cbn [Init.objects Init.g_activities_data Init.g_teachers_data Init.next_object
         Init.activities_collection Init.teachers_collection].
    destruct (Init.deref objects2 ga1) as [|a0 acts] eqn:E1; [contradiction|].
    cbv beta iota zeta.
    destruct (Init.deref objects2 gt) as [|p ts] eqn:E2; [contradiction|].
    cbn [ebind]. rewrite ?E1, Hidx. reflexivity. }
  unfold Init.init_database at 1.
  cbn [Init.objects Init.g_activities_data Init.g_teachers_data Init.next_object
       Init.activities_collection Init.teachers_collection].
  destruct (Init.deref objects ga) as [|a0 acts] eqn:Hacts; cbv beta iota zeta.
  - (* the activities are seeded into a new dict *)
    destruct (Init.deref (assoc_set Nat.eqb next Seed.initial_activities objects) gt)
      as [|p ts] eqn:Hteachers.
    + rewrite Hload. cbn [ebind].
      match goal with
      | |- context [build_indexes (Init.deref ?o ?r)] =>
          assert (Hseed : Init.deref o r = Seed.initial_activities)
            by (rewrite deref_set_other by congruence; apply deref_set_same);
          assert (Ht2 : Init.deref o gt = teachers) by apply deref_set_same;
          destruct (build_indexes (Init.deref o r)) as [idx|e] eqn:Hidx
      end; cbn [ebind]; [|discriminate].
      intros [= <-]. apply Hsecond; [| |exact Hidx].
      * rewrite Hseed. apply seed_activities_nonempty.
      * now rewrite Ht2.
    + cbn [ebind].
      match goal with
      | |- context [build_indexes (Init.deref ?o ?r)] =>
          assert (Hseed : Init.deref o r = Seed.initial_activities)
            by apply deref_set_same;
          destruct (build_indexes (Init.deref o r)) as [idx|e] eqn:Hidx
      end; cbn [ebind]; [|discriminate].
      intros [= <-]. apply Hsecond; [| |exact Hidx].
      * rewrite Hseed. apply seed_activities_nonempty.
      * rewrite Hteachers. discriminate.
  - (* the activities are kept *)
    destruct (Init.deref objects gt) as [|p ts] eqn:Hteachers.
    + rewrite Hload. cbn [ebind].
      match goal with
      | |- context [build_indexes (Init.deref ?o ?r)] =>
          assert (Hkeep : Init.deref o r = a0 :: acts)
            by (rewrite deref_set_other by assumption; exact Hacts);
          assert (Ht2 : Init.deref o gt = teachers) by apply deref_set_same;
          destruct (build_indexes (Init.deref o r)) as [idx|e] eqn:Hidx
      end; cbn [ebind]; [|discriminate].
      intros [= <-]. apply Hsecond; [| |exact Hidx].
      * rewrite Hkeep. discriminate.
      * now rewrite Ht2.
    + cbn [ebind].
      destruct (build_indexes (Init.deref objects ga)) as [idx|e] eqn:Hidx;
        cbn [ebind]; [|discriminate].
      intros [= <-]. apply Hsecond; [| |exact Hidx].
      * rewrite Hacts. discriminate.
      * rewrite Hteachers. discriminate.
Qed.

Lemma init_database_twice_witness :
  (Init.refs_allocated Init.module_loaded = true /\
   Init.g_teachers_data Init.module_loaded <> Init.g_activities_data Init.module_loaded /\
   Init.init_database plain Init.module_loaded =
     Ok (match Init.init_database plain Init.module_loaded with
         | Ok m1 => m1
         | Raise _ => Init.module_loaded
         end)) /\
  Init.init_database plain
    (match Init.init_database plain Init.module_loaded with
     | Ok m1 => m1
     | Raise _ => Init.module_loaded
     end) =
  Ok (match Init.init_database plain Init.module_loaded with
      | Ok m1 => m1
      | Raise _ => Init.module_loaded
      end).
Proof.
  split; [split; [reflexivity|split; [discriminate|reflexivity]]|].
  exact (init_database_twice plain Init.module_loaded _ eq_refl
           ltac:(discriminate) eq_refl).
Defined.
